(** * WaveformSet: a shallow embedding of [src/waffles/WaveformSet.py]

    The development follows the Python class method by method.  Python
    integers are [Z]; Python lists and tuples are [list]; the [Runs] set is
    a [gset Z] and the [AvailableChannels] dictionary a
    [gmap Z (gset Z)].  A method that may raise returns a [result]; a
    method that mutates the object returns the new object next to its
    result, also when it raises, so that what a failing call leaves behind
    can be stated.

    Numbers.  The [Adcs] array of a waveform holds ADC counts: an array
    of one of NumPy's integer types, modelled as the list of its values,
    a [list Z], next to its type, an [Np.dtype].  An addition written into
    such an array wraps around in its type ([Np.iadd_into]).  The
    accumulators that the averaging methods make with [np.zeros] are float
    arrays holding sums of counts, modelled as [list Z]; the averaged
    array [aux/len(...)] is a float array, modelled by exact reduced
    rationals ([Qred]), so that Leibniz equality of two averaged arrays is
    equality of their values. *)

From Stdlib Require Import ZArith QArith Sorted Ascii String.
From stdpp Require Import base gmap strings list pretty.

Local Open Scope Z_scope.

(** ** Python values, errors and sequences *)

Module Py.

(** What a call can raise.  [GenericException code reporter] is
    [Exception(generate_exception_message(code, reporter, ...))]; the
    others are the interpreter's own errors. *)
Inductive error : Type :=
| GenericException (code : Z) (reporter : string)
| IndexError
| TypeError
| ValueError
| KeyError.

Inductive result (A : Type) : Type :=
| Ok (a : A)
| Raise (e : error).
Arguments Ok {A} a.
Arguments Raise {A} e.

#[export] Instance error_eq_dec : EqDecision error.
Proof. solve_decision. Defined.

#[export] Instance result_ret : MRet result := fun _ a => Ok a.
#[export] Instance result_bind : MBind result := fun _ _ f m =>
  match m with
  | Ok a => f a
  | Raise e => Raise e
  end.

Definition len {A} (l : list A) : Z := Z.of_nat (length l).

(** [range(stop)] and [range(start, stop)]. *)
Definition range (stop : Z) : list Z := seqZ 0 stop.
Definition range2 (start stop : Z) : list Z := seqZ start (stop - start).

(** [l[idx]]: a negative [idx] counts from the end. *)
Definition getitem {A} (l : list A) (idx : Z) : result A :=
  let i := if idx <? 0 then idx + len l else idx in
  if i <? 0 then Raise IndexError
  else match l !! Z.to_nat i with
       | Some x => Ok x
       | None => Raise IndexError
       end.

End Py.
Import Py.

(** ** NumPy arrays of one dimension *)

Module Np.

(** The integer types of an array. *)
Inductive dtype : Type :=
| int8 | int16 | int32 | int64
| uint8 | uint16 | uint32 | uint64.

Definition bits (d : dtype) : Z :=
  match d with
  | int8 | uint8 => 8
  | int16 | uint16 => 16
  | int32 | uint32 => 32
  | int64 | uint64 => 64
  end.

Definition is_signed (d : dtype) : bool :=
  match d with
  | int8 | int16 | int32 | int64 => true
  | uint8 | uint16 | uint32 | uint64 => false
  end.

(** [np.iinfo(d).min] and [np.iinfo(d).max]. *)
Definition iinfo_min (d : dtype) : Z :=
  if is_signed d then - 2 ^ (bits d - 1) else 0.
Definition iinfo_max (d : dtype) : Z :=
  if is_signed d then 2 ^ (bits d - 1) - 1 else 2 ^ bits d - 1.

(** The value of an integer once stored in an array of type [d]: the one
    value of that type that differs from it by a multiple of
    [2 ^ bits d]. *)
Definition cast (d : dtype) (x : Z) : Z :=
  (x - iinfo_min d) mod 2 ^ bits d + iinfo_min d.

(** A signed type and [uint64] have no integer type in common: NumPy
    promotes the pair to [float64]. *)
Definition promoted_to_float64 (da db : dtype) : bool :=
  match is_signed da, is_signed db with
  | true, false => bits db =? 64
  | false, true => bits da =? 64
  | _, _ => false
  end.

(** [np.zeros((n,))]. *)
Definition zeros (n : Z) : list Z := replicate (Z.to_nat n) 0.

(** [a += b] on one-dimensional arrays, [a] a float array as [np.zeros]
    makes it: [b] must have the shape of [a] or be broadcastable to it (one
    element); the result is the new content of the array object [a]. *)
Definition iadd (a b : list Z) : result (list Z) :=
  if bool_decide (length b = length a) then Ok (zip_with Z.add a b)
  else match b with
       | [b0] => Ok ((fun x => x + b0) <$> a)
       | _ => Raise ValueError
       end.

(** [a += b] where [a] is an integer array of type [da] and [b] one of type
    [db].  The types are looked at first: the sum has the type that the
    two are promoted to and must be cast back to [da] under the rule
    [same_kind], which a [float64] sum is not (a [UFuncTypeError], which is
    a [TypeError]).  Then the shapes, as in [iadd].  The sums are stored
    in [a] in its own type, so they wrap around. *)
Definition iadd_into (da : dtype) (a : list Z) (db : dtype) (b : list Z)
  : result (list Z) :=
  if promoted_to_float64 da db then Raise TypeError
  else match iadd a b with
       | Ok sums => Ok (cast da <$> sums)
       | Raise e => Raise e
       end.

(** [a / n] with [n] a positive Python integer: true division. *)
Definition true_divide (a : list Z) (n : Z) : list Q :=
  (fun s => Qred (inject_Z s / inject_Z n)) <$> a.

End Np.

(** ** The records *)

(** The analysis attached to a waveform under a label; [WfAna(baseline_limits,
    int_ll, int_ul)] is how [WaveformSet.analyse] builds one. *)
Record WfAna : Type := mkWfAna {
  BaselineLimits : list Z;
  IntLl : Z;
  IntUl : Z;
  Passed : option bool;
}.

(** [Waveform(timestamp, time_step_ns, adcs, run_number, endpoint, channel)].
    The array [adcs] is its values, [Adcs], and its type, [Adcs_dtype]. *)
Record Waveform : Type := mkWaveform {
  Timestamp : Z;
  TimeStep_ns : Z;
  Adcs : list Z;
  Adcs_dtype : Np.dtype;
  RunNumber : Z;
  Endpoint : Z;
  Channel : Z;
  Analyses : gmap string WfAna;
}.

(** [WaveformAdcs(time_step_ns, adcs)] as the averaging methods build it. *)
Record WaveformAdcs : Type := mkWaveformAdcs {
  mean_TimeStep_ns : Z;
  mean_Adcs : list Q;
}.

Definition set_Adcs (wf : Waveform) (adcs : list Z) : Waveform :=
  mkWaveform (Timestamp wf) (TimeStep_ns wf) adcs (Adcs_dtype wf) (RunNumber wf)
             (Endpoint wf) (Channel wf) (Analyses wf).

Record WaveformSet : Type := mkWaveformSet {
  Waveforms : list Waveform;
  PointsPerWf : Z;
  Runs : gset Z;
  AvailableChannels : gmap Z (gset Z);
  MeanAdcs : option WaveformAdcs;
  MeanAdcsIdcs : option (list Z);
}.

Definition set_Waveforms (ws : WaveformSet) (wfs : list Waveform) : WaveformSet :=
  mkWaveformSet wfs (PointsPerWf ws) (Runs ws) (AvailableChannels ws)
                (MeanAdcs ws) (MeanAdcsIdcs ws).

Definition set_Mean (ws : WaveformSet) (m : WaveformAdcs) (idcs : list Z) : WaveformSet :=
  mkWaveformSet (Waveforms ws) (PointsPerWf ws) (Runs ws) (AvailableChannels ws)
                (Some m) (Some idcs).

(** ** Construction *)

(** The loop of [check_length_homogeneity] over [range(1, len(waveforms))]. *)
Fixpoint check_length_homogeneity_loop
    (waveforms : list Waveform) (length_ : Z) (idcs : list Z) : result bool :=
  match idcs with
  | [] => Ok true
  | i :: idcs' =>
      wf ← getitem waveforms i;
      if bool_decide (len (Adcs wf) ≠ length_) then Ok false
      else check_length_homogeneity_loop waveforms length_ idcs'
  end.

Definition check_length_homogeneity (waveforms : list Waveform) : result bool :=
  wf0 ← getitem waveforms 0;
  check_length_homogeneity_loop waveforms (len (Adcs wf0))
                                (range2 1 (len waveforms)).

Definition update_runs (waveforms : list Waveform) (runs : gset Z) : gset Z :=
  foldl (fun runs wf => {[RunNumber wf]} ∪ runs) runs waveforms.

Definition update_available_channels
    (waveforms : list Waveform) (chans : gmap Z (gset Z)) : gmap Z (gset Z) :=
  foldl (fun chans wf =>
           match chans !! Endpoint wf with
           | Some s => <[Endpoint wf := {[Channel wf]} ∪ s]> chans
           | None => <[Endpoint wf := {[Channel wf]} ∪ ∅]> chans
           end) chans waveforms.

(** The errors of the constructor and the names the specification gives
    them. *)
Definition ShapeError : error := GenericException 1 "WaveformSet.__init__()".

(** [WaveformSet.__init__], called with the unpacked list [waveforms]. *)
Definition WaveformSet_init (waveforms : list Waveform) : result WaveformSet :=
  homogeneous ← check_length_homogeneity waveforms;
  if negb homogeneous then Raise ShapeError
  else
    wf0 ← getitem waveforms 0;
    Ok (mkWaveformSet waveforms
                      (len (Adcs wf0))
                      (update_runs waveforms ∅)
                      (update_available_channels waveforms ∅)
                      None None).


(** ** Call signatures, as [inspect.signature] reports them *)

Inductive annotation : Type :=
| ann_empty                     (* no annotation *)
| ann_Waveform                  (* the class Waveform *)
| ann_WaveformAdcs              (* the class WaveformAdcs *)
| ann_str (literal : string)    (* a string literal used as an annotation *)
| ann_bool
| ann_int
| ann_analyser_return           (* Tuple[WfAnaResult, bool, dict] *)
| ann_other (name : string).

#[export] Instance annotation_eq_dec : EqDecision annotation.
Proof. solve_decision. Defined.

Record parameter : Type := mkParameter {
  param_name : string;
  param_annotation : annotation;
}.

Record signature : Type := mkSignature {
  parameters : list parameter;
  return_annotation : annotation;
}.

(** [list(signature.parameters.keys())[0]]. *)
Definition first_parameter_name (sig : signature) : result string :=
  getitem (param_name <$> parameters sig) 0.

(** [signature.parameters[name].annotation]. *)
Definition annotation_of (sig : signature) (name : string) : result annotation :=
  match List.find (fun p => bool_decide (param_name p = name)) (parameters sig) with
  | Some p => Ok (param_annotation p)
  | None => Raise KeyError
  end.

(** ** The three ready-made predicates *)

Definition match_run (waveform : Waveform) (run : Z) : bool :=
  bool_decide (RunNumber waveform = run).

Definition match_channel (waveform : Waveform) (channel : Z) : bool :=
  bool_decide (Channel waveform = channel).

Definition match_endpoint_and_channel
    (waveform : Waveform) (endpoint channel : Z) : bool :=
  bool_decide (Endpoint waveform = endpoint)
  && bool_decide (Channel waveform = channel).

(** A function object that can be given as [wf_filter] or [wf_selector]:
    one of the static methods above, recognised by identity, or any other
    function, known by its signature and by what it returns on a waveform
    and a list of positional arguments. *)
Inductive callable : Type :=
| WaveformSet_match_run
| WaveformSet_match_channel
| WaveformSet_match_endpoint_and_channel
| function (sig : signature) (body : Waveform -> list Z -> result bool).

Definition inspect_signature (f : callable) : signature :=
  match f with
  | WaveformSet_match_run =>
      mkSignature [mkParameter "waveform" ann_Waveform; mkParameter "run" ann_int]
                  ann_bool
  | WaveformSet_match_channel =>
      mkSignature [mkParameter "waveform" ann_Waveform; mkParameter "channel" ann_int]
                  ann_bool
  | WaveformSet_match_endpoint_and_channel =>
      mkSignature [mkParameter "waveform" ann_Waveform;
                   mkParameter "endpoint" ann_int; mkParameter "channel" ann_int]
                  ann_bool
  | function sig _ => sig
  end.

(** [f(waveform, *args)]: a call with too few or too many arguments is a
    [TypeError]. *)
Definition call (f : callable) (waveform : Waveform) (args : list Z) : result bool :=
  match f with
  | WaveformSet_match_run =>
      match args with
      | [run] => Ok (match_run waveform run)
      | _ => Raise TypeError
      end
  | WaveformSet_match_channel =>
      match args with
      | [channel] => Ok (match_channel waveform channel)
      | _ => Raise TypeError
      end
  | WaveformSet_match_endpoint_and_channel =>
      match args with
      | [endpoint; channel] =>
          Ok (match_endpoint_and_channel waveform endpoint channel)
      | _ => Raise TypeError
      end
  | function _ body => body waveform args
  end.

(** ** analyse *)

Definition baseline_limits_loop_step (baseline_limits : list Z) (i : Z) : result bool :=
  a ← getitem baseline_limits i;
  b ← getitem baseline_limits (i + 1);
  Ok (bool_decide (a >= b)).

(** The loop over [range(0, len(baseline_limits) - 1)]: [Ok false] is the
    early [return False], [Ok true] is falling out of the loop. *)
Fixpoint baseline_limits_loop (baseline_limits : list Z) (idcs : list Z) : result bool :=
  match idcs with
  | [] => Ok true
  | i :: idcs' =>
      stop ← baseline_limits_loop_step baseline_limits i;
      if (stop : bool) then Ok false
      else baseline_limits_loop baseline_limits idcs'
  end.

Definition baseline_limits_are_well_formed
    (ws : WaveformSet) (baseline_limits : list Z) : result bool :=
  if bool_decide (len baseline_limits `mod` 2 ≠ 0) then Ok false
  else
    first ← getitem baseline_limits 0;
    if bool_decide (first < 0) then Ok false
    else
      increasing ← baseline_limits_loop baseline_limits
                     (range2 0 (len baseline_limits - 1));
      if negb increasing then Ok false
      else
        last ← getitem baseline_limits (-1);
        if bool_decide (last > PointsPerWf ws - 1) then Ok false
        else Ok true.

Definition subinterval_is_well_formed (ws : WaveformSet) (i_low i_up : Z) : bool :=
  if bool_decide (i_low < 0) then false
  else if bool_decide (i_up <= i_low) then false
  else if bool_decide (i_up > PointsPerWf ws - 1) then false
  else true.

Definition MalformedLimitsError : error := GenericException 1 "WaveformSet.analyse()".
Definition MalformedWindowError : error := GenericException 2 "WaveformSet.analyse()".

(** The checks on the analyser's signature, inside the [try] whose
    [IndexError] becomes exception 8. *)
Definition check_analyser_signature (sig : signature) : result unit :=
  let checks : result unit :=
    name ← first_parameter_name sig;
    if bool_decide (name ≠ "waveform"%string)
    then Raise (GenericException 5 "WaveformSet.analyse()")
    else
      ann ← annotation_of sig "waveform";
      if bool_decide (ann ∉ [ann_str "WaveformAdcs"; ann_WaveformAdcs])
      then Raise (GenericException 6 "WaveformSet.analyse()")
      else if bool_decide (return_annotation sig ≠ ann_analyser_return)
      then Raise (GenericException 7 "WaveformSet.analyse()")
      else Ok () in
  match checks with
  | Raise IndexError => Raise (GenericException 8 "WaveformSet.analyse()")
  | r => r
  end.

Section Analyse.

(** What lives outside this class: the attributes of a [WfAna] object
    ([None]: no such attribute; [Some None]: an attribute that is not
    callable; [Some (Some sig)]: a method and its signature), the type of
    the dictionary an analysis returns, and [Waveform.analyse], which
    returns that dictionary and leaves the waveform with a new entry in
    its [Analyses]. *)
Variable WfAna_getattr : string -> option (option signature).
Variable SideOutput : Type.
Variable Waveform_analyse :
  string -> string -> list Z -> list Z -> Z -> Z -> bool ->
  Waveform -> result SideOutput * Waveform.

(** The loop of [analyse] over [range(len(waveforms))]: each waveform is
    analysed in place; a raise leaves the earlier ones analysed. *)
Fixpoint analyse_loop
    (label analyser_name : string) (baseline_limits args : list Z)
    (int_ll int_ul : Z) (overwrite : bool)
    (idcs : list Z) (waveforms : list Waveform) (output : gmap Z SideOutput)
  : result (gmap Z SideOutput) * list Waveform :=
  match idcs with
  | [] => (Ok output, waveforms)
  | i :: idcs' =>
      match getitem waveforms i with
      | Raise e => (Raise e, waveforms)
      | Ok wf =>
          match Waveform_analyse label analyser_name baseline_limits args
                                 int_ll int_ul overwrite wf with
          | (Raise e, wf') => (Raise e, <[Z.to_nat i := wf']> waveforms)
          | (Ok out, wf') =>
              analyse_loop label analyser_name baseline_limits args
                           int_ll int_ul overwrite idcs'
                           (<[Z.to_nat i := wf']> waveforms)
                           (<[i := out]> output)
          end
      end
  end.

(** The checks of [analyse] that come before any waveform is touched; they
    return the resolved upper integration limit. *)
Definition analyse_checks
    (ws : WaveformSet) (analyser_name : string) (baseline_limits : list Z)
    (int_ll : Z) (int_ul : option Z) : result Z :=
  well_formed ← baseline_limits_are_well_formed ws baseline_limits;
  if negb well_formed then Raise MalformedLimitsError
  else
    let int_ul_ := match int_ul with
                   | None => PointsPerWf ws - 1
                   | Some u => u
                   end in
    if negb (subinterval_is_well_formed ws int_ll int_ul_)
    then Raise MalformedWindowError
    else
      match WfAna_getattr analyser_name with
      | None => Raise (GenericException 3 "WaveformSet.analyse()")
      | Some None => Raise (GenericException 4 "WaveformSet.analyse()")
      | Some (Some sig) =>
          _ ← check_analyser_signature sig;
          Ok int_ul_
      end.

Definition analyse
    (ws : WaveformSet) (label analyser_name : string)
    (baseline_limits args : list Z)
    (int_ll : Z) (int_ul : option Z) (overwrite : bool)
  : result (gmap Z SideOutput) * WaveformSet :=
  match analyse_checks ws analyser_name baseline_limits int_ll int_ul with
  | Raise e => (Raise e, ws)
  | Ok int_ul_ =>
      let (r, waveforms') :=
        analyse_loop label analyser_name baseline_limits args
                     int_ll int_ul_ overwrite
                     (range (len (Waveforms ws))) (Waveforms ws) ∅ in
      (r, set_Waveforms ws waveforms')
  end.

End Analyse.

(** ** Grids of waveform indices *)

Abbreviation grid := (list (list (list Z))).

(** [[[] for _ in range(ncols)] for _ in range(nrows)], behind its guard. *)
Definition get_2D_empty_nested_list (nrows ncols : Z) : result grid :=
  if bool_decide (nrows < 1) || bool_decide (ncols < 1)
  then Raise (GenericException 1 "WaveformSet.get_2D_empty_nested_list()")
  else Ok ((fun _ => (fun _ => []) <$> range ncols) <$> range nrows).

Definition get_2D_indices_nested_list
    (indices_per_slot nrows ncols : Z) : result grid :=
  if bool_decide (nrows < 1) || bool_decide (ncols < 1)
  then Raise (GenericException 1 "WaveformSet.get_2D_indices_nested_list()")
  else if bool_decide (indices_per_slot < 1)
  then Raise (GenericException 2 "WaveformSet.get_2D_indices_nested_list()")
  else Ok ((fun i =>
              (fun j =>
                 (fun k => k + indices_per_slot * (j + (ncols * i)))
                   <$> range indices_per_slot)
                <$> range ncols)
             <$> range nrows).

Definition grid_of_lists_is_well_formed
    {A} (g : list (list A)) (nrows ncols : Z) : result bool :=
  if bool_decide (nrows < 1) || bool_decide (ncols < 1)
  then Raise (GenericException 1 "WaveformSet.grid_of_lists_is_well_formed()")
  else if bool_decide (len g ≠ nrows) then Ok false
  else Ok (forallb (fun row => negb (bool_decide (len row ≠ ncols))) g).

(** The scan [for k in range(len(waveforms))] of the three filtering
    methods, with the counter and its [break]: [test] is the call of the
    filter on a waveform and [cell] is [blank_grid[i][j]], to which the
    indices are appended. *)
Fixpoint scan_with_max
    (waveforms : list Waveform) (test : Waveform -> result bool)
    (max_wfs_per_axes : option Z)
    (ks : list Z) (counter : Z) (cell : list Z) : result (list Z) :=
  match ks with
  | [] => Ok cell
  | k :: ks' =>
      wf ← getitem waveforms k;
      passed ← test wf;
      if (passed : bool) then
        let cell' := cell ++ [k] in
        let counter' := counter + 1 in
        if bool_decide (Some counter' = max_wfs_per_axes) then Ok cell'
        else scan_with_max waveforms test max_wfs_per_axes ks' counter' cell'
      else scan_with_max waveforms test max_wfs_per_axes ks' counter cell
  end.

(** The same scan when no maximum is set. *)
Fixpoint scan_without_max
    (waveforms : list Waveform) (test : Waveform -> result bool)
    (ks : list Z) (cell : list Z) : result (list Z) :=
  match ks with
  | [] => Ok cell
  | k :: ks' =>
      wf ← getitem waveforms k;
      passed ← test wf;
      if (passed : bool)
      then scan_without_max waveforms test ks' (cell ++ [k])
      else scan_without_max waveforms test ks' cell
  end.

Definition scan
    (waveforms : list Waveform) (test : Waveform -> result bool)
    (fMaxIsSet : bool) (max_wfs_per_axes : option Z)
    (cell : list Z) : result (list Z) :=
  if fMaxIsSet
  then scan_with_max waveforms test max_wfs_per_axes
                     (range (len waveforms)) 0 cell
  else scan_without_max waveforms test (range (len waveforms)) cell.

(** [for j in range(len(blank_grid[i]))]: the cells of row [i] from column
    [j] on, each replaced by what [body i j] leaves in it. *)
Fixpoint for_each_column
    (body : Z -> Z -> list Z -> result (list Z))
    (i j : Z) (row : list (list Z)) : result (list (list Z)) :=
  match row with
  | [] => Ok []
  | cell :: row' =>
      cell' ← body i j cell;
      row'' ← for_each_column body i (j + 1) row';
      Ok (cell' :: row'')
  end.

(** [for i in range(len(blank_grid))]: the rows from [i] on. *)
Fixpoint for_each_row
    (body : Z -> Z -> list Z -> result (list Z))
    (i : Z) (blank_grid : grid) : result grid :=
  match blank_grid with
  | [] => Ok []
  | row :: rows =>
      row' ← for_each_column body i 0 row;
      rows' ← for_each_row body (i + 1) rows;
      Ok (row' :: rows')
  end.

(** [filter_args[i][j]]. *)
Definition filter_args_at (filter_args : grid) (i j : Z) : result (list Z) :=
  row ← getitem filter_args i;
  getitem row j.

Definition __get_grid_of_wf_idcs_by_run
    (ws : WaveformSet) (blank_grid filter_args : grid)
    (fMaxIsSet : bool) (max_wfs_per_axes : option Z) : result grid :=
  for_each_row
    (fun i j cell =>
       args ← filter_args_at filter_args i j;
       run ← getitem args 0;
       if bool_decide (run ∉ Runs ws) then Ok cell
       else scan (Waveforms ws)
                 (fun wf =>
                    args ← filter_args_at filter_args i j;
                    call WaveformSet_match_run wf args)
                 fMaxIsSet max_wfs_per_axes cell)
    0 blank_grid.

Definition __get_grid_of_wf_idcs_by_endpoint_and_channel
    (ws : WaveformSet) (blank_grid filter_args : grid)
    (fMaxIsSet : bool) (max_wfs_per_axes : option Z) : result grid :=
  for_each_row
    (fun i j cell =>
       args ← filter_args_at filter_args i j;
       endpoint ← getitem args 0;
       match AvailableChannels ws !! endpoint with
       | None => Ok cell
       | Some channels =>
           args ← filter_args_at filter_args i j;
           channel ← getitem args 1;
           if bool_decide (channel ∉ channels) then Ok cell
           else scan (Waveforms ws)
                     (fun wf =>
                        args ← filter_args_at filter_args i j;
                        call WaveformSet_match_endpoint_and_channel wf args)
                     fMaxIsSet max_wfs_per_axes cell
       end)
    0 blank_grid.

Definition __get_grid_of_wf_idcs_general
    (ws : WaveformSet) (blank_grid : grid) (wf_filter : callable)
    (filter_args : grid)
    (fMaxIsSet : bool) (max_wfs_per_axes : option Z) : result grid :=
  for_each_row
    (fun i j cell =>
       scan (Waveforms ws)
            (fun wf =>
               args ← filter_args_at filter_args i j;
               call wf_filter wf args)
            fMaxIsSet max_wfs_per_axes cell)
    0 blank_grid.

Definition FilterContractError_name : error :=
  GenericException 4 "WaveformSet.get_grid_of_wf_idcs()".
Definition FilterContractError_annotation : error :=
  GenericException 5 "WaveformSet.get_grid_of_wf_idcs()".

(** The checks of the filtering mode of [get_grid_of_wf_idcs]; they return
    the filter and its arguments, now known to be defined, and
    [fMaxIsSet]. *)
Definition filtering_mode_checks
    (nrows ncols : Z) (wf_filter : option callable)
    (filter_args : option grid) (max_wfs_per_axes : option Z)
  : result (callable * grid * bool) :=
  match wf_filter with
  | None => Raise (GenericException 3 "WaveformSet.get_grid_of_wf_idcs()")
  | Some f =>
      let sig := inspect_signature f in
      name ← first_parameter_name sig;
      if bool_decide (name ≠ "waveform"%string) then Raise FilterContractError_name
      else
        ann ← annotation_of sig "waveform";
        if bool_decide (ann ≠ ann_Waveform) then Raise FilterContractError_annotation
        else
          match filter_args with
          | None => Raise (GenericException 6 "WaveformSet.get_grid_of_wf_idcs()")
          | Some fa =>
              well_formed ← grid_of_lists_is_well_formed fa nrows ncols;
              if negb well_formed
              then Raise (GenericException 7 "WaveformSet.get_grid_of_wf_idcs()")
              else
                match max_wfs_per_axes with
                | None => Ok (f, fa, false)
                | Some m =>
                    if bool_decide (m < 1)
                    then Raise (GenericException 8 "WaveformSet.get_grid_of_wf_idcs()")
                    else Ok (f, fa, true)
                end
          end
  end.

Definition get_grid_of_wf_idcs
    (ws : WaveformSet) (nrows ncols : Z) (wfs_per_axes : option Z)
    (wf_filter : option callable) (filter_args : option grid)
    (max_wfs_per_axes : option Z) : result grid :=
  if bool_decide (nrows < 1) || bool_decide (ncols < 1)
  then Raise (GenericException 1 "WaveformSet.get_grid_of_wf_idcs()")
  else
    match wfs_per_axes with
    | Some n =>
        if bool_decide (n < 1)
        then Raise (GenericException 2 "WaveformSet.get_grid_of_wf_idcs()")
        else get_2D_indices_nested_list n nrows ncols
    | None =>
        '(f, fa, fMaxIsSet) ← filtering_mode_checks nrows ncols wf_filter
                                                    filter_args max_wfs_per_axes;
        output ← get_2D_empty_nested_list nrows ncols;
        match f with
        | WaveformSet_match_run =>
            __get_grid_of_wf_idcs_by_run ws output fa fMaxIsSet max_wfs_per_axes
        | WaveformSet_match_endpoint_and_channel =>
            __get_grid_of_wf_idcs_by_endpoint_and_channel
              ws output fa fMaxIsSet max_wfs_per_axes
        | _ =>
            __get_grid_of_wf_idcs_general ws output f fa fMaxIsSet max_wfs_per_axes
        end
    end.

(** ** Mean waveforms *)

Definition is_valid_iterator_value (ws : WaveformSet) (iterator_value : Z) : bool :=
  if bool_decide (iterator_value < 0) then false
  else if bool_decide (iterator_value <= len (Waveforms ws) - 1) then true
  else false.

(** The loop of [__compute_mean_waveform_of_every_waveform].  There [aux] is
    not a new array: [aux = self.Waveforms[0].Adcs] binds it to the [Adcs]
    array of the first waveform (the getter hands out the attribute
    itself, as the getters of these classes do), so every [aux += ...] is
    an update of that waveform, written here as an update of the list of
    waveforms, and every sum is stored in the integer type of that array.
    The waveforms of a set are taken to be distinct objects, each with an
    array of its own: the set is the one holder of its waveforms, and no
    state is shared between two of them. *)
Fixpoint every_waveform_loop
    (idcs : list Z) (waveforms : list Waveform) : result unit * list Waveform :=
  match idcs with
  | [] => (Ok (), waveforms)
  | i :: idcs' =>
      match (wf0 ← getitem waveforms 0;
             wf ← getitem waveforms i;
             aux ← Np.iadd_into (Adcs_dtype wf0) (Adcs wf0)
                                (Adcs_dtype wf) (Adcs wf);
             Ok (set_Adcs wf0 aux)) with
      | Raise e => (Raise e, waveforms)
      | Ok wf0' => every_waveform_loop idcs' (<[0%nat := wf0']> waveforms)
      end
  end.

Definition __compute_mean_waveform_of_every_waveform
    (ws : WaveformSet) : result WaveformAdcs * WaveformSet :=
  match getitem (Waveforms ws) 0 with
  | Raise e => (Raise e, ws)
  | Ok _ =>
      match every_waveform_loop (range2 1 (len (Waveforms ws))) (Waveforms ws) with
      | (Raise e, waveforms') => (Raise e, set_Waveforms ws waveforms')
      | (Ok _, waveforms') =>
          let ws' := set_Waveforms ws waveforms' in
          match getitem waveforms' 0 with
          | Raise e => (Raise e, ws')
          | Ok wf0 =>
              let output :=
                mkWaveformAdcs (TimeStep_ns wf0)
                               (Np.true_divide (Adcs wf0) (len waveforms')) in
              (Ok output, set_Mean ws' output (range (len waveforms')))
          end
      end
  end.

(** The loop of [__compute_mean_waveform_with_selector]; [aux] and
    [added_wvfs] are local. *)
Fixpoint with_selector_loop
    (waveforms : list Waveform) (test : Waveform -> result bool)
    (idcs : list Z) (aux added_wvfs : list Z) : result (list Z * list Z) :=
  match idcs with
  | [] => Ok (aux, added_wvfs)
  | i :: idcs' =>
      wf ← getitem waveforms i;
      selected ← test wf;
      if (selected : bool) then
        aux' ← Np.iadd aux (Adcs wf);
        with_selector_loop waveforms test idcs' aux' (added_wvfs ++ [i])
      else with_selector_loop waveforms test idcs' aux added_wvfs
  end.

Definition EmptySelectionError_selector : error :=
  GenericException 1 "WaveformSet.__compute_mean_waveform_with_selector()".

Definition __compute_mean_waveform_with_selector
    (ws : WaveformSet) (wf_selector : callable) (args : list Z)
  : result WaveformAdcs * WaveformSet :=
  match
    ('(aux, added_wvfs) ← with_selector_loop
                             (Waveforms ws) (fun wf => call wf_selector wf args)
                             (range (len (Waveforms ws)))
                             (Np.zeros (PointsPerWf ws)) [];
     if bool_decide (len added_wvfs = 0) then Raise EmptySelectionError_selector
     else
       first ← getitem added_wvfs 0;
       wf ← getitem (Waveforms ws) first;
       Ok (mkWaveformAdcs (TimeStep_ns wf) (Np.true_divide aux (len added_wvfs)),
           added_wvfs))
  with
  | Raise e => (Raise e, ws)
  | Ok (output, added_wvfs) => (Ok output, set_Mean ws output added_wvfs)
  end.

(** The loop of [__compute_mean_waveform_of_given_waveforms]: the [try]
    holds both the lookup and the addition, and only an [IndexError] is
    caught. *)
Fixpoint given_waveforms_loop
    (waveforms : list Waveform)
    (wf_idcs : list Z) (aux added_wvfs : list Z) : result (list Z * list Z) :=
  match wf_idcs with
  | [] => Ok (aux, added_wvfs)
  | idx :: wf_idcs' =>
      match (wf ← getitem waveforms idx; Np.iadd aux (Adcs wf)) with
      | Raise IndexError => given_waveforms_loop waveforms wf_idcs' aux added_wvfs
      | Raise e => Raise e
      | Ok aux' =>
          given_waveforms_loop waveforms wf_idcs' aux' (added_wvfs ++ [idx])
      end
  end.

Definition __compute_mean_waveform_of_given_waveforms
    (ws : WaveformSet) (wf_idcs : list Z) : result WaveformAdcs * WaveformSet :=
  match
    ('(aux, added_wvfs) ← given_waveforms_loop
                             (Waveforms ws) wf_idcs (Np.zeros (PointsPerWf ws)) [];
     first ← getitem added_wvfs 0;
     wf ← getitem (Waveforms ws) first;
     Ok (mkWaveformAdcs (TimeStep_ns wf) (Np.true_divide aux (len added_wvfs)),
         added_wvfs))
  with
  | Raise e => (Raise e, ws)
  | Ok (output, added_wvfs) => (Ok output, set_Mean ws output added_wvfs)
  end.

Definition EmptyCollectionError : error :=
  GenericException 1 "WaveformSet.compute_mean_waveform()".
Definition SelectorContractError_name : error :=
  GenericException 2 "WaveformSet.compute_mean_waveform()".
Definition SelectorContractError_annotation : error :=
  GenericException 3 "WaveformSet.compute_mean_waveform()".
Definition SelectorContractError_return : error :=
  GenericException 4 "WaveformSet.compute_mean_waveform()".
Definition EmptySelectionError_idcs : error :=
  GenericException 5 "WaveformSet.compute_mean_waveform()".

Definition check_selector_signature (sig : signature) : result unit :=
  name ← first_parameter_name sig;
  if bool_decide (name ≠ "waveform"%string) then Raise SelectorContractError_name
  else
    ann ← annotation_of sig "waveform";
    if bool_decide (ann ≠ ann_Waveform) then Raise SelectorContractError_annotation
    else if bool_decide (return_annotation sig ≠ ann_bool)
    then Raise SelectorContractError_return
    else Ok ().

(** [compute_mean_waveform]: [args] are the positional arguments handed on
    to the selector; the keyword arguments handed on to it are part of
    [wf_selector] here. *)
Definition compute_mean_waveform
    (ws : WaveformSet) (args : list Z)
    (wf_idcs : option (list Z)) (wf_selector : option callable)
  : result WaveformAdcs * WaveformSet :=
  if bool_decide (len (Waveforms ws) = 0) then (Raise EmptyCollectionError, ws)
  else
    match wf_idcs, wf_selector with
    | None, None => __compute_mean_waveform_of_every_waveform ws
    | None, Some f =>
        match check_selector_signature (inspect_signature f) with
        | Raise e => (Raise e, ws)
        | Ok _ => __compute_mean_waveform_with_selector ws f args
        end
    | Some idcs, _ =>
        if existsb (is_valid_iterator_value ws) idcs
        then __compute_mean_waveform_of_given_waveforms ws idcs
        else (Raise EmptySelectionError_idcs, ws)
    end.

(** ** Python strings and the two methods that build or read them *)

Module PyStr.

(** [str(x)] for an integer: its decimal form, with a minus sign when
    negative. *)
Definition str (x : Z) : string := pretty x.

(** [s[start:stop]]: negative bounds count from the end, and bounds are
    brought back into the string. *)
Definition slice (s : string) (start stop : Z) : string :=
  let n := Z.of_nat (String.length s) in
  let norm := fun i => if i <? 0 then Z.max 0 (i + n) else Z.min i n in
  String.substring (Z.to_nat (norm start)) (Z.to_nat (norm stop - norm start)) s.

Definition digit_value (c : ascii) : option Z :=
  let n := Z.of_nat (nat_of_ascii c) in
  if (48 <=? n) && (n <=? 57) then Some (n - 48) else None.

Fixpoint digits_value (acc : Z) (s : string) : option Z :=
  match s with
  | EmptyString => Some acc
  | String c s' =>
      match digit_value c with
      | Some d => digits_value (10 * acc + d) s'
      | None => None
      end
  end.

Definition int_of_digits (s : string) : result Z :=
  match s with
  | EmptyString => Raise ValueError
  | _ => match digits_value 0 s with
         | Some v => Ok v
         | None => Raise ValueError
         end
  end.

(** [int(s)] on a string made of an optional sign and decimal digits, as
    the pieces of the decimal form of an integer are; anything else is a
    [ValueError].  (Python also accepts blanks around the number and
    underscores between digits; neither occurs in such a piece.) *)
Definition int (s : string) : result Z :=
  match s with
  | String "-" s' => v ← int_of_digits s'; Ok (- v)
  | String "+" s' => int_of_digits s'
  | _ => int_of_digits s
  end.

End PyStr.

(** The loop of [get_string_of_first_n_integers_if_available] over
    [range(actual_no)]. *)
Fixpoint get_string_of_first_n_integers_loop
    (input_list : list Z) (idcs : list Z) (output : string) : result string :=
  match idcs with
  | [] => Ok output
  | i :: idcs' =>
      x ← getitem input_list i;
      get_string_of_first_n_integers_loop
        input_list idcs' (output +:+ (PyStr.str x +:+ ","))
  end.

Definition get_string_of_first_n_integers_if_available
    (input_list : list Z) (queried_no : Z) : result string :=
  if bool_decide (queried_no < 1)
  then Raise (GenericException
                1 "WaveformSet.get_string_of_first_n_integers_if_available()")
  else
    let '(actual_no, fAppend) :=
      if bool_decide (queried_no > len input_list)
      then (len input_list, false)
      else (queried_no, true) in
    output ← get_string_of_first_n_integers_loop input_list (range actual_no) "";
    Ok (if negb fAppend then PyStr.slice output 0 (-1)
        else PyStr.slice output 0 (-1) +:+ ",...").

(** [get_endpoint_and_channel(input)]:
    [int(str(input)[0:3]), int(str(input)[3:5])]. *)
Definition get_endpoint_and_channel (input : Z) : result (Z * Z) :=
  endpoint ← PyStr.int (PyStr.slice (PyStr.str input) 0 3);
  channel ← PyStr.int (PyStr.slice (PyStr.str input) 3 5);
  Ok (endpoint, channel).

(** ** Predicates of the specification

    What the statements below compare the code with. *)

(** The trace of [wf] is as long as that of [wf0]. *)
Definition same_length_as (wf0 wf : Waveform) : bool :=
  bool_decide (len (Adcs wf) = len (Adcs wf0)).

(** Baseline limits as the specification wants them: an even number of
    them, strictly increasing, each within [0, points_per_wf - 1]. *)
Definition well_formed_limits (points_per_wf : Z) (baseline_limits : list Z) : Prop :=
  Z.even (len baseline_limits) = true /\
  Sorted Z.lt baseline_limits /\
  Forall (fun x => 0 <= x <= points_per_wf - 1) baseline_limits.

(** [x] followed by [rest] is strictly increasing. *)
Fixpoint increasing_from (x : Z) (rest : list Z) : bool :=
  match rest with
  | [] => true
  | y :: rest' => if bool_decide (x >= y) then false else increasing_from y rest'
  end.

(** Every cell of a grid of filter arguments holds [n] arguments. *)
Definition cells_have_arity (n : nat) (filter_args : grid) : Prop :=
  Forall (Forall (fun args : list Z => length args = n)) filter_args.

(** The derived attributes of a set cover its waveforms: the set is not
    empty, the run of every waveform is in [Runs], and the channel of
    every waveform is in [AvailableChannels] under its endpoint. *)
Definition derived_sets_cover (ws : WaveformSet) : Prop :=
  Waveforms ws <> [] /\
  (forall wf, wf ∈ Waveforms ws -> RunNumber wf ∈ Runs ws) /\
  (forall wf, wf ∈ Waveforms ws ->
     exists channels, AvailableChannels ws !! Endpoint wf = Some channels /\
                      Channel wf ∈ channels).

(** A function that is not the static method [f] itself, so that
    [get_grid_of_wf_idcs] takes the general path with it, but that has the
    signature of [f] and returns what [f] returns. *)
Definition wrapped (f : callable) : callable :=
  function (inspect_signature f) (call f).

(** The decimal forms of the integers of a list, each followed by a
    comma. *)
Fixpoint with_trailing_commas (l : list Z) : string :=
  match l with
  | [] => ""
  | x :: l' => PyStr.str x +:+ "," +:+ with_trailing_commas l'
  end.

(** ** Sample data *)

Definition sample_waveform (adcs : list Z) (run endpoint channel : Z) : Waveform :=
  mkWaveform 0 16 adcs Np.int16 run endpoint channel ∅.

(** Three waveforms of two samples each; runs 10, 11, 11. *)
Definition sample_waveforms : list Waveform :=
  [sample_waveform [1; 2] 10 1 1;
   sample_waveform [3; 4] 11 1 2;
   sample_waveform [10; 20] 11 2 2].

Definition sample_set : WaveformSet :=
  mkWaveformSet sample_waveforms 2
                (update_runs sample_waveforms ∅)
                (update_available_channels sample_waveforms ∅)
                None None.

(** A filter like [match_run], but whose return is not annotated. *)
Definition filter_without_return_annotation : callable :=
  function (mkSignature [mkParameter "waveform" ann_Waveform;
                         mkParameter "run" ann_int]
                        ann_empty)
           (call WaveformSet_match_run).

(** Two waveforms of two samples each, and the set made of them. *)
Definition sample_pair : list Waveform :=
  [sample_waveform [1; 2] 10 1 1; sample_waveform [3; 4] 11 1 2].

Definition sample_pair_set : WaveformSet :=
  mkWaveformSet sample_pair 2
                (update_runs sample_pair ∅)
                (update_available_channels sample_pair ∅)
                None None.

(** The sample set after a first, successful, averaging over the indices
    2, 2 and 999. *)
Definition cached_set : WaveformSet :=
  snd (compute_mean_waveform sample_set [] (Some [2; 2; 999]) None).

(** ** Stand-ins for what is outside the class

    Used only to run [analyse] on the sample set: a [WfAna] with one
    analyser method, [standard_analyser], and one attribute that is not
    callable, [Result]; and a [Waveform.analyse] that records the analysis
    under its label and returns the first limit as its output, unless the
    label is taken and [overwrite] is not set, in which case it raises. *)

Definition sample_WfAna_getattr (name : string) : option (option signature) :=
  if bool_decide (name = "standard_analyser"%string)
  then Some (Some (mkSignature [mkParameter "waveform" (ann_str "WaveformAdcs")]
                               ann_analyser_return))
  else if bool_decide (name = "Result"%string) then Some None
  else None.

Definition sample_Waveform_analyse
    (label analyser_name : string) (baseline_limits args : list Z)
    (int_ll int_ul : Z) (overwrite : bool) (wf : Waveform)
  : result Z * Waveform :=
  match Analyses wf !! label with
  | Some _ =>
      if overwrite
      then (Ok (default 0 (head baseline_limits)),
            mkWaveform (Timestamp wf) (TimeStep_ns wf) (Adcs wf) (Adcs_dtype wf)
                       (RunNumber wf)
                       (Endpoint wf) (Channel wf)
                       (<[label := mkWfAna baseline_limits int_ll int_ul None]>
                          (Analyses wf)))
      else (Raise (GenericException 1 "WaveformAdcs.analyse()"), wf)
  | None =>
      (Ok (default 0 (head baseline_limits)),
       mkWaveform (Timestamp wf) (TimeStep_ns wf) (Adcs wf) (Adcs_dtype wf)
                       (RunNumber wf)
                  (Endpoint wf) (Channel wf)
                  (<[label := mkWfAna baseline_limits int_ll int_ul None]>
                     (Analyses wf)))
  end.

(** The sample set after its middle waveform alone has been analysed under
    the label [first]. *)
Definition half_analysed_set : WaveformSet :=
  set_Waveforms sample_set
    [sample_waveform [1; 2] 10 1 1;
     snd (sample_Waveform_analyse "first" "standard_analyser" [0; 1] [] 0 1 false
                                  (sample_waveform [3; 4] 11 1 2));
     sample_waveform [10; 20] 11 2 2].

(** The indices, counted from [k], of the waveforms that pass [p], in
    increasing order. *)
Fixpoint matching_indices (p : Waveform -> bool) (k : Z) (waveforms : list Waveform)
  : list Z :=
  match waveforms with
  | [] => []
  | wf :: waveforms' =>
      if p wf then k :: matching_indices p (k + 1) waveforms'
      else matching_indices p (k + 1) waveforms'
  end.

(** What a maximum keeps of the indices found for a cell. *)
Definition first_at_most (max_wfs_per_axes : option Z) (idcs : list Z) : list Z :=
  match max_wfs_per_axes with
  | Some m => take (Z.to_nat m) idcs
  | None => idcs
  end.

(** The sum, sample by sample, of traces of [n] samples each. *)
Definition add_traces (a b : list Z) : list Z := zip_with Z.add a b.

Definition sum_of_traces (n : Z) (traces : list (list Z)) : list Z :=
  foldl add_traces (Np.zeros n) traces.


(** [wf'] is [wf] but for the values of its trace, which has kept its
    length. *)
Definition same_but_trace_values (wf wf' : Waveform) : Prop :=
  exists adcs, wf' = set_Adcs wf adcs /\ length adcs = length (Adcs wf).

(** An integer that an array of type [d] can hold. *)
Definition representable (d : Np.dtype) (x : Z) : Prop :=
  Np.iinfo_min d <= x <= Np.iinfo_max d.



(** * Properties *)

(** ** Lists read by index *)

Section Sequences.
Context {A : Type}.
Implicit Types (l : list A) (x : A).

Lemma getitem_in_range l (k : Z) :
  0 <= k < len l -> exists x, getitem l k = Ok x /\ l !! Z.to_nat k = Some x.
Proof.
  intros Hk. unfold getitem, len in *.
  destruct (k <? 0) eqn:E; [apply Z.ltb_lt in E; lia|]. rewrite E.
  destruct (l !! Z.to_nat k) as [x|] eqn:El; [eauto|].
  apply lookup_ge_None in El. lia.
Qed.

Lemma getitem_nat l (n : nat) x :
  l !! n = Some x -> getitem l (Z.of_nat n) = Ok x.
Proof.
  intros Hl. unfold getitem.
  destruct (Z.of_nat n <? 0) eqn:E; [apply Z.ltb_lt in E; lia|]. rewrite E.
  by rewrite Nat2Z.id, Hl.
Qed.

Lemma getitem_middle (pre rest : list A) x :
  getitem (pre ++ x :: rest) (len pre) = Ok x.
Proof. apply getitem_nat. by rewrite list_lookup_middle. Qed.

Lemma getitem_too_large l (k : Z) : len l <= k -> getitem l k = Raise IndexError.
Proof.
  intros Hk. unfold getitem, len in *.
  destruct (k <? 0) eqn:E; [apply Z.ltb_lt in E; lia|]. rewrite E.
  destruct (l !! Z.to_nat k) eqn:El; [|done].
  apply lookup_lt_Some in El. lia.
Qed.

Lemma getitem_elem_of l (k : Z) x : getitem l k = Ok x -> x ∈ l.
Proof.
  unfold getitem. set (i := if k <? 0 then k + len l else k).
  destruct (i <? 0); [done|].
  destruct (l !! Z.to_nat i) eqn:El; [|done].
  intros [= <-]. by eapply list_elem_of_lookup_2.
Qed.

Lemma elem_of_range (n k : Z) : k ∈ range n <-> 0 <= k < n.
Proof. unfold range. rewrite elem_of_seqZ. lia. Qed.

Lemma range_len_cons x l : range (len (x :: l)) = 0 :: seqZ 1 (len l).
Proof.
  unfold range, len. rewrite seqZ_cons by (simpl; lia).
  f_equal. f_equal. simpl length. lia.
Qed.

End Sequences.

(** ** Construction (claim C5) *)

Lemma check_length_homogeneity_loop_spec wf0 (rest pre : list Waveform) :
  check_length_homogeneity_loop (pre ++ rest) (len (Adcs wf0))
                                (seqZ (len pre) (len rest))
  = Ok (forallb (same_length_as wf0) rest).
Proof.
  revert pre. induction rest as [|wf rest IH]; intros pre; [done|].
  rewrite seqZ_cons by (unfold len; simpl; lia). simpl.
  rewrite getitem_middle. simpl. unfold same_length_as at 1.
  destruct (decide (len (Adcs wf) = len (Adcs wf0))) as [Heq|Hne].
  - rewrite bool_decide_eq_false_2 by (intros ?; done).
    rewrite (bool_decide_eq_true_2 _ Heq). simpl.
    specialize (IH (pre ++ [wf])). rewrite <- app_assoc in IH. simpl in IH.
    rewrite <- IH. f_equal. unfold len. rewrite length_app. simpl.
    f_equal; lia.
  - rewrite (bool_decide_eq_true_2 _ Hne).
    by rewrite (bool_decide_eq_false_2 _ Hne).
Qed.

Lemma check_length_homogeneity_cons wf0 rest :
  check_length_homogeneity (wf0 :: rest) = Ok (forallb (same_length_as wf0) rest).
Proof.
  unfold check_length_homogeneity. change (getitem (wf0 :: rest) 0) with (Ok wf0).
  simpl. unfold range2.
  replace (len (wf0 :: rest) - 1) with (len rest) by (unfold len; simpl; lia).
  apply (check_length_homogeneity_loop_spec wf0 rest [wf0]).
Qed.

Lemma WaveformSet_init_cons wf0 rest :
  WaveformSet_init (wf0 :: rest) =
  if forallb (same_length_as wf0) rest
  then Ok (mkWaveformSet (wf0 :: rest) (len (Adcs wf0))
                         (update_runs (wf0 :: rest) ∅)
                         (update_available_channels (wf0 :: rest) ∅)
                         None None)
  else Raise ShapeError.
Proof.
  unfold WaveformSet_init. rewrite check_length_homogeneity_cons. simpl.
  by destruct (forallb _ _).
Qed.

Lemma WaveformSet_init_Ok waveforms ws :
  WaveformSet_init waveforms = Ok ws ->
  waveforms <> [] /\ Waveforms ws = waveforms /\
  Runs ws = update_runs waveforms ∅ /\
  AvailableChannels ws = update_available_channels waveforms ∅ /\
  MeanAdcs ws = None /\ MeanAdcsIdcs ws = None /\
  Forall (fun wf => len (Adcs wf) = PointsPerWf ws) waveforms.
Proof.
  destruct waveforms as [|wf0 rest]; [done|].
  rewrite WaveformSet_init_cons.
  destruct (forallb _ _) eqn:Hall; [|done]. intros [= <-]. simpl.
  repeat split; try done.
  constructor; [done|].
  apply Forall_forall. intros wf Hwf.
  rewrite forallb_forall in Hall. apply list_elem_of_In in Hwf.
  specialize (Hall _ Hwf). unfold same_length_as in Hall.
  by apply bool_decide_eq_true in Hall.
Qed.

(** C5 (the code departs from the claim): the constructor has no guard
    for the empty sequence.  [check_length_homogeneity], which is to
    answer with a boolean, reads [waveforms[0]] before anything else and so
    raises an [IndexError] on the empty list; construction from the empty
    sequence ends in that error, and not in the [ShapeError] that
    [__init__] raises for a set that is not homogeneous. *)
Theorem C5_empty_sequence_is_not_a_ShapeError :
  check_length_homogeneity [] = Raise IndexError /\
  (forall answer : bool, check_length_homogeneity [] <> Ok answer) /\
  WaveformSet_init [] = Raise IndexError /\
  WaveformSet_init [] <> Raise ShapeError.
Proof. repeat split; [discriminate | discriminate]. Qed.

(** On every sequence that is not empty the constructor is as the claim
    has it: when some waveform has a trace of another length than some
    other, construction fails with the [ShapeError]; and when construction
    succeeds, [PointsPerWf] is the length of the trace of every waveform
    of the set. *)
Lemma construction_from_a_nonempty_sequence (waveforms : list Waveform) :
  (forall wf1 wf2,
     wf1 ∈ waveforms -> wf2 ∈ waveforms ->
     len (Adcs wf1) <> len (Adcs wf2) ->
     WaveformSet_init waveforms = Raise ShapeError) /\
  (forall ws,
     WaveformSet_init waveforms = Ok ws ->
     Waveforms ws = waveforms /\
     Forall (fun wf => len (Adcs wf) = PointsPerWf ws) (Waveforms ws)).
Proof.
  split.
  - intros wf1 wf2 H1 H2 Hne.
    destruct waveforms as [|wf0 rest]; [by apply elem_of_nil in H1|].
    rewrite WaveformSet_init_cons.
    destruct (forallb _ _) eqn:Hall; [|done]. exfalso.
    rewrite forallb_forall in Hall.
    assert (Hlen : forall wf, wf ∈ wf0 :: rest -> len (Adcs wf) = len (Adcs wf0)).
    { intros wf [->|Hwf]%elem_of_cons; [done|].
      apply list_elem_of_In in Hwf. specialize (Hall _ Hwf).
      unfold same_length_as in Hall. by apply bool_decide_eq_true in Hall. }
    rewrite (Hlen _ H1), (Hlen _ H2) in Hne. done.
  - intros ws Hws. apply WaveformSet_init_Ok in Hws.
    destruct Hws as (_ & Hwfs & _ & _ & _ & _ & Hall). rewrite Hwfs. done.
Qed.

Example construction_from_mixed_lengths :
  WaveformSet_init [sample_waveform [1; 2] 10 1 1; sample_waveform [3] 10 1 1]
  = Raise ShapeError.
Proof. reflexivity. Qed.

(** ** The baseline limits of analyse (claims C7 and C9) *)

Lemma getitem_minus_one {A} (l : list A) :
  getitem l (-1) = match last l with
                   | Some x => Ok x
                   | None => Raise IndexError
                   end.
Proof.
  unfold getitem. change (-1 <? 0) with true. cbv iota.
  destruct l as [|a l]; [done|].
  replace (-1 + len (a :: l)) with (len l) by (unfold len; simpl; lia).
  destruct (len l <? 0) eqn:E; [apply Z.ltb_lt in E; unfold len in E; lia|].
  rewrite last_lookup. unfold len. rewrite Nat2Z.id. simpl.
  destruct (_ !! _) eqn:El; [done|].
  apply lookup_ge_None in El. simpl in El. lia.
Qed.

Lemma baseline_limits_loop_spec (pre : list Z) (x : Z) (rest : list Z) :
  baseline_limits_loop (pre ++ x :: rest) (seqZ (len pre) (len rest))
  = Ok (increasing_from x rest).
Proof.
  revert pre x. induction rest as [|y rest IH]; intros pre x; [done|].
  rewrite seqZ_cons by (unfold len; simpl; lia). simpl.
  unfold baseline_limits_loop_step. rewrite getitem_middle. simpl.
  replace (len pre + 1) with (len (pre ++ [x]))
    by (unfold len; rewrite length_app; simpl; lia).
  replace (pre ++ x :: y :: rest) with ((pre ++ [x]) ++ y :: rest)
    by (by rewrite <- app_assoc).
  rewrite getitem_middle. simpl.
  destruct (bool_decide (x >= y)); [done|].
  rewrite <- (IH (pre ++ [x]) y). f_equal.
  unfold len. rewrite length_app. simpl. f_equal; lia.
Qed.

Lemma increasing_from_Sorted x rest :
  increasing_from x rest = true <-> Sorted Z.lt (x :: rest).
Proof.
  revert x. induction rest as [|y rest IH]; intros x; simpl.
  - split; [repeat constructor | done].
  - destruct (decide (x >= y)) as [Hge|Hlt].
    + rewrite (bool_decide_eq_true_2 _ Hge). split; [done|].
      intros Hs. apply Sorted_inv in Hs as [_ Hhd].
      apply HdRel_inv in Hhd. lia.
    + rewrite (bool_decide_eq_false_2 _ Hlt). rewrite IH. split.
      * intros Hs. constructor; [done|]. constructor. lia.
      * intros Hs. by apply Sorted_inv in Hs as [? _].
Qed.

Lemma Sorted_between x rest z :
  Sorted Z.lt (x :: rest) -> last (x :: rest) = Some z ->
  Forall (fun y => x <= y <= z) (x :: rest).
Proof.
  revert x. induction rest as [|y rest IH]; intros x Hs Hlast.
  - injection Hlast as ->. constructor; [lia | constructor].
  - apply Sorted_inv in Hs as [Hs Hhd]. apply HdRel_inv in Hhd.
    change (last (x :: y :: rest)) with (last (y :: rest)) in Hlast.
    specialize (IH y Hs Hlast).
    assert (y <= z) by (apply Forall_cons in IH as [? _]; lia).
    constructor; [lia|].
    eapply Forall_impl; [exact IH|]. simpl. intros; lia.
Qed.

(** On a list that is not empty the check returns a boolean, and says yes
    exactly to the limits that the specification calls well formed. *)
Lemma baseline_limits_are_well_formed_nonempty ws (x : Z) (rest : list Z) :
  exists answer : bool,
    baseline_limits_are_well_formed ws (x :: rest) = Ok answer /\
    (answer = true <-> well_formed_limits (PointsPerWf ws) (x :: rest)).
Proof.
  unfold baseline_limits_are_well_formed, well_formed_limits.
  destruct (decide (len (x :: rest) `mod` 2 ≠ 0)) as [Hodd|Heven].
  { rewrite (bool_decide_eq_true_2 _ Hodd). exists false. split; [done|].
    split; [done|]. intros [Hev _]. rewrite Zmod_even, Hev in Hodd. done. }
  rewrite (bool_decide_eq_false_2 _ Heven).
  assert (Hev : Z.even (len (x :: rest)) = true).
  { destruct (Z.even _) eqn:E; [done|]. rewrite Zmod_even, E in Heven.
    exfalso. apply Heven. lia. }
  change (getitem (x :: rest) 0) with (Ok x). simpl mbind.
  unfold result_bind at 1.
  destruct (decide (x < 0)) as [Hneg|Hpos].
  { rewrite (bool_decide_eq_true_2 _ Hneg). exists false. split; [done|].
    split; [done|]. intros (_ & _ & Hb). apply Forall_cons in Hb as [? _]. lia. }
  rewrite (bool_decide_eq_false_2 _ Hpos).
  unfold range2.
  replace (len (x :: rest) - 1 - 0) with (len rest) by (unfold len; simpl; lia).
  pose proof (baseline_limits_loop_spec [] x rest) as Hloop.
  change (baseline_limits_loop (x :: rest) (seqZ 0 (len rest))
          = Ok (increasing_from x rest)) in Hloop.
  rewrite Hloop. clear Hloop. simpl.
  destruct (increasing_from x rest) eqn:Hinc; simpl.
  2:{ exists false. split; [done|]. split; [done|]. intros (_ & Hs & _).
      apply increasing_from_Sorted in Hs. congruence. }
  apply increasing_from_Sorted in Hinc.
  rewrite getitem_minus_one.
  destruct (last (x :: rest)) as [z|] eqn:Hlast.
  2:{ rewrite last_lookup in Hlast. apply lookup_ge_None in Hlast.
      simpl in Hlast. lia. }
  pose proof (Sorted_between _ _ _ Hinc Hlast) as Hbetween. simpl.
  destruct (decide (z > PointsPerWf ws - 1)) as [Hbig|Hsmall].
  - rewrite (bool_decide_eq_true_2 _ Hbig). exists false. split; [done|].
    split; [done|]. intros (_ & _ & Hb).
    rewrite Forall_forall in Hb.
    assert (z ∈ x :: rest) as Hz.
    { rewrite last_lookup in Hlast. by eapply list_elem_of_lookup_2. }
    specialize (Hb z Hz). lia.
  - rewrite (bool_decide_eq_false_2 _ Hsmall). exists true. split; [done|].
    split; [|done]. intros _. repeat split; [done..|].
    eapply Forall_impl; [exact Hbetween|]. simpl. intros; lia.
Qed.

Lemma check_analyser_signature_raises sig e :
  check_analyser_signature sig = Raise e ->
  exists code, e = GenericException code "WaveformSet.analyse()" /\ 5 <= code <= 8.
Proof.
  unfold check_analyser_signature, first_parameter_name, annotation_of, getitem.
  destruct (parameters sig) as [|p ps]; simpl.
  { intros [= <-]. exists 8. split; [done|lia]. }
  destruct (decide (param_name p = "waveform"%string)) as [Hname|Hname].
  2:{ rewrite (bool_decide_eq_true_2 _ Hname). simpl.
      intros [= <-]. exists 5. split; [done|lia]. }
  rewrite bool_decide_eq_false_2 by (intros ?; done).
  rewrite (bool_decide_eq_true_2 _ Hname). simpl.
  destruct (bool_decide (_ ∉ _)); simpl.
  { intros [= <-]. exists 6. split; [done|lia]. }
  destruct (bool_decide (_ ≠ _)); simpl; [|done].
  intros [= <-]. exists 7. split; [done|lia].
Qed.

Section AnalyseProperties.
Variable WfAna_getattr : string -> option (option signature).
Variable SideOutput : Type.
Variable Waveform_analyse :
  string -> string -> list Z -> list Z -> Z -> Z -> bool ->
  Waveform -> result SideOutput * Waveform.

(** Limits that are not empty and not well formed: [analyse] raises the
    [MalformedLimitsError] and leaves the set as it was. *)
Lemma analyse_malformed_limits ws label analyser_name x rest args int_ll int_ul overwrite :
  ~ well_formed_limits (PointsPerWf ws) (x :: rest) ->
  analyse WfAna_getattr SideOutput Waveform_analyse
          ws label analyser_name (x :: rest) args int_ll int_ul overwrite
  = (Raise MalformedLimitsError, ws).
Proof.
  intros Hbad.
  destruct (baseline_limits_are_well_formed_nonempty ws x rest) as (b & Hb & Hiff).
  unfold analyse, analyse_checks. rewrite Hb. simpl.
  destruct b; [|done]. exfalso. apply Hbad, Hiff. done.
Qed.

(** Limits that are not empty and well formed pass the first check: what
    [analyse] does is decided by the checks that follow. *)
Lemma analyse_checks_well_formed_limits ws analyser_name x rest int_ll int_ul :
  well_formed_limits (PointsPerWf ws) (x :: rest) ->
  analyse_checks WfAna_getattr ws analyser_name (x :: rest) int_ll int_ul
  <> Raise MalformedLimitsError.
Proof.
  intros Hgood.
  destruct (baseline_limits_are_well_formed_nonempty ws x rest) as (b & Hb & Hiff).
  unfold analyse_checks. rewrite Hb. simpl.
  destruct b; [|apply Hiff in Hgood; done]. simpl.
  destruct (subinterval_is_well_formed _ _ _); simpl; [|done].
  destruct (WfAna_getattr analyser_name) as [[sig|]|]; [|done..].
  pose proof (check_analyser_signature_raises sig) as Hsig.
  destruct (check_analyser_signature sig) as [[]|e]; simpl; [done|].
  intros [= ->]. destruct (Hsig _ eq_refl) as (c & Hc & Hr).
  unfold MalformedLimitsError in Hc. injection Hc as <-. lia.
Qed.

(** C7 (the code departs from the claim): the empty list has an even
    number of limits, is strictly increasing and has no limit out of
    bounds, yet [analyse] does not proceed with it: the check itself raises
    an [IndexError] at [baseline_limits[0]]. *)
Theorem C7_empty_limits_are_well_formed_but_refused
    ws label analyser_name args int_ll int_ul overwrite :
  well_formed_limits (PointsPerWf ws) [] /\
  analyse WfAna_getattr SideOutput Waveform_analyse
          ws label analyser_name [] args int_ll int_ul overwrite
  = (Raise IndexError, ws).
Proof.
  split; [|reflexivity].
  split; [reflexivity|]. split; constructor.
Qed.

(** C9: on the empty list the check does not return a boolean, it raises an
    [IndexError]; so [analyse] fails with that error, which is not the
    [MalformedLimitsError], and the set, with every waveform in it, is as
    it was before the call. *)
Theorem C9_empty_limits_raise_IndexError
    ws label analyser_name args int_ll int_ul overwrite :
  Z.even (len (@nil Z)) = true /\
  baseline_limits_are_well_formed ws [] = Raise IndexError /\
  (forall answer, baseline_limits_are_well_formed ws [] <> Ok answer) /\
  analyse WfAna_getattr SideOutput Waveform_analyse
          ws label analyser_name [] args int_ll int_ul overwrite
  = (Raise IndexError, ws) /\
  IndexError <> MalformedLimitsError.
Proof. repeat split; done. Qed.

End AnalyseProperties.

(** ** The contiguous grid (claim C8) *)

Lemma fmap_add_r_seqZ (c n : Z) : (fun k => k + c) <$> seqZ 0 n = seqZ c n.
Proof.
  replace (seqZ c n) with (seqZ (c + 0) n) by (f_equal; lia).
  rewrite <- fmap_add_seqZ. apply list_fmap_ext. intros _ k _. lia.
Qed.

Lemma get_2D_indices_nested_list_cell (k nrows ncols : Z) (i j : nat) :
  1 <= k -> Z.of_nat i < nrows -> Z.of_nat j < ncols ->
  exists g row,
    get_2D_indices_nested_list k nrows ncols = Ok g /\
    length g = Z.to_nat nrows /\
    g !! i = Some row /\
    length row = Z.to_nat ncols /\
    row !! j = Some (seqZ (k * (Z.of_nat j + ncols * Z.of_nat i)) k).
Proof.
  intros Hk Hi Hj. unfold get_2D_indices_nested_list.
  rewrite !bool_decide_eq_false_2 by lia. simpl.
  eexists _, _. split; [reflexivity|]. unfold range.
  split; [by rewrite length_fmap, length_seqZ|].
  split; [by rewrite list_lookup_fmap, lookup_seqZ_lt by lia|].
  split; [by rewrite length_fmap, length_seqZ|].
  rewrite list_lookup_fmap, lookup_seqZ_lt by lia. simpl.
  by rewrite fmap_add_r_seqZ, !Z.add_0_l.
Qed.

(** C8: in the contiguous mode, whatever the set holds, cell [i][j] of the
    grid is the list of the [k] consecutive integers that starts at
    [k * (j + ncols * i)], and the grid has [nrows] rows of [ncols] cells. *)
Theorem C8_contiguous_grid_cell
    ws (nrows ncols k : Z) wf_filter filter_args max_wfs_per_axes (i j : nat) :
  1 <= k -> Z.of_nat i < nrows -> Z.of_nat j < ncols ->
  exists g row,
    get_grid_of_wf_idcs ws nrows ncols (Some k) wf_filter filter_args
                        max_wfs_per_axes = Ok g /\
    length g = Z.to_nat nrows /\
    g !! i = Some row /\
    length row = Z.to_nat ncols /\
    row !! j = Some (seqZ (k * (Z.of_nat j + ncols * Z.of_nat i)) k).
Proof.
  intros Hk Hi Hj. unfold get_grid_of_wf_idcs.
  rewrite !bool_decide_eq_false_2 by lia. simpl.
  by apply get_2D_indices_nested_list_cell.
Qed.

Lemma C8_contiguous_grid_cell_witness :
  exists g row,
    get_grid_of_wf_idcs sample_set 2 3 (Some 2) None None None = Ok g /\
    length g = 2%nat /\
    g !! 1%nat = Some row /\
    length row = 3%nat /\
    row !! 2%nat = Some [10; 11].
Proof.
  apply (C8_contiguous_grid_cell sample_set 2 3 2 None None None 1 2); lia.
Defined.

(** ** The contract of the filter (claim C6) *)

(** The two clauses that the filtering mode does check. *)
Lemma filter_first_parameter_name_is_checked
    ws nrows ncols sig body p ps filter_args max_wfs_per_axes :
  1 <= nrows -> 1 <= ncols ->
  parameters sig = p :: ps -> param_name p <> "waveform"%string ->
  get_grid_of_wf_idcs ws nrows ncols None (Some (function sig body))
                      filter_args max_wfs_per_axes
  = Raise FilterContractError_name.
Proof.
  intros Hr Hc Hps Hname. unfold get_grid_of_wf_idcs, filtering_mode_checks.
  rewrite !bool_decide_eq_false_2 by lia. simpl.
  unfold first_parameter_name. rewrite Hps. simpl.
  by rewrite (bool_decide_eq_true_2 _ Hname).
Qed.

Lemma filter_first_parameter_annotation_is_checked
    ws nrows ncols sig body p ps filter_args max_wfs_per_axes :
  1 <= nrows -> 1 <= ncols ->
  parameters sig = p :: ps -> param_name p = "waveform"%string ->
  param_annotation p <> ann_Waveform ->
  get_grid_of_wf_idcs ws nrows ncols None (Some (function sig body))
                      filter_args max_wfs_per_axes
  = Raise FilterContractError_annotation.
Proof.
  intros Hr Hc Hps Hname Hann.
  unfold get_grid_of_wf_idcs, filtering_mode_checks.
  rewrite !bool_decide_eq_false_2 by lia. simpl.
  unfold first_parameter_name, annotation_of. rewrite Hps. simpl.
  rewrite bool_decide_eq_false_2 by (intros ?; done).
  rewrite (bool_decide_eq_true_2 _ Hname). simpl.
  by rewrite (bool_decide_eq_true_2 _ Hann).
Qed.

(** The checks of the filtering mode never read the return annotation:
    they accept a signature with any return annotation as they accept it
    with [bool]. *)
Lemma filtering_mode_checks_ignore_the_return
    nrows ncols ps r body filter_args max_wfs_per_axes e :
  filtering_mode_checks nrows ncols (Some (function (mkSignature ps r) body))
                        filter_args max_wfs_per_axes = Raise e <->
  filtering_mode_checks nrows ncols (Some (function (mkSignature ps ann_bool) body))
                        filter_args max_wfs_per_axes = Raise e.
Proof.
  unfold filtering_mode_checks, first_parameter_name, annotation_of. simpl.
  destruct (getitem _ 0); simpl; [|done].
  destruct (bool_decide (_ ≠ _)); [done|].
  destruct (List.find _ ps); simpl; [|done].
  destruct (bool_decide (_ ≠ _)); [done|].
  destruct filter_args as [fa|]; [|done].
  destruct (grid_of_lists_is_well_formed _ _ _) as [[]|]; simpl; [|done..].
  destruct max_wfs_per_axes as [m|]; [|done].
  by destruct (bool_decide (m < 1)).
Qed.

(** C6 (the code departs from the claim): a filter whose first parameter
    is [waveform : Waveform] but whose return is not annotated passes the
    checks of the filtering mode and a grid is returned, although the same
    function is refused as a selector by [compute_mean_waveform], which
    does check the return annotation. *)
Theorem C6_return_annotation_is_not_checked :
  return_annotation (inspect_signature filter_without_return_annotation) <> ann_bool /\
  get_grid_of_wf_idcs sample_set 1 2 None
                      (Some filter_without_return_annotation)
                      (Some [[[10]; [11]]]) (Some 5)
  = Ok [[[0]; [1; 2]]] /\
  fst (compute_mean_waveform sample_set [10] None
                             (Some filter_without_return_annotation))
  = Raise SelectorContractError_return.
Proof. split; [done|]. split; reflexivity. Qed.

(** ** The derived attributes after construction *)

Lemma update_runs_cons wf waveforms (runs : gset Z) :
  update_runs (wf :: waveforms) runs = update_runs waveforms ({[RunNumber wf]} ∪ runs).
Proof. reflexivity. Qed.

Lemma update_available_channels_cons wf waveforms (chans : gmap Z (gset Z)) :
  update_available_channels (wf :: waveforms) chans =
  update_available_channels waveforms
    (match chans !! Endpoint wf with
     | Some s => <[Endpoint wf := {[Channel wf]} ∪ s]> chans
     | None => <[Endpoint wf := {[Channel wf]} ∪ ∅]> chans
     end).
Proof. reflexivity. Qed.

Lemma update_runs_mono waveforms (runs : gset Z) r :
  r ∈ runs -> r ∈ update_runs waveforms runs.
Proof.
  revert runs. induction waveforms as [|wf waveforms IH]; intros runs Hr; [done|].
  rewrite update_runs_cons. apply IH. set_solver.
Qed.

Lemma update_runs_covers waveforms (runs : gset Z) wf :
  wf ∈ waveforms -> RunNumber wf ∈ update_runs waveforms runs.
Proof.
  revert runs. induction waveforms as [|wf' waveforms IH]; intros runs Hwf.
  - by apply elem_of_nil in Hwf.
  - rewrite update_runs_cons.
    apply elem_of_cons in Hwf as [->|Hwf]; [|by apply IH].
    apply update_runs_mono. set_solver.
Qed.

Lemma update_available_channels_mono waveforms (chans : gmap Z (gset Z)) ep ch s :
  chans !! ep = Some s -> ch ∈ s ->
  exists s', update_available_channels waveforms chans !! ep = Some s' /\ ch ∈ s'.
Proof.
  revert chans s. induction waveforms as [|wf waveforms IH]; intros chans s Hs Hch.
  { by exists s. }
  rewrite update_available_channels_cons.
  destruct (decide (Endpoint wf = ep)) as [<-|Hne].
  - rewrite Hs. eapply IH; [apply lookup_insert_eq|]. set_solver.
  - destruct (chans !! Endpoint wf).
    all: eapply IH; [by rewrite lookup_insert_ne|done].
Qed.

Lemma update_available_channels_covers waveforms (chans : gmap Z (gset Z)) wf :
  wf ∈ waveforms ->
  exists s, update_available_channels waveforms chans !! Endpoint wf = Some s /\
            Channel wf ∈ s.
Proof.
  revert chans. induction waveforms as [|wf' waveforms IH]; intros chans Hwf.
  - by apply elem_of_nil in Hwf.
  - rewrite update_available_channels_cons.
    apply elem_of_cons in Hwf as [->|Hwf]; [|by apply IH].
    destruct (chans !! Endpoint wf').
    all: eapply update_available_channels_mono; [apply lookup_insert_eq|set_solver].
Qed.

Lemma WaveformSet_init_derived_sets_cover waveforms ws :
  WaveformSet_init waveforms = Ok ws -> derived_sets_cover ws.
Proof.
  intros Hws. apply WaveformSet_init_Ok in Hws.
  destruct Hws as (Hne & Hwfs & Hruns & Hchans & _).
  unfold derived_sets_cover. rewrite Hwfs, Hruns, Hchans.
  split; [done|]. split.
  - intros wf. apply update_runs_covers.
  - intros wf. apply update_available_channels_covers.
Qed.

(** ** The scan of one cell *)

Section Scan.
Variable waveforms : list Waveform.
Variable test : Waveform -> result bool.

Lemma scan_with_max_none_passes max_wfs_per_axes ks counter cell :
  (forall wf, wf ∈ waveforms -> test wf = Ok false) ->
  (forall k, k ∈ ks -> 0 <= k < len waveforms) ->
  scan_with_max waveforms test max_wfs_per_axes ks counter cell = Ok cell.
Proof.
  intros Htest. induction ks as [|k ks IH]; intros Hks; [done|]. simpl.
  destruct (getitem_in_range waveforms k) as (wf & -> & Hwf).
  { apply Hks. by left. }
  simpl. rewrite Htest by (by eapply list_elem_of_lookup_2). simpl.
  apply IH. intros k' Hk'. apply Hks. by right.
Qed.

Lemma scan_without_max_none_passes ks cell :
  (forall wf, wf ∈ waveforms -> test wf = Ok false) ->
  (forall k, k ∈ ks -> 0 <= k < len waveforms) ->
  scan_without_max waveforms test ks cell = Ok cell.
Proof.
  intros Htest. induction ks as [|k ks IH]; intros Hks; [done|]. simpl.
  destruct (getitem_in_range waveforms k) as (wf & -> & Hwf).
  { apply Hks. by left. }
  simpl. rewrite Htest by (by eapply list_elem_of_lookup_2). simpl.
  apply IH. intros k' Hk'. apply Hks. by right.
Qed.

(** No waveform passes the test: the cell is left as it was. *)
Lemma scan_none_passes fMaxIsSet max_wfs_per_axes cell :
  (forall wf, wf ∈ waveforms -> test wf = Ok false) ->
  scan waveforms test fMaxIsSet max_wfs_per_axes cell = Ok cell.
Proof.
  intros Htest. unfold scan. destruct fMaxIsSet.
  - apply scan_with_max_none_passes; [done|]. intros k. by rewrite elem_of_range.
  - apply scan_without_max_none_passes; [done|]. intros k. by rewrite elem_of_range.
Qed.

(** The test raises on every waveform and there is a waveform: the scan
    raises at the first one. *)
Lemma scan_raises fMaxIsSet max_wfs_per_axes cell e :
  waveforms <> [] ->
  (forall wf, test wf = Raise e) ->
  scan waveforms test fMaxIsSet max_wfs_per_axes cell = Raise e.
Proof.
  intros Hne Htest. unfold scan.
  destruct waveforms as [|wf0 rest] eqn:Hwfs; [done|].
  rewrite range_len_cons. destruct fMaxIsSet; simpl.
  all: change (getitem (wf0 :: rest) 0) with (Ok wf0); simpl.
  all: by rewrite Htest.
Qed.

End Scan.

Lemma for_each_column_ext body1 body2 i j row :
  (forall i j cell, body1 i j cell = body2 i j cell) ->
  for_each_column body1 i j row = for_each_column body2 i j row.
Proof.
  intros Hext. revert j. induction row as [|cell row IH]; intros j; [done|].
  simpl. by rewrite Hext, IH.
Qed.

Lemma for_each_row_ext body1 body2 i (g : grid) :
  (forall i j cell, body1 i j cell = body2 i j cell) ->
  for_each_row body1 i g = for_each_row body2 i g.
Proof.
  intros Hext. revert i. induction g as [|row g IH]; intros i; [done|].
  simpl. by rewrite (for_each_column_ext body1 body2), IH.
Qed.

Lemma filter_args_at_arity n (filter_args : grid) i j args :
  cells_have_arity n filter_args ->
  filter_args_at filter_args i j = Ok args -> length args = n.
Proof.
  unfold cells_have_arity, filter_args_at. intros Harity.
  destruct (getitem filter_args i) as [row|] eqn:Hrow; simpl; [|done].
  intros Hargs. apply getitem_elem_of in Hrow, Hargs.
  rewrite Forall_forall in Harity. specialize (Harity _ Hrow).
  rewrite Forall_forall in Harity. by apply Harity.
Qed.

(** ** The fast paths against the general path (claim C4) *)

Section FastPaths.
Variable ws : WaveformSet.
Hypothesis Hcover : derived_sets_cover ws.
Variable filter_args : grid.
Variables (fMaxIsSet : bool) (max_wfs_per_axes : option Z).

Lemma by_run_equals_general_path blank_grid :
  cells_have_arity 1 filter_args ->
  __get_grid_of_wf_idcs_by_run ws blank_grid filter_args fMaxIsSet max_wfs_per_axes
  = __get_grid_of_wf_idcs_general ws blank_grid WaveformSet_match_run filter_args
                                  fMaxIsSet max_wfs_per_axes.
Proof.
  intros Harity. apply for_each_row_ext. intros i j cell.
  destruct (filter_args_at filter_args i j) as [args|e] eqn:Hargs; simpl.
  2:{ symmetry. apply scan_raises; [apply Hcover|done]. }
  pose proof (filter_args_at_arity _ _ _ _ _ Harity Hargs) as Hlen.
  destruct args as [|run [|]]; try done. clear Hlen.
  change (getitem [run] 0) with (Ok run). simpl.
  case_bool_decide as Hrun; [|done].
  symmetry. apply scan_none_passes. intros wf Hwf. simpl.
  f_equal. apply bool_decide_eq_false_2. intros <-.
  apply Hrun. by apply Hcover.
Qed.

Lemma by_endpoint_and_channel_equals_general_path blank_grid :
  cells_have_arity 2 filter_args ->
  __get_grid_of_wf_idcs_by_endpoint_and_channel
    ws blank_grid filter_args fMaxIsSet max_wfs_per_axes
  = __get_grid_of_wf_idcs_general
      ws blank_grid WaveformSet_match_endpoint_and_channel filter_args
      fMaxIsSet max_wfs_per_axes.
Proof.
  intros Harity. apply for_each_row_ext. intros i j cell.
  destruct (filter_args_at filter_args i j) as [args|e] eqn:Hargs; simpl.
  2:{ symmetry. apply scan_raises; [apply Hcover|done]. }
  pose proof (filter_args_at_arity _ _ _ _ _ Harity Hargs) as Hlen.
  destruct args as [|endpoint [|channel [|]]]; try done. clear Hlen.
  change (getitem [endpoint; channel] 0) with (Ok endpoint).
  change (getitem [endpoint; channel] 1) with (Ok channel). simpl.
  assert (Hmiss : (forall wf, wf ∈ Waveforms ws ->
                     ~ (Endpoint wf = endpoint /\ Channel wf = channel)) ->
                  Ok cell =
                  scan (Waveforms ws)
                       (fun wf => Ok (match_endpoint_and_channel wf endpoint channel))
                       fMaxIsSet max_wfs_per_axes cell).
  { intros Hno. symmetry. apply scan_none_passes. intros wf Hwf. f_equal.
    unfold match_endpoint_and_channel. apply andb_false_iff.
    destruct (decide (Endpoint wf = endpoint)) as [Hep|Hep].
    - right. apply bool_decide_eq_false_2. intros Hch. by apply (Hno wf).
    - left. by apply bool_decide_eq_false_2. }
  destruct Hcover as (_ & _ & Hchans).
  destruct (AvailableChannels ws !! endpoint) as [channels|] eqn:Hep.
  - case_bool_decide as Hch; [|done].
    apply Hmiss. intros wf Hwf [Hwfep Hwfch].
    destruct (Hchans wf Hwf) as (s & Hs & Hin).
    rewrite Hwfep, Hep in Hs. injection Hs as <-. rewrite Hwfch in Hin. done.
  - apply Hmiss. intros wf Hwf [Hwfep _].
    destruct (Hchans wf Hwf) as (s & Hs & _).
    rewrite Hwfep, Hep in Hs. done.
Qed.

End FastPaths.

(** C4, counterexample: [sample_set] is a set as its constructor builds
    it.  With one argument too many in a cell, the first being a run, or an
    endpoint, that the set does not have, each fast path reads the
    arguments it needs, finds nothing to look for and returns the grid
    with the cell left empty, where the general path calls the predicate
    with all the arguments of the cell and ends in a [TypeError]. *)
Lemma C4_fast_path_ignores_an_argument_too_many :
  WaveformSet_init sample_waveforms = Ok sample_set /\
  (__get_grid_of_wf_idcs_by_run sample_set [[[]]] [[[99; 0]]] true (Some 5)
   = Ok [[[]]] /\
   __get_grid_of_wf_idcs_general sample_set [[[]]] WaveformSet_match_run
                                 [[[99; 0]]] true (Some 5)
   = Raise TypeError) /\
  (__get_grid_of_wf_idcs_by_endpoint_and_channel
     sample_set [[[]]] [[[3; 1; 0]]] false None
   = Ok [[[]]] /\
   __get_grid_of_wf_idcs_general
     sample_set [[[]]] WaveformSet_match_endpoint_and_channel
     [[[3; 1; 0]]] false None
   = Raise TypeError).
Proof. repeat split. Qed.

(** C4, as amended: a set as its constructor builds it is not empty and
    has its derived attributes cover its waveforms; and for every set of
    which that is true, any blank grid, any grid of filter arguments whose
    cells hold the arguments that the predicate takes (one for
    [match_run], two for [match_endpoint_and_channel]), and any setting of
    the maximum, each fast path returns what the general path returns
    with that predicate: the same grid of index lists, or the same error
    when the grid of arguments has no cell to read. *)
Theorem C4_fast_paths_equal_general_path :
  (forall waveforms ws,
     WaveformSet_init waveforms = Ok ws -> derived_sets_cover ws) /\
  (forall ws (blank_grid filter_args : grid)
          (fMaxIsSet : bool) (max_wfs_per_axes : option Z),
     derived_sets_cover ws ->
     (cells_have_arity 1 filter_args ->
      __get_grid_of_wf_idcs_by_run ws blank_grid filter_args fMaxIsSet
                                   max_wfs_per_axes
      = __get_grid_of_wf_idcs_general ws blank_grid WaveformSet_match_run
                                      filter_args fMaxIsSet max_wfs_per_axes) /\
     (cells_have_arity 2 filter_args ->
      __get_grid_of_wf_idcs_by_endpoint_and_channel
        ws blank_grid filter_args fMaxIsSet max_wfs_per_axes
      = __get_grid_of_wf_idcs_general
          ws blank_grid WaveformSet_match_endpoint_and_channel filter_args
          fMaxIsSet max_wfs_per_axes)).
Proof.
  split; [apply WaveformSet_init_derived_sets_cover|].
  intros ws blank_grid filter_args fMaxIsSet max_wfs_per_axes Hcover. split.
  - by apply by_run_equals_general_path.
  - by apply by_endpoint_and_channel_equals_general_path.
Qed.

Lemma C4_fast_paths_equal_general_path_witness :
  (__get_grid_of_wf_idcs_by_run sample_set [[[]; []]] [[[11]; [99]]] true (Some 1)
   = __get_grid_of_wf_idcs_general sample_set [[[]; []]] WaveformSet_match_run
                                   [[[11]; [99]]] true (Some 1)) /\
  (__get_grid_of_wf_idcs_by_endpoint_and_channel
     sample_set [[[]; []]] [[[1; 2]; [3; 1]]] false None
   = __get_grid_of_wf_idcs_general
       sample_set [[[]; []]] WaveformSet_match_endpoint_and_channel
       [[[1; 2]; [3; 1]]] false None).
Proof.
  split.
  - apply (proj2 C4_fast_paths_equal_general_path
             sample_set [[[]; []]] [[[11]; [99]]] true (Some 1)).
    + apply (proj1 C4_fast_paths_equal_general_path sample_waveforms).
      reflexivity.
    + repeat constructor.
  - apply (proj2 C4_fast_paths_equal_general_path
             sample_set [[[]; []]] [[[1; 2]; [3; 1]]] false None).
    + apply (proj1 C4_fast_paths_equal_general_path sample_waveforms).
      reflexivity.
    + repeat constructor.
Defined.

(** What the two fast paths return on the sample set: a grid, with a cell
    left empty for the run and for the endpoint that the set does not
    have. *)
Example fast_paths_on_the_sample_set :
  __get_grid_of_wf_idcs_by_run sample_set [[[]; []]] [[[11]; [99]]] true (Some 1)
  = Ok [[[1]; []]] /\
  __get_grid_of_wf_idcs_by_endpoint_and_channel
    sample_set [[[]; []]] [[[1; 2]; [3; 1]]] false None
  = Ok [[[1]; []]].
Proof. split; reflexivity. Qed.

(** The example of the specification: runs 10, 10, 11, 11 on a grid of one
    row and two columns. *)
Example grid_by_run_of_four_waveforms ws :
  WaveformSet_init [sample_waveform [1] 10 1 1; sample_waveform [2] 10 1 1;
                    sample_waveform [3] 11 1 1; sample_waveform [4] 11 1 1]
  = Ok ws ->
  get_grid_of_wf_idcs ws 1 2 None (Some WaveformSet_match_run)
                      (Some [[[10]; [11]]]) (Some 5)
  = Ok [[[0; 1]; [2; 3]]].
Proof. intros [= <-]. reflexivity. Qed.

(** ** Mean waveforms (claims C1, C2, C3 and C10) *)

(** C10: whatever the mode, when [compute_mean_waveform] raises, [MeanAdcs]
    and [MeanAdcsIdcs] are what they were before the call. *)
Theorem C10_failed_mean_keeps_the_cache ws args wf_idcs wf_selector e ws' :
  compute_mean_waveform ws args wf_idcs wf_selector = (Raise e, ws') ->
  MeanAdcs ws' = MeanAdcs ws /\ MeanAdcsIdcs ws' = MeanAdcsIdcs ws.
Proof.
  unfold compute_mean_waveform.
  case_bool_decide; [by intros [= _ <-]|].
  destruct wf_idcs as [idcs|]; [|destruct wf_selector as [f|]].
  - destruct (existsb _ _); [|by intros [= _ <-]].
    unfold __compute_mean_waveform_of_given_waveforms.
    destruct (_ ≫= _) as [[output added_wvfs]|e']; [done|].
    by intros [= _ <-].
  - destruct (check_selector_signature _); [|by intros [= _ <-]].
    unfold __compute_mean_waveform_with_selector.
    destruct (_ ≫= _) as [[output added_wvfs]|e']; [done|].
    by intros [= _ <-].
  - unfold __compute_mean_waveform_of_every_waveform.
    destruct (getitem (Waveforms ws) 0); [|by intros [= _ <-]].
    destruct (every_waveform_loop _ _) as [[[]|e'] waveforms'].
    + destruct (getitem waveforms' 0); [done|]. by intros [= _ <-].
    + by intros [= _ <-].
Qed.

Lemma C10_failed_mean_keeps_the_cache_witness :
  compute_mean_waveform cached_set [] (Some [999; -1]) None
  = (Raise EmptySelectionError_idcs, cached_set) /\
  MeanAdcs cached_set = Some (mkWaveformAdcs 16 [inject_Z 10; inject_Z 20]) /\
  MeanAdcsIdcs cached_set = Some [2; 2] /\
  (MeanAdcs cached_set = MeanAdcs cached_set /\
   MeanAdcsIdcs cached_set = MeanAdcsIdcs cached_set).
Proof.
  split; [reflexivity|]. split; [reflexivity|]. split; [reflexivity|].
  apply (C10_failed_mean_keeps_the_cache
           cached_set [] (Some [999; -1]) None EmptySelectionError_idcs cached_set).
  reflexivity.
Defined.

(** [is_valid_iterator_value] is the [is_valid_index] of the specification. *)
Lemma is_valid_iterator_value_spec ws i :
  is_valid_iterator_value ws i = true <-> 0 <= i < len (Waveforms ws).
Proof.
  unfold is_valid_iterator_value. repeat case_bool_decide; split; try done; lia.
Qed.

(** The four failures that the claim names do happen, each with its own
    exception and with the set left as it was. *)
Lemma mean_of_an_empty_set_raises ws args wf_idcs wf_selector :
  Waveforms ws = [] ->
  compute_mean_waveform ws args wf_idcs wf_selector = (Raise EmptyCollectionError, ws).
Proof.
  intros Hempty. unfold compute_mean_waveform.
  by rewrite Hempty, bool_decide_eq_true_2.
Qed.

Lemma mean_with_a_refused_selector_raises ws args f e :
  Waveforms ws <> [] ->
  check_selector_signature (inspect_signature f) = Raise e ->
  compute_mean_waveform ws args None (Some f) = (Raise e, ws).
Proof.
  intros Hne Hcheck. unfold compute_mean_waveform.
  rewrite bool_decide_eq_false_2, Hcheck; [done|].
  unfold len. destruct (Waveforms ws); [done|]. simpl. lia.
Qed.

Lemma with_selector_loop_none_selected waveforms test idcs aux added_wvfs :
  (forall wf, wf ∈ waveforms -> test wf = Ok false) ->
  (forall k, k ∈ idcs -> 0 <= k < len waveforms) ->
  with_selector_loop waveforms test idcs aux added_wvfs = Ok (aux, added_wvfs).
Proof.
  intros Htest. induction idcs as [|k idcs IH]; intros Hidcs; [done|]. simpl.
  destruct (getitem_in_range waveforms k) as (wf & -> & Hwf).
  { apply Hidcs. by left. }
  simpl. rewrite Htest by (by eapply list_elem_of_lookup_2). simpl.
  apply IH. intros k' Hk'. apply Hidcs. by right.
Qed.

Lemma mean_with_a_selector_of_nothing_raises ws args f :
  Waveforms ws <> [] ->
  check_selector_signature (inspect_signature f) = Ok () ->
  (forall wf, wf ∈ Waveforms ws -> call f wf args = Ok false) ->
  compute_mean_waveform ws args None (Some f) = (Raise EmptySelectionError_selector, ws).
Proof.
  intros Hne Hcheck Hnone. unfold compute_mean_waveform.
  rewrite bool_decide_eq_false_2, Hcheck.
  2:{ unfold len. destruct (Waveforms ws); [done|]. simpl. lia. }
  unfold __compute_mean_waveform_with_selector.
  rewrite with_selector_loop_none_selected; [done|done|].
  intros k. by rewrite elem_of_range.
Qed.

Lemma mean_of_no_valid_index_raises ws args wf_idcs wf_selector :
  Waveforms ws <> [] ->
  Forall (fun i => ~ 0 <= i < len (Waveforms ws)) wf_idcs ->
  compute_mean_waveform ws args (Some wf_idcs) wf_selector
  = (Raise EmptySelectionError_idcs, ws).
Proof.
  intros Hne Hnone. unfold compute_mean_waveform.
  rewrite bool_decide_eq_false_2.
  2:{ unfold len. destruct (Waveforms ws); [done|]. simpl. lia. }
  replace (existsb _ wf_idcs) with false; [done|].
  symmetry. apply not_true_is_false. intros Hex.
  apply existsb_exists in Hex as (i & Hin & Hvalid).
  apply is_valid_iterator_value_spec in Hvalid.
  rewrite Forall_forall in Hnone. apply (Hnone i); [|done].
  by apply list_elem_of_In.
Qed.

(** Averaging over given indices or with a selector does not touch the
    waveforms. *)
Lemma mean_of_a_selection_keeps_the_waveforms ws args wf_idcs wf_selector r ws' :
  (wf_idcs <> None \/ wf_selector <> None) ->
  compute_mean_waveform ws args wf_idcs wf_selector = (r, ws') ->
  Waveforms ws' = Waveforms ws.
Proof.
  intros Hmode. unfold compute_mean_waveform.
  case_bool_decide; [by intros [= _ <-]|].
  destruct wf_idcs as [idcs|]; [|destruct wf_selector as [f|]].
  - destruct (existsb _ _); [|by intros [= _ <-]].
    unfold __compute_mean_waveform_of_given_waveforms.
    destruct (_ ≫= _) as [[output added_wvfs]|e']; by intros [= _ <-].
  - destruct (check_selector_signature _); [|by intros [= _ <-]].
    unfold __compute_mean_waveform_with_selector.
    destruct (_ ≫= _) as [[output added_wvfs]|e']; by intros [= _ <-].
  - by destruct Hmode.
Qed.

(** Indices that are too large are skipped: as long as no index is
    negative, the loop over the given indices does what it does on the
    valid ones alone. *)
Lemma given_waveforms_loop_skips_large_indices waveforms wf_idcs aux added_wvfs :
  Forall (fun i => 0 <= i) wf_idcs ->
  given_waveforms_loop waveforms wf_idcs aux added_wvfs
  = given_waveforms_loop waveforms
      (filter (fun i => 0 <= i < len waveforms) wf_idcs) aux added_wvfs.
Proof.
  intros Hpos. revert aux added_wvfs.
  induction Hpos as [|idx wf_idcs Hidx Hpos IH]; intros aux added_wvfs; [done|].
  destruct (decide (0 <= idx < len waveforms)) as [Hvalid|Hlarge].
  - rewrite filter_cons_True by done. simpl.
    destruct (_ ≫= _) as [aux'|[]]; by rewrite ?IH.
  - rewrite filter_cons_False by done. simpl.
    rewrite getitem_too_large by lia. simpl. apply IH.
Qed.

Lemma mean_of_given_waveforms_skips_large_indices ws args wf_idcs wf_selector :
  Forall (fun i => 0 <= i) wf_idcs ->
  compute_mean_waveform ws args (Some wf_idcs) wf_selector
  = compute_mean_waveform ws args
      (Some (filter (fun i => 0 <= i < len (Waveforms ws)) wf_idcs)) wf_selector.
Proof.
  intros Hpos. unfold compute_mean_waveform.
  case_bool_decide; [done|].
  assert (Hex : existsb (is_valid_iterator_value ws) wf_idcs
                = existsb (is_valid_iterator_value ws)
                    (filter (fun i => 0 <= i < len (Waveforms ws)) wf_idcs)).
  { clear Hpos. induction wf_idcs as [|idx wf_idcs IH]; [done|].
    destruct (decide (0 <= idx < len (Waveforms ws))) as [Hvalid|Hbad].
    - rewrite filter_cons_True by done. simpl. by rewrite IH.
    - rewrite filter_cons_False by done. simpl. rewrite IH.
      replace (is_valid_iterator_value ws idx) with false; [done|].
      symmetry. apply not_true_is_false.
      by rewrite is_valid_iterator_value_spec. }
  rewrite <- Hex. destruct (existsb _ wf_idcs); [|done].
  unfold __compute_mean_waveform_of_given_waveforms.
  by rewrite <- given_waveforms_loop_skips_large_indices.
Qed.

(** The example of the specification: over the indices 2, 2 and 999 of a
    set of three waveforms the mean is the trace of waveform 2, and the
    indices kept are 2 and 2. *)
Example mean_of_2_2_999 :
  compute_mean_waveform sample_set [] (Some [2; 2; 999]) None
  = (Ok (mkWaveformAdcs 16 (inject_Z <$> [10; 20])),
     set_Mean sample_set (mkWaveformAdcs 16 (inject_Z <$> [10; 20])) [2; 2]).
Proof. reflexivity. Qed.

(** C3 (the code departs from the claim): the index -1 is outside
    [0, len), and [is_valid_iterator_value] says so, but it is not skipped.
    With the indices 0 and -1 on a set of three waveforms, the last
    waveform is added to the sum and -1 is kept among the indices: the mean
    is that of waveforms 0 and 2, not the trace of waveform 0 that the
    index 0 alone gives. *)
Theorem C3_negative_index_is_not_skipped :
  is_valid_iterator_value sample_set (-1) = false /\
  fst (compute_mean_waveform sample_set [] (Some [0; -1]) None)
  = Ok (mkWaveformAdcs 16 [11 # 2; inject_Z 11]) /\
  MeanAdcsIdcs (snd (compute_mean_waveform sample_set [] (Some [0; -1]) None))
  = Some [0; -1] /\
  fst (compute_mean_waveform sample_set [] (Some [0]) None)
  = Ok (mkWaveformAdcs 16 [inject_Z 1; inject_Z 2]) /\
  MeanAdcsIdcs (snd (compute_mean_waveform sample_set [] (Some [0]) None))
  = Some [0].
Proof. repeat split; reflexivity. Qed.

(** C1 (the code departs from the claim): on a set of two waveforms with
    the traces 1, 2 and 3, 4, a first average over every waveform gives
    2, 3; the second, called right after it, gives 7/2, 5.  The indices
    are 0, 1 both times. *)
Theorem C1_mean_of_every_waveform_is_not_idempotent :
  let (first, ws1) := compute_mean_waveform sample_pair_set [] None None in
  let (second, ws2) := compute_mean_waveform ws1 [] None None in
  first = Ok (mkWaveformAdcs 16 [inject_Z 2; inject_Z 3]) /\
  second = Ok (mkWaveformAdcs 16 [7 # 2; inject_Z 5]) /\
  first <> second /\
  MeanAdcsIdcs ws1 = Some [0; 1] /\ MeanAdcsIdcs ws2 = Some [0; 1].
Proof. vm_compute. repeat split; discriminate. Qed.

(** C2 (the code departs from the claim): the average over every waveform
    accumulates in the array of waveform 0.  After one call on the same
    set of two waveforms, the trace of waveform 0 is 4, 6 and no longer
    1, 2; the trace of waveform 1 is untouched. *)
Theorem C2_mean_of_every_waveform_overwrites_the_first_trace :
  Adcs <$> Waveforms sample_pair_set = [[1; 2]; [3; 4]] /\
  Adcs <$> Waveforms (snd (compute_mean_waveform sample_pair_set [] None None))
  = [[4; 6]; [3; 4]].
Proof. split; reflexivity. Qed.

(** ** The mean over the indices 2, 2, 999, on any set of three waveforms *)

Lemma iadd_zeros (a : list Z) (n : Z) : len a = n -> Np.iadd (Np.zeros n) a = Ok a.
Proof.
  intros <-. unfold Np.iadd, Np.zeros, len. rewrite Nat2Z.id.
  rewrite bool_decide_eq_true_2 by (by rewrite length_replicate).
  f_equal. induction a as [|x a IH]; [done|]. simpl. by rewrite IH.
Qed.

Lemma iadd_same_length (a b : list Z) :
  length b = length a -> Np.iadd a b = Ok (zip_with Z.add a b).
Proof. intros Hlen. unfold Np.iadd. by rewrite bool_decide_eq_true_2. Qed.

Lemma true_divide_double (a : list Z) :
  Np.true_divide (zip_with Z.add a a) 2 = inject_Z <$> a.
Proof.
  unfold Np.true_divide. induction a as [|x a IH]; [done|].
  cbn [zip_with]. rewrite !fmap_cons, IH. f_equal.
  rewrite <- (Qcanon.Qred_identity (inject_Z x)) by (simpl; apply Z.gcd_1_r).
  apply Qred_complete. unfold Qeq, Qdiv, Qmult, Qinv, inject_Z. simpl. lia.
Qed.

(** The waveform at index 2 is counted twice and 999 is skipped: the mean
    is the trace of that waveform, exactly. *)
Lemma mean_of_2_2_999_is_the_trace_of_waveform_2 wf0 wf1 wf2 ws args wf_selector :
  WaveformSet_init [wf0; wf1; wf2] = Ok ws ->
  exists ws',
    compute_mean_waveform ws args (Some [2; 2; 999]) wf_selector
    = (Ok (mkWaveformAdcs (TimeStep_ns wf2) (inject_Z <$> Adcs wf2)), ws') /\
    MeanAdcsIdcs ws' = Some [2; 2] /\
    Waveforms ws' = [wf0; wf1; wf2].
Proof.
  intros Hws. apply WaveformSet_init_Ok in Hws.
  destruct Hws as (_ & Hwfs & _ & _ & _ & _ & Hall).
  assert (Hlen : len (Adcs wf2) = PointsPerWf ws).
  { rewrite Forall_forall in Hall. apply Hall. set_solver. }
  unfold compute_mean_waveform. rewrite Hwfs.
  rewrite bool_decide_eq_false_2 by done.
  replace (existsb _ _) with true
    by (unfold is_valid_iterator_value; by rewrite Hwfs).
  unfold __compute_mean_waveform_of_given_waveforms. rewrite Hwfs. simpl.
  change (getitem [wf0; wf1; wf2] 2) with (Ok wf2). simpl.
  rewrite iadd_zeros by done. rewrite iadd_same_length by done.
  change (getitem [wf0; wf1; wf2] 999) with (@Raise Waveform IndexError). simpl.
  change (getitem [2; 2] 0) with (Ok 2). simpl.
  change (getitem [wf0; wf1; wf2] 2) with (Ok wf2). simpl.
  change (len [2; 2]) with 2. rewrite true_divide_double.
  eexists. split; [reflexivity|]. by rewrite <- Hwfs.
Qed.

(** ** The fast paths, seen from [get_grid_of_wf_idcs] *)

Lemma get_grid_of_wf_idcs_by_run_as_general
    waveforms ws nrows ncols filter_args max_wfs_per_axes :
  WaveformSet_init waveforms = Ok ws ->
  cells_have_arity 1 filter_args ->
  get_grid_of_wf_idcs ws nrows ncols None (Some WaveformSet_match_run)
                      (Some filter_args) max_wfs_per_axes
  = get_grid_of_wf_idcs ws nrows ncols None (Some (wrapped WaveformSet_match_run))
                        (Some filter_args) max_wfs_per_axes.
Proof.
  intros Hws Harity. apply WaveformSet_init_derived_sets_cover in Hws.
  unfold wrapped, get_grid_of_wf_idcs, filtering_mode_checks.
  destruct (_ || _); [done|].
  change (first_parameter_name _) with (Ok "waveform"%string).
  change (annotation_of _ _) with (Ok ann_Waveform). simpl.
  destruct (grid_of_lists_is_well_formed _ _ _) as [[]|]; simpl; [|done..].
  destruct (get_2D_empty_nested_list nrows ncols) as [output|].
  - destruct max_wfs_per_axes as [m|]; simpl.
    + destruct (bool_decide (m < 1)); [done|]. simpl.
      by apply by_run_equals_general_path.
    + by apply by_run_equals_general_path.
  - destruct max_wfs_per_axes as [m|]; simpl; [|done].
    by destruct (bool_decide (m < 1)).
Qed.

Lemma get_grid_of_wf_idcs_by_endpoint_and_channel_as_general
    waveforms ws nrows ncols filter_args max_wfs_per_axes :
  WaveformSet_init waveforms = Ok ws ->
  cells_have_arity 2 filter_args ->
  get_grid_of_wf_idcs ws nrows ncols None
                      (Some WaveformSet_match_endpoint_and_channel)
                      (Some filter_args) max_wfs_per_axes
  = get_grid_of_wf_idcs ws nrows ncols None
                        (Some (wrapped WaveformSet_match_endpoint_and_channel))
                        (Some filter_args) max_wfs_per_axes.
Proof.
  intros Hws Harity. apply WaveformSet_init_derived_sets_cover in Hws.
  unfold wrapped, get_grid_of_wf_idcs, filtering_mode_checks.
  destruct (_ || _); [done|].
  change (first_parameter_name _) with (Ok "waveform"%string).
  change (annotation_of _ _) with (Ok ann_Waveform). simpl.
  destruct (grid_of_lists_is_well_formed _ _ _) as [[]|]; simpl; [|done..].
  destruct (get_2D_empty_nested_list nrows ncols) as [output|].
  - destruct max_wfs_per_axes as [m|]; simpl.
    + destruct (bool_decide (m < 1)); [done|]. simpl.
      by apply by_endpoint_and_channel_equals_general_path.
    + by apply by_endpoint_and_channel_equals_general_path.
  - destruct max_wfs_per_axes as [m|]; simpl; [|done].
    by destruct (bool_decide (m < 1)).
Qed.

(** Without the right number of arguments in a cell the two paths part:
    the fast path leaves the cell of a run that the set does not have
    empty, where the general path calls the predicate and gets a
    [TypeError]. *)
Example fast_path_with_one_argument_too_many :
  get_grid_of_wf_idcs sample_set 1 1 None (Some WaveformSet_match_run)
                      (Some [[[99; 0]]]) (Some 5)
  = Ok [[[]]] /\
  get_grid_of_wf_idcs sample_set 1 1 None (Some (wrapped WaveformSet_match_run))
                      (Some [[[99; 0]]]) (Some 5)
  = Raise TypeError.
Proof. split; reflexivity. Qed.

(** * Further properties *)

(** ** More on construction *)

(** X1: from a sequence that is not empty and whose traces all have the
    length of the first one, the constructor returns a set; the set holds
    the waveforms given, in the order given, [PointsPerWf] is that length
    and no mean is available yet. *)
Theorem X1_construction_succeeds wf0 rest :
  Forall (fun wf => len (Adcs wf) = len (Adcs wf0)) rest ->
  exists ws,
    WaveformSet_init (wf0 :: rest) = Ok ws /\
    Waveforms ws = wf0 :: rest /\
    PointsPerWf ws = len (Adcs wf0) /\
    MeanAdcs ws = None /\ MeanAdcsIdcs ws = None.
Proof.
  intros Hall. rewrite WaveformSet_init_cons.
  replace (forallb (same_length_as wf0) rest) with true.
  { eexists. split; [reflexivity|]. done. }
  symmetry. apply forallb_forall. intros wf Hwf.
  apply bool_decide_eq_true_2. rewrite Forall_forall in Hall.
  apply Hall. by apply list_elem_of_In.
Qed.

Lemma X1_construction_succeeds_witness :
  exists ws,
    WaveformSet_init sample_waveforms = Ok ws /\
    Waveforms ws = sample_waveforms /\
    PointsPerWf ws = 2 /\
    MeanAdcs ws = None /\ MeanAdcsIdcs ws = None.
Proof.
  apply (X1_construction_succeeds
           (sample_waveform [1; 2] 10 1 1)
           [sample_waveform [3; 4] 11 1 2; sample_waveform [10; 20] 11 2 2]).
  repeat constructor.
Defined.

Lemma update_runs_eq waveforms (runs : gset Z) :
  update_runs waveforms runs = list_to_set (RunNumber <$> waveforms) ∪ runs.
Proof.
  revert runs. induction waveforms as [|wf waveforms IH]; intros runs.
  - set_solver.
  - rewrite update_runs_cons, IH. set_solver.
Qed.

(** X2: after construction [Runs] is exactly the set of the run numbers of
    the waveforms of the set. *)
Theorem X2_runs_after_construction waveforms ws :
  WaveformSet_init waveforms = Ok ws ->
  Runs ws = list_to_set (RunNumber <$> Waveforms ws) /\
  (forall run, run ∈ Runs ws <->
               exists wf, wf ∈ Waveforms ws /\ RunNumber wf = run).
Proof.
  intros Hws. apply WaveformSet_init_Ok in Hws.
  destruct Hws as (_ & Hwfs & Hruns & _). rewrite Hwfs, Hruns.
  rewrite update_runs_eq. split; [set_solver|].
  intros run. rewrite elem_of_union, elem_of_list_to_set, list_elem_of_fmap.
  split.
  - intros [(wf & -> & Hwf)|Hempty]; [by exists wf | set_solver].
  - intros (wf & Hwf & <-). left. by exists wf.
Qed.

Lemma X2_runs_after_construction_witness :
  Runs sample_set = list_to_set (RunNumber <$> Waveforms sample_set) /\
  (forall run, run ∈ Runs sample_set <->
               exists wf, wf ∈ Waveforms sample_set /\ RunNumber wf = run).
Proof.
  apply (X2_runs_after_construction sample_waveforms sample_set). reflexivity.
Defined.

Lemma update_available_channels_channel waveforms (chans : gmap Z (gset Z)) ep ch :
  (exists s, update_available_channels waveforms chans !! ep = Some s /\ ch ∈ s) <->
  (exists s, chans !! ep = Some s /\ ch ∈ s) \/
  (exists wf, wf ∈ waveforms /\ Endpoint wf = ep /\ Channel wf = ch).
Proof.
  revert chans. induction waveforms as [|wf waveforms IH]; intros chans.
  { split; [by left|]. intros [H|(wf & Hwf & _)]; [done|].
    by apply elem_of_nil in Hwf. }
  rewrite update_available_channels_cons, IH. clear IH.
  setoid_rewrite elem_of_cons.
  destruct (decide (Endpoint wf = ep)) as [Hep|Hep].
  - subst ep. destruct (chans !! Endpoint wf) as [s0|] eqn:Hs0.
    + rewrite lookup_insert_eq. split.
      * intros [(s & [= <-] & Hch)|(wf' & Hwf' & Hep' & Hch')].
        -- apply elem_of_union in Hch as [Hch|Hch].
           ++ right. exists wf. apply elem_of_singleton in Hch. auto.
           ++ left. by exists s0.
        -- right. exists wf'. auto.
      * intros [(s & [= <-] & Hch)|(wf' & [->|Hwf'] & Hep' & Hch')].
        -- left. eexists. split; [done|]. set_solver.
        -- left. eexists. split; [done|]. set_solver.
        -- right. exists wf'. auto.
    + rewrite lookup_insert_eq. split.
      * intros [(s & [= <-] & Hch)|(wf' & Hwf' & Hep' & Hch')].
        -- right. exists wf. set_solver.
        -- right. exists wf'. auto.
      * intros [(s & [=] & _)|(wf' & [->|Hwf'] & Hep' & Hch')].
        -- left. eexists. split; [done|]. set_solver.
        -- right. exists wf'. auto.
  - assert (Hsame : forall s0 : gset Z,
              (<[Endpoint wf := s0]> chans) !! ep = chans !! ep)
      by (intros; by rewrite lookup_insert_ne).
    destruct (chans !! Endpoint wf); rewrite Hsame.
    all: split;
      [intros [?|(wf' & Hwf' & Hep' & Hch')]; [by left|right; exists wf'; auto]
      |intros [?|(wf' & [->|Hwf'] & Hep' & Hch')];
         [by left|done|right; exists wf'; auto]].
Qed.

Lemma update_available_channels_endpoint waveforms (chans : gmap Z (gset Z)) ep :
  is_Some (update_available_channels waveforms chans !! ep) <->
  is_Some (chans !! ep) \/ (exists wf, wf ∈ waveforms /\ Endpoint wf = ep).
Proof.
  revert chans. induction waveforms as [|wf waveforms IH]; intros chans.
  { split; [by left|]. intros [H|(wf & Hwf & _)]; [done|].
    by apply elem_of_nil in Hwf. }
  rewrite update_available_channels_cons, IH. clear IH.
  setoid_rewrite elem_of_cons.
  destruct (decide (Endpoint wf = ep)) as [Hep|Hep].
  - subst ep. split; [intros _; right; exists wf; auto|intros _; left].
    destruct (chans !! Endpoint wf); by rewrite lookup_insert_eq.
  - assert (Hsame : forall s0 : gset Z,
              (<[Endpoint wf := s0]> chans) !! ep = chans !! ep)
      by (intros; by rewrite lookup_insert_ne).
    destruct (chans !! Endpoint wf); rewrite Hsame.
    all: split;
      [intros [?|(wf' & Hwf' & Hep')]; [by left|right; exists wf'; auto]
      |intros [?|(wf' & [->|Hwf'] & Hep')];
         [by left|done|right; exists wf'; auto]].
Qed.

(** X3: after construction [AvailableChannels] has a key for an endpoint
    exactly when some waveform of the set comes from it, and a channel is
    in the set kept under an endpoint exactly when some waveform of the
    set comes from that endpoint and that channel. *)
Theorem X3_available_channels_after_construction waveforms ws :
  WaveformSet_init waveforms = Ok ws ->
  (forall endpoint,
     is_Some (AvailableChannels ws !! endpoint) <->
     exists wf, wf ∈ Waveforms ws /\ Endpoint wf = endpoint) /\
  (forall endpoint channel,
     (exists channels, AvailableChannels ws !! endpoint = Some channels /\
                       channel ∈ channels) <->
     exists wf, wf ∈ Waveforms ws /\ Endpoint wf = endpoint /\
                Channel wf = channel).
Proof.
  intros Hws. apply WaveformSet_init_Ok in Hws.
  destruct Hws as (_ & Hwfs & _ & Hchans & _). rewrite Hwfs, Hchans. split.
  - intros endpoint. rewrite update_available_channels_endpoint.
    rewrite lookup_empty. split; [intros [[? [=]]|?]; done | by right].
  - intros endpoint channel. rewrite update_available_channels_channel.
    rewrite lookup_empty. split; [intros [(? & [=] & _)|?]; done | by right].
Qed.

Lemma X3_available_channels_after_construction_witness :
  (forall endpoint,
     is_Some (AvailableChannels sample_set !! endpoint) <->
     exists wf, wf ∈ Waveforms sample_set /\ Endpoint wf = endpoint) /\
  (forall endpoint channel,
     (exists channels, AvailableChannels sample_set !! endpoint = Some channels /\
                       channel ∈ channels) <->
     exists wf, wf ∈ Waveforms sample_set /\ Endpoint wf = endpoint /\
                Channel wf = channel).
Proof.
  apply (X3_available_channels_after_construction sample_waveforms sample_set).
  reflexivity.
Defined.

(** ** More on analyse *)

(** X4: on a list of limits that is not empty the check returns a boolean,
    and it returns [True] exactly when the list has an even number of
    limits, is strictly increasing and has every limit within
    [0, PointsPerWf - 1]. *)
Theorem X4_baseline_limits_check_on_a_nonempty_list ws (x : Z) (rest : list Z) :
  exists answer : bool,
    baseline_limits_are_well_formed ws (x :: rest) = Ok answer /\
    (answer = true <->
     Z.even (len (x :: rest)) = true /\
     Sorted Z.lt (x :: rest) /\
     Forall (fun y => 0 <= y <= PointsPerWf ws - 1) (x :: rest)).
Proof. apply baseline_limits_are_well_formed_nonempty. Qed.

Lemma well_formed_limits_are_few n (l : list Z) lo :
  Sorted Z.lt l -> Forall (fun y => lo <= y <= n - 1) l -> len l <= Z.max 0 (n - lo).
Proof.
  revert lo. induction l as [|x l IH]; intros lo Hs Hb.
  { unfold len. simpl. lia. }
  apply Sorted_inv in Hs as [Hs Hhd].
  apply Forall_cons in Hb as [Hx Hb].
  assert (Hb' : Forall (fun y => x + 1 <= y <= n - 1) l).
  { apply Sorted_StronglySorted in Hs; [|intros a b c; lia].
    destruct l as [|y l]; [constructor|].
    apply HdRel_inv in Hhd. apply StronglySorted_inv in Hs as [_ Hall].
    apply Forall_cons in Hb as [Hy Hb]. constructor; [lia|].
    rewrite Forall_forall in Hall, Hb. apply Forall_forall. intros z Hz.
    specialize (Hall z Hz). specialize (Hb z Hz). lia. }
  specialize (IH (x + 1) Hs Hb').
  unfold len in *. simpl length. lia.
Qed.

(** X5: limits that pass the check fit in the trace: there are at most
    [PointsPerWf] of them.  So on a set whose traces have one sample no
    list of limits passes. *)
Theorem X5_accepted_limits_fit_in_the_trace ws baseline_limits :
  baseline_limits_are_well_formed ws baseline_limits = Ok true ->
  2 <= len baseline_limits <= PointsPerWf ws.
Proof.
  intros Hcheck. destruct baseline_limits as [|x rest]; [done|].
  destruct (baseline_limits_are_well_formed_nonempty ws x rest)
    as (answer & Hanswer & Hiff).
  rewrite Hcheck in Hanswer. injection Hanswer as <-.
  destruct (proj1 Hiff eq_refl) as (Heven & Hsorted & Hbounds).
  pose proof (well_formed_limits_are_few _ _ 0 Hsorted Hbounds) as Hfew.
  split; [|unfold len in *; simpl length in *; lia].
  destruct rest as [|y rest]; [done|]. unfold len. simpl length. lia.
Qed.

Lemma X5_accepted_limits_fit_in_the_trace_witness :
  2 <= len [0; 1] <= PointsPerWf sample_set.
Proof.
  apply (X5_accepted_limits_fit_in_the_trace sample_set [0; 1]). reflexivity.
Defined.

Section AnalyseLoop.
Variable WfAna_getattr : string -> option (option signature).
Variable SideOutput : Type.
Variable Waveform_analyse :
  string -> string -> list Z -> list Z -> Z -> Z -> bool ->
  Waveform -> result SideOutput * Waveform.
Variables (label analyser_name : string) (baseline_limits args : list Z).
Variables (int_ll int_ul : Z) (overwrite : bool).

(** Every waveform of [rest] is analysed without a raise: the loop over
    its indices replaces each by what the analysis leaves and stores each
    output under the index of its waveform. *)
Lemma analyse_loop_all_succeed (rest pre : list Waveform) (output : gmap Z SideOutput) :
  Forall (fun wf => exists out,
            fst (Waveform_analyse label analyser_name baseline_limits args
                                  int_ll int_ul overwrite wf) = Ok out) rest ->
  exists output',
    analyse_loop SideOutput Waveform_analyse label analyser_name
                 baseline_limits args int_ll int_ul overwrite
                 (seqZ (len pre) (len rest)) (pre ++ rest) output
    = (Ok output',
       pre ++ ((fun wf => snd (Waveform_analyse label analyser_name baseline_limits
                                                args int_ll int_ul overwrite wf))
                 <$> rest)) /\
    (forall (i : nat) wf,
       rest !! i = Some wf ->
       exists out,
         fst (Waveform_analyse label analyser_name baseline_limits args
                               int_ll int_ul overwrite wf) = Ok out /\
         output' !! (len pre + Z.of_nat i) = Some out) /\
    (forall k, k < len pre \/ len pre + len rest <= k -> output' !! k = output !! k).
Proof.
  revert pre output. induction rest as [|wf rest IH]; intros pre output Hall.
  { exists output. simpl. rewrite app_nil_r. split; [done|]. split; [|done].
    intros i wf Hi. by rewrite lookup_nil in Hi. }
  apply Forall_cons in Hall as [(out & Hout) Hall].
  rewrite seqZ_cons by (unfold len; simpl; lia). simpl.
  rewrite getitem_middle.
  destruct (Waveform_analyse _ _ _ _ _ _ _ wf) as [r wf'] eqn:Hstep.
  simpl in Hout. subst r.
  replace (Z.to_nat (len pre)) with (length pre + 0)%nat
    by (unfold len; lia).
  rewrite insert_app_r. simpl.
  destruct (IH (pre ++ [wf']) (<[len pre := out]> output) Hall)
    as (output' & Hloop & Hin & Hout').
  replace (len (pre ++ [wf'])) with (Z.succ (len pre)) in Hloop, Hin, Hout'
    by (unfold len; rewrite length_app; simpl; lia).
  replace (Z.pred (len (wf :: rest))) with (len rest)
    by (unfold len; simpl; lia).
  rewrite <- !app_assoc in Hloop. simpl in Hloop.
  exists output'. split; [by rewrite Hloop|]. split.
  - intros [|i] w Hw; simpl in Hw.
    + injection Hw as <-. exists out. rewrite Hstep. split; [done|].
      rewrite Hout' by lia. rewrite Z.add_0_r. apply lookup_insert_eq.
    + destruct (Hin i w Hw) as (o & Ho & Hlook). exists o. split; [done|].
      rewrite <- Hlook. f_equal. lia.
  - intros k Hk. rewrite Hout'.
    + apply lookup_insert_ne. unfold len in *. simpl length in Hk. lia.
    + unfold len in *. simpl length in Hk. lia.
Qed.

(** The waveforms of [good] are analysed without a raise and the next one
    raises: the loop stops there, with the waveforms of [good] analysed,
    the failing one as its analysis left it, and the others untouched. *)
Lemma analyse_loop_first_failure
    (good : list Waveform) wf (post pre : list Waveform)
    (output : gmap Z SideOutput) e wf' :
  Forall (fun wf => exists out,
            fst (Waveform_analyse label analyser_name baseline_limits args
                                  int_ll int_ul overwrite wf) = Ok out) good ->
  Waveform_analyse label analyser_name baseline_limits args
                   int_ll int_ul overwrite wf = (Raise e, wf') ->
  analyse_loop SideOutput Waveform_analyse label analyser_name
               baseline_limits args int_ll int_ul overwrite
               (seqZ (len pre) (len (good ++ wf :: post)))
               (pre ++ good ++ wf :: post) output
  = (Raise e,
     pre ++ ((fun wf => snd (Waveform_analyse label analyser_name baseline_limits
                                              args int_ll int_ul overwrite wf))
               <$> good) ++ wf' :: post).
Proof.
  intros Hall Hfail. revert pre output.
  induction Hall as [|w good (out & Hout) Hall IH]; intros pre output.
  - rewrite seqZ_cons by (unfold len; simpl; lia). simpl.
    rewrite getitem_middle, Hfail.
    replace (Z.to_nat (len pre)) with (length pre + 0)%nat
      by (unfold len; lia).
    by rewrite insert_app_r.
  - rewrite seqZ_cons by (unfold len; simpl; lia). simpl.
    rewrite getitem_middle.
    destruct (Waveform_analyse _ _ _ _ _ _ _ w) as [r w'] eqn:Hstep.
    simpl in Hout. subst r.
    replace (Z.to_nat (len pre)) with (length pre + 0)%nat
      by (unfold len; lia).
    rewrite insert_app_r. simpl.
    specialize (IH (pre ++ [w']) (<[len pre := out]> output)).
    replace (len (pre ++ [w'])) with (Z.succ (len pre)) in IH
      by (unfold len; rewrite length_app; simpl; lia).
    replace (Z.pred (len (w :: good ++ wf :: post)))
      with (len (good ++ wf :: post)) by (unfold len; simpl; lia).
    rewrite <- !app_assoc in IH. simpl in IH. exact IH.
Qed.

(** X6: when the checks pass and the analysis of no waveform raises,
    [analyse] returns a dictionary with one entry for each index of the
    set and no other, the entry of a waveform being the output of its own
    analysis; and the set is left with every waveform as its analysis left
    it, in the same order. *)
Theorem X6_analyse_analyses_every_waveform ws int_ul_given :
  analyse_checks WfAna_getattr ws analyser_name baseline_limits int_ll int_ul_given
  = Ok int_ul ->
  Forall (fun wf => exists out,
            fst (Waveform_analyse label analyser_name baseline_limits args
                                  int_ll int_ul overwrite wf) = Ok out)
         (Waveforms ws) ->
  exists output,
    analyse WfAna_getattr SideOutput Waveform_analyse
            ws label analyser_name baseline_limits args
            int_ll int_ul_given overwrite
    = (Ok output,
       set_Waveforms ws
         ((fun wf => snd (Waveform_analyse label analyser_name baseline_limits
                                           args int_ll int_ul overwrite wf))
            <$> Waveforms ws)) /\
    (forall (i : nat) wf,
       Waveforms ws !! i = Some wf ->
       exists out,
         fst (Waveform_analyse label analyser_name baseline_limits args
                               int_ll int_ul overwrite wf) = Ok out /\
         output !! Z.of_nat i = Some out) /\
    (forall k, k < 0 \/ len (Waveforms ws) <= k -> output !! k = None).
Proof.
  intros Hchecks Hall. unfold analyse. rewrite Hchecks.
  destruct (analyse_loop_all_succeed (Waveforms ws) [] ∅ Hall)
    as (output & Hloop & Hin & Hout).
  change (len []) with 0 in Hloop, Hin, Hout. simpl in Hloop.
  unfold range. rewrite Hloop. exists output. split; [done|]. split.
  - intros i wf Hi. destruct (Hin i wf Hi) as (out & Ho & Hlook).
    exists out. by rewrite Z.add_0_l in Hlook.
  - intros k Hk. rewrite Hout by lia. apply lookup_empty.
Qed.

(** X7: there is no rollback.  When the checks pass, the analysis of the
    waveforms of [good] does not raise and that of the next waveform does,
    [analyse] raises that error and leaves the set with the waveforms of
    [good] analysed, the failing one as its analysis left it, and the
    waveforms after it untouched. *)
Theorem X7_analyse_does_not_roll_back ws int_ul_given good wf post e wf' :
  analyse_checks WfAna_getattr ws analyser_name baseline_limits int_ll int_ul_given
  = Ok int_ul ->
  Waveforms ws = good ++ wf :: post ->
  Forall (fun wf => exists out,
            fst (Waveform_analyse label analyser_name baseline_limits args
                                  int_ll int_ul overwrite wf) = Ok out) good ->
  Waveform_analyse label analyser_name baseline_limits args
                   int_ll int_ul overwrite wf = (Raise e, wf') ->
  analyse WfAna_getattr SideOutput Waveform_analyse
          ws label analyser_name baseline_limits args
          int_ll int_ul_given overwrite
  = (Raise e,
     set_Waveforms ws
       (((fun wf => snd (Waveform_analyse label analyser_name baseline_limits
                                          args int_ll int_ul overwrite wf))
           <$> good) ++ wf' :: post)).
Proof.
  intros Hchecks Hwfs Hall Hfail. unfold analyse. rewrite Hchecks, Hwfs.
  pose proof (analyse_loop_first_failure good wf post [] ∅ e wf' Hall Hfail)
    as Hloop.
  change (len []) with 0 in Hloop. simpl in Hloop.
  unfold range. by rewrite Hloop.
Qed.

End AnalyseLoop.

Section AnalyseFrame.
Variable WfAna_getattr : string -> option (option signature).
Variable SideOutput : Type.
Variable Waveform_analyse :
  string -> string -> list Z -> list Z -> Z -> Z -> bool ->
  Waveform -> result SideOutput * Waveform.

Lemma analyse_loop_length
    label analyser_name baseline_limits args int_ll int_ul overwrite
    idcs waveforms output :
  length (snd (analyse_loop SideOutput Waveform_analyse label analyser_name
                            baseline_limits args int_ll int_ul overwrite
                            idcs waveforms output))
  = length waveforms.
Proof.
  revert waveforms output.
  induction idcs as [|i idcs IH]; intros waveforms output; [done|]. simpl.
  destruct (getitem waveforms i); [|done].
  destruct (Waveform_analyse _ _ _ _ _ _ _ _) as [[out|e] wf']; simpl.
  - by rewrite IH, length_insert.
  - by rewrite length_insert.
Qed.

(** X8: whatever it returns, [analyse] changes nothing in the set but the
    waveforms themselves: their number, [PointsPerWf], [Runs],
    [AvailableChannels] and the mean kept in the set are what they were.
    The derived attributes are not brought up to date. *)
Theorem X8_analyse_keeps_the_derived_attributes
    ws label analyser_name baseline_limits args int_ll int_ul overwrite :
  let ws' := snd (analyse WfAna_getattr SideOutput Waveform_analyse
                          ws label analyser_name baseline_limits args
                          int_ll int_ul overwrite) in
  length (Waveforms ws') = length (Waveforms ws) /\
  PointsPerWf ws' = PointsPerWf ws /\
  Runs ws' = Runs ws /\
  AvailableChannels ws' = AvailableChannels ws /\
  MeanAdcs ws' = MeanAdcs ws /\
  MeanAdcsIdcs ws' = MeanAdcsIdcs ws.
Proof.
  unfold analyse.
  destruct (analyse_checks _ _ _ _ _ _) as [u|e]; [|done].
  pose proof (analyse_loop_length label analyser_name baseline_limits args
                                  int_ll u overwrite
                                  (range (len (Waveforms ws))) (Waveforms ws) ∅)
    as Hlen.
  destruct (analyse_loop _ _ _ _ _ _ _ _ _ _ _ _) as [r waveforms'].
  simpl in *. done.
Qed.

End AnalyseFrame.


Lemma X6_analyse_analyses_every_waveform_witness :
  exists output,
    analyse sample_WfAna_getattr Z sample_Waveform_analyse
            sample_set "first" "standard_analyser" [0; 1] [] 0 None false
    = (Ok output,
       set_Waveforms sample_set
         ((fun wf => snd (sample_Waveform_analyse
                            "first" "standard_analyser" [0; 1] [] 0 1 false wf))
            <$> Waveforms sample_set)) /\
    (forall (i : nat) wf,
       Waveforms sample_set !! i = Some wf ->
       exists out,
         fst (sample_Waveform_analyse
                "first" "standard_analyser" [0; 1] [] 0 1 false wf) = Ok out /\
         output !! Z.of_nat i = Some out) /\
    (forall k, k < 0 \/ len (Waveforms sample_set) <= k -> output !! k = None).
Proof.
  apply (X6_analyse_analyses_every_waveform
           sample_WfAna_getattr Z sample_Waveform_analyse
           "first" "standard_analyser" [0; 1] [] 0 1 false sample_set None).
  - reflexivity.
  - repeat constructor; eexists; reflexivity.
Defined.

Lemma X7_analyse_does_not_roll_back_witness :
  analyse sample_WfAna_getattr Z sample_Waveform_analyse
          half_analysed_set "first" "standard_analyser" [0; 1] [] 0 None false
  = (Raise (GenericException 1 "WaveformAdcs.analyse()"),
     set_Waveforms half_analysed_set
       [snd (sample_Waveform_analyse "first" "standard_analyser" [0; 1] [] 0 1 false
                                     (sample_waveform [1; 2] 10 1 1));
        snd (sample_Waveform_analyse "first" "standard_analyser" [0; 1] [] 0 1 false
                                     (sample_waveform [3; 4] 11 1 2));
        sample_waveform [10; 20] 11 2 2]).
Proof.
  apply (X7_analyse_does_not_roll_back
           sample_WfAna_getattr Z sample_Waveform_analyse
           "first" "standard_analyser" [0; 1] [] 0 1 false half_analysed_set None
           [sample_waveform [1; 2] 10 1 1]
           (snd (sample_Waveform_analyse "first" "standard_analyser" [0; 1] [] 0 1
                                         false (sample_waveform [3; 4] 11 1 2)))
           [sample_waveform [10; 20] 11 2 2]).
  - reflexivity.
  - reflexivity.
  - repeat constructor; eexists; reflexivity.
  - reflexivity.
Defined.

(** ** More on the contract of the analyser *)

(** X9: the signature of an analyser is accepted exactly when its first
    parameter is called [waveform], is annotated with the class
    [WaveformAdcs] or with the string of that name, and the return is
    annotated [Tuple[WfAnaResult, bool, dict]].  An analyser that takes no
    parameter is refused with exception 8, and every refusal is one of
    the exceptions 5 to 8 of [analyse]: no error of the interpreter gets
    out of the check. *)
Theorem X9_analyser_contract sig :
  (check_analyser_signature sig = Ok () <->
   exists p ps,
     parameters sig = p :: ps /\
     param_name p = "waveform"%string /\
     (param_annotation p = ann_str "WaveformAdcs" \/
      param_annotation p = ann_WaveformAdcs) /\
     return_annotation sig = ann_analyser_return) /\
  (parameters sig = [] ->
   check_analyser_signature sig = Raise (GenericException 8 "WaveformSet.analyse()")) /\
  (forall e,
     check_analyser_signature sig = Raise e ->
     exists code, e = GenericException code "WaveformSet.analyse()" /\ 5 <= code <= 8).
Proof.
  split; [|split].
  - unfold check_analyser_signature, first_parameter_name, annotation_of.
    destruct (parameters sig) as [|p ps] eqn:Hps; simpl.
    { split; [done|]. by intros (? & ? & [=] & _). }
    change (getitem (param_name p :: (param_name <$> ps)) 0) with (Ok (param_name p)).
    simpl.
    destruct (decide (param_name p = "waveform"%string)) as [Hname|Hname].
    2:{ rewrite (bool_decide_eq_true_2 _ Hname). split; [done|].
        intros (p' & ps' & [= <- <-] & Hn & _). done. }
    rewrite bool_decide_eq_false_2 by (intros ?; done).
    rewrite (bool_decide_eq_true_2 _ Hname). simpl.
    case_bool_decide as Hann; simpl.
    { split; [done|]. intros (p' & ps' & [= <- <-] & _ & Ha & _).
      exfalso. apply Hann. destruct Ha as [-> | ->]; set_solver. }
    case_bool_decide as Hret; simpl.
    { split; [done|]. by intros (p' & ps' & _ & _ & _ & Hr). }
    split; [|done]. intros _. exists p, ps. repeat split; [done| |].
    + set_solver.
    + done.
  - intros Hps. unfold check_analyser_signature, first_parameter_name.
    by rewrite Hps.
  - apply check_analyser_signature_raises.
Qed.

Lemma X9_analyser_contract_witness :
  check_analyser_signature (mkSignature [] ann_analyser_return)
  = Raise (GenericException 8 "WaveformSet.analyse()").
Proof.
  apply (proj1 (proj2 (X9_analyser_contract (mkSignature [] ann_analyser_return)))).
  reflexivity.
Defined.

(** X10: the two other methods that look at a signature read its first
    parameter without a guard.  A function that takes no parameter, given
    as the filter or as the selector, makes the call end in an
    [IndexError], not in one of the exceptions of the method; the set is
    left as it was. *)
Theorem X10_function_without_parameters
    ws nrows ncols args r body filter_args max_wfs_per_axes :
  1 <= nrows -> 1 <= ncols -> Waveforms ws <> [] ->
  get_grid_of_wf_idcs ws nrows ncols None (Some (function (mkSignature [] r) body))
                      filter_args max_wfs_per_axes
  = Raise IndexError /\
  compute_mean_waveform ws args None (Some (function (mkSignature [] r) body))
  = (Raise IndexError, ws).
Proof.
  intros Hr Hc Hne. split.
  - unfold get_grid_of_wf_idcs. by rewrite !bool_decide_eq_false_2 by lia.
  - apply mean_with_a_refused_selector_raises; done.
Qed.

Lemma X10_function_without_parameters_witness :
  get_grid_of_wf_idcs sample_set 1 2 None
    (Some (function (mkSignature [] ann_bool) (fun _ _ => Ok true)))
    (Some [[[10]; [11]]]) (Some 5)
  = Raise IndexError /\
  compute_mean_waveform sample_set [] None
    (Some (function (mkSignature [] ann_bool) (fun _ _ => Ok true)))
  = (Raise IndexError, sample_set).
Proof.
  apply (X10_function_without_parameters sample_set 1 2 [] ann_bool
           (fun _ _ => Ok true) (Some [[[10]; [11]]]) (Some 5)); [lia|lia|done].
Defined.

(** ** The shape of the grids *)

Lemma grid_of_lists_is_well_formed_true {A} (g : list (list A)) nrows ncols :
  grid_of_lists_is_well_formed g nrows ncols = Ok true <->
  1 <= nrows /\ 1 <= ncols /\ len g = nrows /\ Forall (fun row => len row = ncols) g.
Proof.
  unfold grid_of_lists_is_well_formed.
  destruct (decide (nrows < 1)) as [Hr|Hr].
  { rewrite (bool_decide_eq_true_2 _ Hr). simpl. split; [done|lia]. }
  destruct (decide (ncols < 1)) as [Hc|Hc].
  { rewrite (bool_decide_eq_false_2 _ Hr), (bool_decide_eq_true_2 _ Hc). simpl.
    split; [done|lia]. }
  rewrite (bool_decide_eq_false_2 _ Hr), (bool_decide_eq_false_2 _ Hc). simpl.
  destruct (decide (len g = nrows)) as [Hlen|Hlen].
  2:{ rewrite (bool_decide_eq_true_2 _ Hlen). split; [done|tauto]. }
  rewrite bool_decide_eq_false_2 by (intros ?; done).
  split.
  - intros [= Hall]. repeat split; [lia..|done|].
    apply Forall_forall. intros row Hrow. rewrite forallb_forall in Hall.
    apply list_elem_of_In in Hrow. specialize (Hall _ Hrow).
    apply negb_true_iff, bool_decide_eq_false in Hall. by apply dec_stable.
  - intros (_ & _ & _ & Hall). f_equal. apply forallb_forall. intros row Hrow.
    apply negb_true_iff, bool_decide_eq_false_2.
    rewrite Forall_forall in Hall. apply list_elem_of_In in Hrow.
    intros Hne. by apply Hne, Hall.
Qed.

Lemma for_each_column_length body i j row row' :
  for_each_column body i j row = Ok row' -> length row' = length row.
Proof.
  revert j row'. induction row as [|cell row IH]; intros j row'; simpl.
  { by intros [= <-]. }
  destruct (body i j cell); simpl; [|done].
  destruct (for_each_column body i (j + 1) row) eqn:Hrest; simpl; [|done].
  intros [= <-]. simpl. f_equal. by eapply IH.
Qed.

Lemma for_each_row_shape body i (g g' : grid) ncols :
  for_each_row body i g = Ok g' ->
  Forall (fun row => len row = ncols) g ->
  length g' = length g /\ Forall (fun row => len row = ncols) g'.
Proof.
  revert i g'. induction g as [|row g IH]; intros i g'; simpl.
  { by intros [= <-]. }
  destruct (for_each_column body i 0 row) as [row'|] eqn:Hrow; simpl; [|done].
  destruct (for_each_row body (i + 1) g) as [rows'|] eqn:Hrows; simpl; [|done].
  intros [= <-] [Hlen Hall]%Forall_cons.
  destruct (IH _ _ Hrows Hall) as [Hl Hf]. split; [simpl; by f_equal|].
  constructor; [|done]. apply for_each_column_length in Hrow.
  unfold len in *. by rewrite Hrow.
Qed.

Lemma get_2D_empty_nested_list_shape nrows ncols g :
  get_2D_empty_nested_list nrows ncols = Ok g ->
  1 <= nrows /\ 1 <= ncols /\ len g = nrows /\
  Forall (fun row => len row = ncols) g.
Proof.
  unfold get_2D_empty_nested_list.
  destruct (decide (nrows < 1)) as [Hr|Hr].
  { by rewrite (bool_decide_eq_true_2 _ Hr). }
  destruct (decide (ncols < 1)) as [Hc|Hc].
  { by rewrite (bool_decide_eq_false_2 _ Hr), (bool_decide_eq_true_2 _ Hc). }
  rewrite (bool_decide_eq_false_2 _ Hr), (bool_decide_eq_false_2 _ Hc). simpl.
  intros [= <-]. unfold len, range. rewrite length_fmap, length_seqZ.
  repeat split; [lia..|].
  apply Forall_fmap, Forall_forall. intros i _. simpl.
  rewrite length_fmap, length_seqZ. lia.
Qed.

Lemma get_2D_indices_nested_list_shape k nrows ncols g :
  get_2D_indices_nested_list k nrows ncols = Ok g ->
  1 <= nrows /\ 1 <= ncols /\ len g = nrows /\
  Forall (fun row => len row = ncols) g.
Proof.
  unfold get_2D_indices_nested_list.
  destruct (decide (nrows < 1)) as [Hr|Hr].
  { by rewrite (bool_decide_eq_true_2 _ Hr). }
  destruct (decide (ncols < 1)) as [Hc|Hc].
  { by rewrite (bool_decide_eq_false_2 _ Hr), (bool_decide_eq_true_2 _ Hc). }
  rewrite (bool_decide_eq_false_2 _ Hr), (bool_decide_eq_false_2 _ Hc). simpl.
  destruct (bool_decide (k < 1)); [done|].
  intros [= <-]. unfold len, range. rewrite length_fmap, length_seqZ.
  repeat split; [lia..|].
  apply Forall_fmap, Forall_forall. intros i _. simpl.
  rewrite length_fmap, length_seqZ. lia.
Qed.

(** X11: in every mode, a grid returned by [get_grid_of_wf_idcs] has
    [nrows] rows of [ncols] cells: it passes
    [grid_of_lists_is_well_formed] with the numbers it was asked for, so it
    can be handed to a method that checks its grid that way. *)
Theorem X11_returned_grids_are_well_formed
    ws nrows ncols wfs_per_axes wf_filter filter_args max_wfs_per_axes g :
  get_grid_of_wf_idcs ws nrows ncols wfs_per_axes wf_filter filter_args
                      max_wfs_per_axes = Ok g ->
  grid_of_lists_is_well_formed g nrows ncols = Ok true.
Proof.
  unfold get_grid_of_wf_idcs. intros Hg.
  apply grid_of_lists_is_well_formed_true.
  destruct (_ || _); [done|].
  destruct wfs_per_axes as [k|].
  { destruct (bool_decide (k < 1)); [done|].
    by apply get_2D_indices_nested_list_shape in Hg. }
  destruct (filtering_mode_checks _ _ _ _ _) as [[[f fa] fMaxIsSet]|]; [|done].
  simpl in Hg.
  destruct (get_2D_empty_nested_list nrows ncols) as [output|] eqn:Hout; [|done].
  simpl in Hg. apply get_2D_empty_nested_list_shape in Hout.
  destruct Hout as (Hr & Hc & Hlen & Hall).
  assert (Hshape : forall body, for_each_row body 0 output = Ok g ->
            1 <= nrows /\ 1 <= ncols /\ len g = nrows /\
            Forall (fun row => len row = ncols) g).
  { intros body Hbody.
    destruct (for_each_row_shape _ _ _ _ _ Hbody Hall) as [Hl Hf].
    repeat split; [done..| |done]. unfold len in *. by rewrite Hl. }
  destruct f; by eapply Hshape.
Qed.

Lemma X11_returned_grids_are_well_formed_witness :
  grid_of_lists_is_well_formed [[[0]; [1; 2]]] 1 2 = Ok true.
Proof.
  apply (X11_returned_grids_are_well_formed
           sample_set 1 2 None (Some WaveformSet_match_run)
           (Some [[[10]; [11]]]) (Some 5)).
  reflexivity.
Defined.

(** ** The contiguous grid, read row after row *)

Lemma concat_seqZ_blocks (a k : Z) (n : nat) :
  0 <= k ->
  concat ((fun j => seqZ (a + k * j) k) <$> seqZ 0 (Z.of_nat n))
  = seqZ a (k * Z.of_nat n).
Proof.
  intros Hk. induction n as [|n IH].
  { simpl. by rewrite Z.mul_0_r. }
  rewrite seqZ_S, fmap_app, concat_app, IH. simpl. rewrite app_nil_r.
  replace (k * Z.of_nat (S n)) with (k * Z.of_nat n + k) by lia.
  rewrite seqZ_app by lia. by rewrite Z.add_0_l.
Qed.

Lemma concat_concat {A} (g : list (list (list A))) :
  concat (concat g) = concat ((fun row => concat row) <$> g).
Proof.
  induction g as [|row g IH]; [done|]. simpl. by rewrite concat_app, IH.
Qed.

(** X12: read row after row, the cells of the contiguous grid are the
    integers from 0 to [nrows * ncols * k - 1], each once and in order. *)
Theorem X12_contiguous_grid_enumerates_the_indices k nrows ncols g :
  get_2D_indices_nested_list k nrows ncols = Ok g ->
  concat (concat g) = range (nrows * ncols * k).
Proof.
  unfold get_2D_indices_nested_list.
  destruct (decide (nrows < 1)) as [Hr|Hr].
  { by rewrite (bool_decide_eq_true_2 _ Hr). }
  destruct (decide (ncols < 1)) as [Hc|Hc].
  { by rewrite (bool_decide_eq_false_2 _ Hr), (bool_decide_eq_true_2 _ Hc). }
  rewrite (bool_decide_eq_false_2 _ Hr), (bool_decide_eq_false_2 _ Hc). simpl.
  case_bool_decide as Hk; [done|]. intros [= <-].
  rewrite concat_concat, <- list_fmap_compose. unfold range.
  replace (nrows * ncols * k) with ((k * ncols) * Z.of_nat (Z.to_nat nrows)) by lia.
  rewrite <- (concat_seqZ_blocks 0 (k * ncols) (Z.to_nat nrows)) by lia.
  rewrite Z2Nat.id by lia. f_equal. apply list_fmap_ext. intros _ i _. simpl.
  replace (seqZ (0 + k * ncols * i) (k * ncols))
    with (seqZ (k * ncols * i) (k * Z.of_nat (Z.to_nat ncols)))
    by (f_equal; lia).
  rewrite <- (concat_seqZ_blocks (k * ncols * i) k (Z.to_nat ncols)) by lia.
  rewrite Z2Nat.id by lia. f_equal. apply list_fmap_ext. intros _ j _. simpl.
  rewrite fmap_add_r_seqZ. f_equal. lia.
Qed.

Lemma X12_contiguous_grid_enumerates_the_indices_witness :
  concat (concat [[[0; 1]; [2; 3]; [4; 5]]; [[6; 7]; [8; 9]; [10; 11]]])
  = range (2 * 3 * 2).
Proof.
  apply (X12_contiguous_grid_enumerates_the_indices 2 2 3). reflexivity.
Defined.

(** ** What the filtering mode puts in a cell *)

Lemma matching_indices_elem_of p k waveforms i :
  i ∈ matching_indices p k waveforms <->
  k <= i /\ exists wf, waveforms !! Z.to_nat (i - k) = Some wf /\ p wf = true.
Proof.
  revert k. induction waveforms as [|wf waveforms IH]; intros k; simpl.
  { split; [by intros ?%elem_of_nil | by intros (_ & ? & ? & _)]. }
  assert (Hnext : i ∈ matching_indices p (k + 1) waveforms <->
                  k < i /\ exists wf', (wf :: waveforms) !! Z.to_nat (i - k) = Some wf' /\
                                      p wf' = true).
  { rewrite IH. split.
    - intros (Hi & wf' & Hwf' & Hp). split; [lia|]. exists wf'. split; [|done].
      replace (Z.to_nat (i - k)) with (S (Z.to_nat (i - (k + 1)))) by lia. done.
    - intros (Hi & wf' & Hwf' & Hp). split; [lia|]. exists wf'. split; [|done].
      replace (Z.to_nat (i - k)) with (S (Z.to_nat (i - (k + 1)))) in Hwf' by lia.
      done. }
  destruct (p wf) eqn:Hp.
  - rewrite elem_of_cons, Hnext. split.
    + intros [->|(Hi & Hex)]; [|split; [lia|done]].
      split; [lia|]. exists wf. by rewrite Z.sub_diag.
    + intros (Hi & wf' & Hwf' & Hp').
      destruct (decide (i = k)) as [->|Hne]; [by left|right].
      split; [lia|]. by exists wf'.
  - rewrite Hnext. split.
    + intros (Hi & Hex). split; [lia|done].
    + intros (Hi & wf' & Hwf' & Hp').
      destruct (decide (i = k)) as [->|Hne].
      * rewrite Z.sub_diag in Hwf'. simpl in Hwf'. congruence.
      * split; [lia|]. by exists wf'.
Qed.

Lemma matching_indices_none p k waveforms :
  (forall wf, wf ∈ waveforms -> p wf = false) -> matching_indices p k waveforms = [].
Proof.
  revert k. induction waveforms as [|wf waveforms IH]; intros k Hnone; [done|].
  simpl. rewrite Hnone by (by left). apply IH. intros wf' Hwf'.
  apply Hnone. by right.
Qed.

Section ScanSpec.
Variable test : Waveform -> result bool.
Variable p : Waveform -> bool.

Lemma scan_without_max_spec (rest pre : list Waveform) cell :
  (forall wf, wf ∈ rest -> test wf = Ok (p wf)) ->
  scan_without_max (pre ++ rest) test (seqZ (len pre) (len rest)) cell
  = Ok (cell ++ matching_indices p (len pre) rest).
Proof.
  revert pre cell. induction rest as [|wf rest IH]; intros pre cell Htest.
  { simpl. by rewrite app_nil_r. }
  rewrite seqZ_cons by (unfold len; simpl; lia). simpl.
  rewrite getitem_middle. simpl. rewrite Htest by (by left). simpl.
  replace (Z.pred (len (wf :: rest))) with (len rest) by (unfold len; simpl; lia).
  assert (Hnext : forall cell',
            scan_without_max (pre ++ wf :: rest) test
                             (seqZ (Z.succ (len pre)) (len rest)) cell'
            = Ok (cell' ++ matching_indices p (len pre + 1) rest)).
  { intros cell'. specialize (IH (pre ++ [wf]) cell').
    replace (len (pre ++ [wf])) with (Z.succ (len pre)) in IH
      by (unfold len; rewrite length_app; simpl; lia).
    rewrite <- app_assoc in IH. simpl in IH.
    replace (len pre + 1) with (Z.succ (len pre)) by lia.
    apply IH. intros wf' Hwf'. apply Htest. by right. }
  destruct (p wf); rewrite Hnext; [|done].
  by rewrite <- app_assoc.
Qed.

Lemma scan_with_max_spec (rest pre : list Waveform) (m counter : Z) cell :
  (forall wf, wf ∈ rest -> test wf = Ok (p wf)) ->
  0 <= counter < m ->
  scan_with_max (pre ++ rest) test (Some m) (seqZ (len pre) (len rest)) counter cell
  = Ok (cell ++ take (Z.to_nat (m - counter)) (matching_indices p (len pre) rest)).
Proof.
  revert pre counter cell.
  induction rest as [|wf rest IH]; intros pre counter cell Htest Hcounter.
  { simpl. by rewrite take_nil, app_nil_r. }
  rewrite seqZ_cons by (unfold len; simpl; lia). simpl.
  rewrite getitem_middle. simpl. rewrite Htest by (by left). simpl.
  replace (Z.pred (len (wf :: rest))) with (len rest) by (unfold len; simpl; lia).
  assert (Hnext : forall counter' cell',
            0 <= counter' < m ->
            scan_with_max (pre ++ wf :: rest) test (Some m)
                          (seqZ (Z.succ (len pre)) (len rest)) counter' cell'
            = Ok (cell' ++ take (Z.to_nat (m - counter'))
                                (matching_indices p (len pre + 1) rest))).
  { intros counter' cell' Hc'. specialize (IH (pre ++ [wf]) counter' cell').
    replace (len (pre ++ [wf])) with (Z.succ (len pre)) in IH
      by (unfold len; rewrite length_app; simpl; lia).
    rewrite <- app_assoc in IH. simpl in IH.
    replace (len pre + 1) with (Z.succ (len pre)) by lia.
    apply IH; [|done]. intros wf' Hwf'. apply Htest. by right. }
  destruct (p wf); [|by apply Hnext].
  replace (Z.to_nat (m - counter)) with (S (Z.to_nat (m - (counter + 1)))) by lia.
  simpl. case_bool_decide as Hfull.
  - injection Hfull as Hfull.
    replace (Z.to_nat (m - (counter + 1))) with 0%nat by lia.
    by rewrite take_0.
  - rewrite Hnext by (split; [lia|]; destruct (decide (counter + 1 = m)); [congruence|lia]).
    by rewrite <- app_assoc.
Qed.

(** A filter that answers on every waveform of the set: the scan appends to
    the cell the indices of the waveforms that pass, in increasing order,
    and with a maximum only the first of them, at most that many. *)
Lemma scan_spec waveforms max_wfs_per_axes cell :
  (forall wf, wf ∈ waveforms -> test wf = Ok (p wf)) ->
  match max_wfs_per_axes with Some m => 1 <= m | None => True end ->
  scan waveforms test
       (match max_wfs_per_axes with Some _ => true | None => false end)
       max_wfs_per_axes cell
  = Ok (cell ++ first_at_most max_wfs_per_axes (matching_indices p 0 waveforms)).
Proof.
  intros Htest Hmax. unfold scan, range, first_at_most.
  destruct max_wfs_per_axes as [m|].
  - pose proof (scan_with_max_spec waveforms [] m 0 cell Htest) as Hscan.
    change (len []) with 0 in Hscan. simpl in Hscan.
    rewrite Hscan by lia. by rewrite Z.sub_0_r.
  - apply (scan_without_max_spec waveforms [] cell Htest).
Qed.

End ScanSpec.

Lemma for_each_column_cells body i j0 row row' :
  for_each_column body i j0 row = Ok row' ->
  forall (j : nat) cell,
    row !! j = Some cell ->
    exists cell', row' !! j = Some cell' /\ body i (j0 + Z.of_nat j) cell = Ok cell'.
Proof.
  revert j0 row'. induction row as [|c row IH]; intros j0 row'; simpl.
  { intros _ j cell Hj. by rewrite lookup_nil in Hj. }
  destruct (body i j0 c) as [c'|] eqn:Hc; simpl; [|done].
  destruct (for_each_column body i (j0 + 1) row) as [rest'|] eqn:Hrest; simpl; [|done].
  intros [= <-] [|j] cell Hj; simpl in Hj.
  - injection Hj as <-. exists c'. by rewrite Z.add_0_r.
  - destruct (IH _ _ Hrest j cell Hj) as (cell' & Hl & Hb).
    exists cell'. split; [done|]. rewrite <- Hb. f_equal. lia.
Qed.

Lemma for_each_row_cells body i0 (g g' : grid) :
  for_each_row body i0 g = Ok g' ->
  forall (i j : nat) row cell,
    g !! i = Some row -> row !! j = Some cell ->
    exists row' cell',
      g' !! i = Some row' /\ row' !! j = Some cell' /\
      body (i0 + Z.of_nat i) (Z.of_nat j) cell = Ok cell'.
Proof.
  revert i0 g'. induction g as [|r g IH]; intros i0 g'; simpl.
  { intros _ i j row cell Hi. by rewrite lookup_nil in Hi. }
  destruct (for_each_column body i0 0 r) as [r'|] eqn:Hr; simpl; [|done].
  destruct (for_each_row body (i0 + 1) g) as [rest'|] eqn:Hrest; simpl; [|done].
  intros [= <-] [|i] j row cell Hi Hj; simpl in Hi.
  - injection Hi as <-.
    destruct (for_each_column_cells _ _ _ _ _ Hr j cell Hj) as (cell' & Hl & Hb).
    exists r', cell'. split; [done|]. split; [done|].
    rewrite Z.add_0_r. by rewrite Z.add_0_l in Hb.
  - destruct (IH _ _ Hrest i j row cell Hi Hj) as (row' & cell' & Hl1 & Hl2 & Hb).
    exists row', cell'. split; [done|]. split; [done|].
    rewrite <- Hb. f_equal. lia.
Qed.

Lemma empty_grid_cell nrows ncols output (i j : nat) :
  get_2D_empty_nested_list nrows ncols = Ok output ->
  Z.of_nat i < nrows -> Z.of_nat j < ncols ->
  exists row, output !! i = Some row /\ row !! j = Some [].
Proof.
  unfold get_2D_empty_nested_list. destruct (_ || _); [done|].
  intros [= <-] Hi Hj. unfold range. eexists. split.
  - rewrite list_lookup_fmap, lookup_seqZ_lt by lia. done.
  - rewrite list_lookup_fmap, lookup_seqZ_lt by lia. done.
Qed.

Lemma filter_args_at_lookup (filter_args : grid) (i j : nat) row args :
  filter_args !! i = Some row -> row !! j = Some args ->
  filter_args_at filter_args (Z.of_nat i) (Z.of_nat j) = Ok args.
Proof.
  intros Hi Hj. unfold filter_args_at.
  rewrite (getitem_nat _ _ _ Hi). simpl. by apply getitem_nat.
Qed.

Lemma filtering_mode_checks_Ok nrows ncols f (fa : grid) max_wfs_per_axes x :
  filtering_mode_checks nrows ncols (Some f) (Some fa) max_wfs_per_axes = Ok x ->
  x = (f, fa, match max_wfs_per_axes with Some _ => true | None => false end) /\
  grid_of_lists_is_well_formed fa nrows ncols = Ok true /\
  match max_wfs_per_axes with Some m => 1 <= m | None => True end.
Proof.
  unfold filtering_mode_checks.
  destruct (first_parameter_name _); simpl; [|done].
  destruct (bool_decide (_ ≠ _)); [done|].
  destruct (annotation_of _ _); simpl; [|done].
  destruct (bool_decide (_ ≠ _)); [done|].
  destruct (grid_of_lists_is_well_formed fa nrows ncols) as [[]|]; simpl; [|done..].
  destruct max_wfs_per_axes as [m|].
  - case_bool_decide; [done|]. intros [= <-]. repeat split; try done; lia.
  - by intros [= <-].
Qed.

(** A grid returned in the filtering mode: the blank grid, the shape of
    the arguments and the method that filled the grid. *)
Lemma get_grid_of_wf_idcs_filtering_Ok ws nrows ncols f (fa : grid) max_wfs_per_axes g :
  get_grid_of_wf_idcs ws nrows ncols None (Some f) (Some fa) max_wfs_per_axes = Ok g ->
  exists output,
    get_2D_empty_nested_list nrows ncols = Ok output /\
    len fa = nrows /\ Forall (fun row => len row = ncols) fa /\
    match max_wfs_per_axes with Some m => 1 <= m | None => True end /\
    match f with
    | WaveformSet_match_run =>
        __get_grid_of_wf_idcs_by_run
          ws output fa
          (match max_wfs_per_axes with Some _ => true | None => false end)
          max_wfs_per_axes
    | WaveformSet_match_endpoint_and_channel =>
        __get_grid_of_wf_idcs_by_endpoint_and_channel
          ws output fa
          (match max_wfs_per_axes with Some _ => true | None => false end)
          max_wfs_per_axes
    | _ =>
        __get_grid_of_wf_idcs_general
          ws output f fa
          (match max_wfs_per_axes with Some _ => true | None => false end)
          max_wfs_per_axes
    end = Ok g.
Proof.
  unfold get_grid_of_wf_idcs. destruct (_ || _); [done|].
  destruct (filtering_mode_checks _ _ _ _ _) as [x|] eqn:Hchecks; [|done].
  apply filtering_mode_checks_Ok in Hchecks as (-> & Hfa & Hmax). simpl.
  apply grid_of_lists_is_well_formed_true in Hfa as (_ & _ & Hlen & Hall).
  destruct (get_2D_empty_nested_list nrows ncols) as [output|]; [|done]. simpl.
  intros Hg. exists output. done.
Qed.

(** The cell [i][j] of a grid filled by [for_each_row] from the blank grid,
    when the arguments of that cell are there. *)
Lemma filled_cell body nrows ncols output (fa : grid) g (i j : nat) row (args : list Z) :
  get_2D_empty_nested_list nrows ncols = Ok output ->
  len fa = nrows -> Forall (fun row => len row = ncols) fa ->
  for_each_row body 0 output = Ok g ->
  fa !! i = Some row -> row !! j = Some args ->
  exists grow cell,
    g !! i = Some grow /\ grow !! j = Some cell /\
    body (Z.of_nat i) (Z.of_nat j) [] = Ok cell /\
    filter_args_at fa (Z.of_nat i) (Z.of_nat j) = Ok args.
Proof.
  intros Hout Hlen Hall Hg Hi Hj.
  assert (Z.of_nat i < nrows).
  { apply lookup_lt_Some in Hi. unfold len in Hlen. lia. }
  assert (Z.of_nat j < ncols).
  { rewrite Forall_forall in Hall.
    specialize (Hall row (list_elem_of_lookup_2 _ _ _ Hi)).
    apply lookup_lt_Some in Hj. unfold len in Hall. lia. }
  destruct (empty_grid_cell _ _ _ i j Hout) as (orow & Hoi & Hoj); [done..|].
  destruct (for_each_row_cells _ _ _ _ Hg i j orow [] Hoi Hoj)
    as (grow & cell & Hgi & Hgj & Hbody).
  exists grow, cell. rewrite Z.add_0_l in Hbody.
  repeat split; [done..|]. by eapply filter_args_at_lookup.
Qed.

(** X13: with a filter of one's own that answers on every waveform, the
    cell [i][j] of the grid holds the indices of the waveforms that pass
    the filter with the arguments [filter_args[i][j]], in increasing order;
    with a maximum, the first of them only, at most that many. *)
Theorem X13_cells_of_the_general_path
    ws nrows ncols sig body (p : Waveform -> list Z -> bool)
    (filter_args : grid) max_wfs_per_axes g :
  (forall wf args, body wf args = Ok (p wf args)) ->
  get_grid_of_wf_idcs ws nrows ncols None (Some (function sig body))
                      (Some filter_args) max_wfs_per_axes = Ok g ->
  forall (i j : nat) row args,
    filter_args !! i = Some row -> row !! j = Some args ->
    exists grow,
      g !! i = Some grow /\
      grow !! j = Some (first_at_most max_wfs_per_axes
                          (matching_indices (fun wf => p wf args) 0 (Waveforms ws))).
Proof.
  intros Hbody Hg i j row args Hi Hj.
  apply get_grid_of_wf_idcs_filtering_Ok in Hg
    as (output & Hout & Hlen & Hall & Hmax & Hg).
  destruct (filled_cell _ _ _ _ _ _ i j row args Hout Hlen Hall Hg Hi Hj)
    as (grow & cell & Hgi & Hgj & Hcell & Hargs).
  exists grow. split; [done|]. rewrite Hgj. f_equal.
  rewrite Hargs in Hcell. simpl in Hcell.
  rewrite (scan_spec _ (fun wf => p wf args)) in Hcell; [|by intros|done].
  by injection Hcell as <-.
Qed.

Lemma X13_cells_of_the_general_path_witness :
  exists grow,
    [[[0]; [1]]] !! 0%nat = Some grow /\
    grow !! 1%nat
    = Some (first_at_most (Some 1)
              (matching_indices
                 (fun wf => bool_decide (Some (RunNumber wf) = head [11]))
                 0 (Waveforms sample_set))).
Proof.
  apply (X13_cells_of_the_general_path
           sample_set 1 2 (inspect_signature WaveformSet_match_run)
           (fun wf args => Ok (bool_decide (Some (RunNumber wf) = head args)))
           (fun wf args => bool_decide (Some (RunNumber wf) = head args))
           [[[10]; [11]]] (Some 1) [[[0]; [1]]])
    with (i := 0%nat) (j := 1%nat) (row := [[10]; [11]]) (args := [11]).
  - intros wf args. reflexivity.
  - reflexivity.
  - reflexivity.
  - reflexivity.
Defined.

(** X14: on a set as its constructor leaves it, with [match_run] as the
    filter, a cell whose arguments are one run number holds the indices of
    the waveforms of that run, in increasing order, cut at the maximum
    when there is one; it is empty when the set has no waveform of that
    run. *)
Theorem X14_cells_of_the_run_path
    waveforms ws nrows ncols (filter_args : grid) max_wfs_per_axes g :
  WaveformSet_init waveforms = Ok ws ->
  get_grid_of_wf_idcs ws nrows ncols None (Some WaveformSet_match_run)
                      (Some filter_args) max_wfs_per_axes = Ok g ->
  forall (i j : nat) row run,
    filter_args !! i = Some row -> row !! j = Some [run] ->
    exists grow,
      g !! i = Some grow /\
      grow !! j = Some (first_at_most max_wfs_per_axes
                          (matching_indices (fun wf => match_run wf run) 0
                                            (Waveforms ws))).
Proof.
  intros Hws Hg i j row run Hi Hj.
  apply WaveformSet_init_derived_sets_cover in Hws as (_ & Hruns & _).
  apply get_grid_of_wf_idcs_filtering_Ok in Hg
    as (output & Hout & Hlen & Hall & Hmax & Hg).
  destruct (filled_cell _ _ _ _ _ _ i j row [run] Hout Hlen Hall Hg Hi Hj)
    as (grow & cell & Hgi & Hgj & Hcell & Hargs).
  exists grow. split; [done|]. rewrite Hgj. f_equal.
  rewrite Hargs in Hcell. simpl in Hcell.
  change (getitem [run] 0) with (Ok run) in Hcell. simpl in Hcell.
  case_bool_decide as Hrun.
  - injection Hcell as <-. rewrite matching_indices_none.
    { by destruct max_wfs_per_axes; simpl; rewrite ?take_nil. }
    intros wf Hwf. apply bool_decide_eq_false_2. intros <-. by apply Hrun, Hruns.
  - rewrite (scan_spec _ (fun wf => match_run wf run)) in Hcell; [|by intros|done].
    by injection Hcell as <-.
Qed.

Lemma X14_cells_of_the_run_path_witness :
  exists grow,
    [[[1; 2]; []]] !! 0%nat = Some grow /\
    grow !! 0%nat
    = Some (first_at_most (Some 5)
              (matching_indices (fun wf => match_run wf 11) 0
                                (Waveforms sample_set))).
Proof.
  apply (X14_cells_of_the_run_path sample_waveforms sample_set 1 2
                                   [[[11]; [99]]] (Some 5) [[[1; 2]; []]])
    with (i := 0%nat) (j := 0%nat) (row := [[11]; [99]]) (run := 11);
    reflexivity.
Defined.

(** X15: likewise with [match_endpoint_and_channel]: a cell whose
    arguments are an endpoint and a channel holds the indices of the
    waveforms of that endpoint and channel, in increasing order, cut at
    the maximum when there is one. *)
Theorem X15_cells_of_the_endpoint_and_channel_path
    waveforms ws nrows ncols (filter_args : grid) max_wfs_per_axes g :
  WaveformSet_init waveforms = Ok ws ->
  get_grid_of_wf_idcs ws nrows ncols None
                      (Some WaveformSet_match_endpoint_and_channel)
                      (Some filter_args) max_wfs_per_axes = Ok g ->
  forall (i j : nat) row endpoint channel,
    filter_args !! i = Some row -> row !! j = Some [endpoint; channel] ->
    exists grow,
      g !! i = Some grow /\
      grow !! j = Some (first_at_most max_wfs_per_axes
                          (matching_indices
                             (fun wf => match_endpoint_and_channel wf endpoint channel)
                             0 (Waveforms ws))).
Proof.
  intros Hws Hg i j row endpoint channel Hi Hj.
  apply WaveformSet_init_derived_sets_cover in Hws as (_ & _ & Hchans).
  apply get_grid_of_wf_idcs_filtering_Ok in Hg
    as (output & Hout & Hlen & Hall & Hmax & Hg).
  destruct (filled_cell _ _ _ _ _ _ i j row [endpoint; channel]
                        Hout Hlen Hall Hg Hi Hj)
    as (grow & cell & Hgi & Hgj & Hcell & Hargs).
  exists grow. split; [done|]. rewrite Hgj. f_equal.
  rewrite Hargs in Hcell. simpl in Hcell.
  change (getitem [endpoint; channel] 0) with (Ok endpoint) in Hcell.
  simpl in Hcell.
  assert (Hnone : (forall wf, wf ∈ Waveforms ws ->
                     ~ (Endpoint wf = endpoint /\ Channel wf = channel)) ->
                  first_at_most max_wfs_per_axes
                    (matching_indices
                       (fun wf => match_endpoint_and_channel wf endpoint channel)
                       0 (Waveforms ws)) = []).
  { intros Hno. rewrite matching_indices_none.
    { by destruct max_wfs_per_axes; simpl; rewrite ?take_nil. }
    intros wf Hwf. unfold match_endpoint_and_channel. apply andb_false_iff.
    destruct (decide (Endpoint wf = endpoint)) as [Hep|Hep].
    - right. apply bool_decide_eq_false_2. intros Hch. by apply (Hno wf).
    - left. by apply bool_decide_eq_false_2. }
  destruct (AvailableChannels ws !! endpoint) as [channels|] eqn:Hep.
  - change (getitem [endpoint; channel] 1) with (Ok channel) in Hcell.
    simpl in Hcell. case_bool_decide as Hch.
    + injection Hcell as <-. symmetry. apply Hnone.
      intros wf Hwf [Hwfep Hwfch].
      destruct (Hchans wf Hwf) as (s & Hs & Hin).
      rewrite Hwfep, Hep in Hs. injection Hs as <-. rewrite Hwfch in Hin. done.
    + rewrite (scan_spec _ (fun wf => match_endpoint_and_channel wf endpoint channel))
        in Hcell; [|by intros|done].
      by injection Hcell as <-.
  - injection Hcell as <-. symmetry. apply Hnone.
    intros wf Hwf [Hwfep _].
    destruct (Hchans wf Hwf) as (s & Hs & _).
    rewrite Hwfep, Hep in Hs. done.
Qed.

Lemma X15_cells_of_the_endpoint_and_channel_path_witness :
  exists grow,
    [[[1]; []]] !! 0%nat = Some grow /\
    grow !! 1%nat
    = Some (first_at_most None
              (matching_indices
                 (fun wf => match_endpoint_and_channel wf 3 1)
                 0 (Waveforms sample_set))).
Proof.
  apply (X15_cells_of_the_endpoint_and_channel_path
           sample_waveforms sample_set 1 2 [[[1; 2]; [3; 1]]] None [[[1]; []]])
    with (i := 0%nat) (j := 1%nat) (row := [[1; 2]; [3; 1]])
         (endpoint := 3) (channel := 1);
    reflexivity.
Defined.

(** ** What the mean is *)

Lemma set_Adcs_same wf : set_Adcs wf (Adcs wf) = wf.
Proof. by destruct wf. Qed.


Lemma add_traces_length a b : length b = length a -> length (add_traces a b) = length a.
Proof. intros Hlen. unfold add_traces. rewrite length_zip_with. lia. Qed.


Lemma foldl_add_traces_length a traces :
  Forall (fun t => length t = length a) traces ->
  length (foldl add_traces a traces) = length a.
Proof.
  revert a. induction traces as [|t traces IH]; intros a Hall; [done|].
  apply Forall_cons in Hall as [Ht Hall]. simpl.
  rewrite IH; [by apply add_traces_length|].
  eapply Forall_impl; [exact Hall|]. simpl. intros t' ->.
  symmetry. by apply add_traces_length.
Qed.

(** The sum of traces is what its name says: sample [s] of the sum is the
    sum of the samples [s] of the traces. *)
Lemma foldl_add_traces_lookup a traces (s : nat) x :
  Forall (fun t => length t = length a) traces ->
  a !! s = Some x ->
  foldl add_traces a traces !! s
  = Some (x + foldr Z.add 0 ((fun t => default 0 (t !! s)) <$> traces)).
Proof.
  revert a x. induction traces as [|t traces IH]; intros a x Hall Hx; simpl.
  { by rewrite Z.add_0_r. }
  apply Forall_cons in Hall as [Ht Hall].
  destruct (t !! s) as [y|] eqn:Hy.
  2:{ apply lookup_ge_None in Hy. apply lookup_lt_Some in Hx. simpl in Ht. lia. }
  rewrite (IH (add_traces a t) (x + y)).
  - simpl. f_equal. symmetry. apply Z.add_assoc.
  - eapply Forall_impl; [exact Hall|]. simpl. intros t' ->.
    symmetry. by apply add_traces_length.
  - unfold add_traces. by rewrite lookup_zip_with, Hx, Hy.
Qed.



Lemma cast_is_representable d x : representable d (Np.cast d x).
Proof.
  unfold representable, Np.cast, Np.iinfo_min, Np.iinfo_max.
  pose proof (Z.mod_pos_bound (x - (if Np.is_signed d then - 2 ^ (Np.bits d - 1) else 0))
                              (2 ^ Np.bits d)) as Hmod.
  destruct d; simpl in *; lia.
Qed.


Lemma promoted_to_float64_same d : Np.promoted_to_float64 d d = false.
Proof. by destruct d. Qed.








Lemma sum_of_traces_lookup n traces (s : nat) :
  Forall (fun t => len t = n) traces -> Z.of_nat s < n ->
  sum_of_traces n traces !! s
  = Some (foldr Z.add 0 ((fun t => default 0 (t !! s)) <$> traces)).
Proof.
  intros Hall Hs. unfold sum_of_traces.
  rewrite (foldl_add_traces_lookup _ _ s 0).
  - done.
  - eapply Forall_impl; [exact Hall|]. simpl. intros t Ht.
    unfold Np.zeros, len in *. rewrite length_replicate. lia.
  - unfold Np.zeros. apply lookup_replicate_2. lia.
Qed.

Lemma matching_indices_length p k waveforms :
  length (matching_indices p k waveforms) = length (filter (fun wf => p wf = true) waveforms).
Proof.
  revert k. induction waveforms as [|wf waveforms IH]; intros k; [done|]. simpl.
  destruct (p wf) eqn:Hp.
  - rewrite filter_cons_True by done. simpl. by rewrite IH.
  - rewrite filter_cons_False by (by rewrite Hp). apply IH.
Qed.

(** The first index found and the first waveform that passes go
    together. *)
Lemma matching_indices_head p (pre waveforms : list Waveform) k0 idcs :
  matching_indices p (len pre) waveforms = k0 :: idcs ->
  exists wf sel,
    filter (fun wf => p wf = true) waveforms = wf :: sel /\
    getitem (pre ++ waveforms) k0 = Ok wf.
Proof.
  revert pre. induction waveforms as [|wf waveforms IH]; intros pre; [done|]. simpl.
  destruct (p wf) eqn:Hp.
  - intros [= <- _]. rewrite filter_cons_True by done.
    exists wf, (filter (fun wf => p wf = true) waveforms).
    split; [done|]. apply getitem_middle.
  - rewrite filter_cons_False by (by rewrite Hp). intros Hm.
    specialize (IH (pre ++ [wf])).
    replace (len (pre ++ [wf])) with (len pre + 1) in IH
      by (unfold len; rewrite length_app; simpl; lia).
    destruct (IH Hm) as (wf1 & sel & Hsel & Hget).
    exists wf1, sel. split; [done|]. by rewrite <- app_assoc in Hget.
Qed.

(** The loop of the mean with a selector, on traces of the length of the
    accumulator, with a selector that answers on every waveform. *)
Lemma with_selector_loop_spec test p (rest pre : list Waveform) aux added_wvfs :
  (forall wf, wf ∈ rest -> test wf = Ok (p wf)) ->
  Forall (fun wf => length (Adcs wf) = length aux) rest ->
  with_selector_loop (pre ++ rest) test (seqZ (len pre) (len rest)) aux added_wvfs
  = Ok (foldl add_traces aux (Adcs <$> filter (fun wf => p wf = true) rest),
        added_wvfs ++ matching_indices p (len pre) rest).
Proof.
  revert pre aux added_wvfs.
  induction rest as [|wf rest IH]; intros pre aux added_wvfs Htest Hall.
  { simpl. by rewrite app_nil_r. }
  apply Forall_cons in Hall as [Hwf Hall].
  rewrite seqZ_cons by (unfold len; simpl; lia). simpl.
  rewrite getitem_middle. simpl. rewrite Htest by (by left). simpl.
  replace (Z.pred (len (wf :: rest))) with (len rest) by (unfold len; simpl; lia).
  assert (Hnext : forall aux' added',
            length aux' = length aux ->
            with_selector_loop (pre ++ wf :: rest) test
                               (seqZ (Z.succ (len pre)) (len rest)) aux' added'
            = Ok (foldl add_traces aux'
                        (Adcs <$> filter (fun wf => p wf = true) rest),
                  added' ++ matching_indices p (len pre + 1) rest)).
  { intros aux' added' Hlen. specialize (IH (pre ++ [wf]) aux' added').
    replace (len (pre ++ [wf])) with (Z.succ (len pre)) in IH
      by (unfold len; rewrite length_app; simpl; lia).
    rewrite <- app_assoc in IH. simpl in IH.
    replace (len pre + 1) with (Z.succ (len pre)) by lia.
    apply IH; [intros wf' Hwf'; apply Htest; by right|].
    eapply Forall_impl; [exact Hall|]. simpl. intros wf' ->. done. }
  destruct (p wf) eqn:Hp.
  - rewrite iadd_same_length by done. simpl.
    rewrite Hnext by (by apply add_traces_length).
    rewrite filter_cons_True by done. simpl. by rewrite <- app_assoc.
  - rewrite Hnext by done. by rewrite filter_cons_False by (by rewrite Hp).
Qed.

Lemma mean_with_a_selector_spec ws args f (p : Waveform -> bool) :
  Waveforms ws <> [] ->
  Forall (fun wf => len (Adcs wf) = PointsPerWf ws) (Waveforms ws) ->
  check_selector_signature (inspect_signature f) = Ok () ->
  (forall wf, wf ∈ Waveforms ws -> call f wf args = Ok (p wf)) ->
  compute_mean_waveform ws args None (Some f)
  = match filter (fun wf => p wf = true) (Waveforms ws) with
    | [] => (Raise EmptySelectionError_selector, ws)
    | wf1 :: selected =>
        let output :=
          mkWaveformAdcs
            (TimeStep_ns wf1)
            (Np.true_divide
               (sum_of_traces (PointsPerWf ws) (Adcs <$> wf1 :: selected))
               (len (wf1 :: selected))) in
        (Ok output, set_Mean ws output (matching_indices p 0 (Waveforms ws)))
    end.
Proof.
  intros Hne Hall Hcheck Hsel. unfold compute_mean_waveform.
  rewrite bool_decide_eq_false_2, Hcheck.
  2:{ unfold len. destruct (Waveforms ws); [done|]. simpl. lia. }
  unfold __compute_mean_waveform_with_selector.
  pose proof (with_selector_loop_spec (fun wf => call f wf args) p
                (Waveforms ws) [] (Np.zeros (PointsPerWf ws)) [] Hsel) as Hloop.
  change (len []) with 0 in Hloop. simpl in Hloop. unfold range.
  rewrite Hloop.
  2:{ eapply Forall_impl; [exact Hall|]. simpl. intros wf Hwf.
      unfold Np.zeros, len in *. rewrite length_replicate. lia. }
  simpl. clear Hloop.
  pose proof (matching_indices_length p 0 (Waveforms ws)) as Hlen.
  destruct (matching_indices p 0 (Waveforms ws)) as [|k0 idcs] eqn:Hidcs.
  { destruct (filter _ (Waveforms ws)); [done|]. simpl in Hlen. lia. }
  destruct (matching_indices_head p [] (Waveforms ws) k0 idcs Hidcs)
    as (wf1 & sel & Hfilter & Hget).
  simpl in Hget. rewrite Hfilter in *.
  rewrite bool_decide_eq_false_2 by (unfold len; simpl; lia).
  change (getitem (k0 :: idcs) 0) with (Ok k0). simpl.
  rewrite Hget. simpl. unfold sum_of_traces, len. simpl.
  simpl in Hlen. injection Hlen as ->. done.
Qed.








(** X19: on any set, as long as no index is negative, the indices that
    are too large change nothing: the call returns what it returns on the
    valid indices alone, and leaves the set as that call does. *)
Theorem X19_indices_too_large_are_skipped ws args wf_idcs wf_selector :
  Forall (fun i => 0 <= i) wf_idcs ->
  compute_mean_waveform ws args (Some wf_idcs) wf_selector
  = compute_mean_waveform ws args
      (Some (filter (fun i => 0 <= i < len (Waveforms ws)) wf_idcs)) wf_selector.
Proof. apply mean_of_given_waveforms_skips_large_indices. Qed.

Lemma X19_indices_too_large_are_skipped_witness :
  compute_mean_waveform sample_set [] (Some [7; 2; 3; 2; 999]) None
  = compute_mean_waveform sample_set [] (Some [2; 2]) None.
Proof.
  apply (X19_indices_too_large_are_skipped sample_set [] [7; 2; 3; 2; 999] None).
  repeat constructor; lia.
Defined.

(** ** What the mean leaves alone *)

Lemma iadd_length a b c : Np.iadd a b = Ok c -> length c = length a.
Proof.
  unfold Np.iadd. case_bool_decide as Hlen.
  - intros [= <-]. rewrite length_zip_with. lia.
  - destruct b as [|b0 [|]]; [done| |done]. intros [= <-].
    by rewrite length_fmap.
Qed.

(** Whatever the indices, the loop of the mean over every waveform writes
    to the trace of the first waveform only, and keeps its length. *)
Lemma every_waveform_loop_frame idcs wf0 a rest :
  length a = length (Adcs wf0) ->
  exists a',
    snd (every_waveform_loop idcs (set_Adcs wf0 a :: rest)) = set_Adcs wf0 a' :: rest /\
    length a' = length (Adcs wf0).
Proof.
  revert a. induction idcs as [|i idcs IH]; intros a Hlen; simpl.
  { by exists a. }
  change (getitem (set_Adcs wf0 a :: rest) 0) with (Ok (set_Adcs wf0 a)). simpl.
  destruct (getitem (set_Adcs wf0 a :: rest) i) as [wf|]; simpl.
  2:{ by exists a. }
  unfold Np.iadd_into. destruct (Np.promoted_to_float64 _ _); simpl.
  { by exists a. }
  destruct (Np.iadd a (Adcs wf)) as [aux|] eqn:Hadd; simpl.
  2:{ by exists a. }
  apply iadd_length in Hadd. apply IH. rewrite length_fmap. lia.
Qed.

Lemma compute_mean_waveform_frame ws args wf_idcs wf_selector :
  let ws' := snd (compute_mean_waveform ws args wf_idcs wf_selector) in
  PointsPerWf ws' = PointsPerWf ws /\
  Runs ws' = Runs ws /\
  AvailableChannels ws' = AvailableChannels ws /\
  match Waveforms ws with
  | [] => Waveforms ws' = []
  | wf0 :: rest =>
      exists wf0', Waveforms ws' = wf0' :: rest /\ same_but_trace_values wf0 wf0'
  end.
Proof.
  assert (Hsame : match Waveforms ws with
                  | [] => Waveforms ws = []
                  | wf0 :: rest =>
                      exists wf0', Waveforms ws = wf0' :: rest /\
                                   same_but_trace_values wf0 wf0'
                  end).
  { destruct (Waveforms ws) as [|wf0 rest]; [done|]. exists wf0. split; [done|].
    exists (Adcs wf0). by rewrite set_Adcs_same. }
  unfold compute_mean_waveform.
  case_bool_decide as Hempty; [done|].
  destruct wf_idcs as [idcs|]; [|destruct wf_selector as [f|]].
  - destruct (existsb _ _); [|done].
    unfold __compute_mean_waveform_of_given_waveforms.
    by destruct (_ ≫= _) as [[output added_wvfs]|e'].
  - destruct (check_selector_signature _); [|done].
    unfold __compute_mean_waveform_with_selector.
    by destruct (_ ≫= _) as [[output added_wvfs]|e'].
  - clear Hsame. unfold __compute_mean_waveform_of_every_waveform.
    destruct (Waveforms ws) as [|wf0 rest] eqn:Hwfs; [done|].
    change (getitem (wf0 :: rest) 0) with (Ok wf0). cbv iota.
    destruct (every_waveform_loop_frame (range2 1 (len (wf0 :: rest)))
                                        wf0 (Adcs wf0) rest eq_refl)
      as (a' & Hloop & Hlen).
    rewrite set_Adcs_same in Hloop.
    destruct (every_waveform_loop _ _) as [[[]|e'] waveforms']; simpl in Hloop;
      subst waveforms'.
    + change (getitem (set_Adcs wf0 a' :: rest) 0) with (Ok (set_Adcs wf0 a')).
      simpl. repeat split. exists (set_Adcs wf0 a'). split; [done|]. by exists a'.
    + simpl. repeat split. exists (set_Adcs wf0 a'). split; [done|]. by exists a'.
Qed.

(** X20: in every mode and whatever it returns, [compute_mean_waveform]
    leaves [PointsPerWf], [Runs] and [AvailableChannels] as they were and
    touches no waveform but the first; of the first it can change the
    values of the trace only, not its length nor anything else. *)
Theorem X20_what_the_mean_leaves_alone ws args wf_idcs wf_selector :
  let ws' := snd (compute_mean_waveform ws args wf_idcs wf_selector) in
  PointsPerWf ws' = PointsPerWf ws /\
  Runs ws' = Runs ws /\
  AvailableChannels ws' = AvailableChannels ws /\
  match Waveforms ws with
  | [] => Waveforms ws' = []
  | wf0 :: rest =>
      exists wf0', Waveforms ws' = wf0' :: rest /\ same_but_trace_values wf0 wf0'
  end.
Proof. apply compute_mean_waveform_frame. Qed.

Lemma compute_mean_waveform_keeps_the_cover ws args wf_idcs wf_selector :
  derived_sets_cover ws ->
  derived_sets_cover (snd (compute_mean_waveform ws args wf_idcs wf_selector)).
Proof.
  intros (Hne & Hruns & Hchans).
  destruct (compute_mean_waveform_frame ws args wf_idcs wf_selector)
    as (_ & Hr & Hc & Hwfs).
  unfold derived_sets_cover. rewrite Hr, Hc.
  destruct (Waveforms ws) as [|wf0 rest]; [done|].
  destruct Hwfs as (wf0' & -> & (adcs & -> & _)).
  split; [done|]. split.
  - intros wf [->|Hwf]%elem_of_cons.
    + apply (Hruns wf0). by left.
    + apply Hruns. by right.
  - intros wf [->|Hwf]%elem_of_cons.
    + apply (Hchans wf0). by left.
    + apply Hchans. by right.
Qed.

(** X21: the fast paths stay right after a mean.  On the set that a call
    of [compute_mean_waveform], in any mode, leaves of a set just
    constructed, and for a grid of filter arguments whose cells hold the
    arguments that the predicate takes (one for [match_run], two for
    [match_endpoint_and_channel]), each fast path still returns what the
    general path returns with its predicate. *)
Theorem X21_fast_paths_after_a_mean
    waveforms ws args wf_idcs wf_selector
    (blank_grid filter_args : grid) fMaxIsSet max_wfs_per_axes :
  WaveformSet_init waveforms = Ok ws ->
  let ws' := snd (compute_mean_waveform ws args wf_idcs wf_selector) in
  (cells_have_arity 1 filter_args ->
   __get_grid_of_wf_idcs_by_run ws' blank_grid filter_args fMaxIsSet max_wfs_per_axes
   = __get_grid_of_wf_idcs_general ws' blank_grid WaveformSet_match_run filter_args
                                   fMaxIsSet max_wfs_per_axes) /\
  (cells_have_arity 2 filter_args ->
   __get_grid_of_wf_idcs_by_endpoint_and_channel
     ws' blank_grid filter_args fMaxIsSet max_wfs_per_axes
   = __get_grid_of_wf_idcs_general
       ws' blank_grid WaveformSet_match_endpoint_and_channel filter_args
       fMaxIsSet max_wfs_per_axes).
Proof.
  intros Hws ws'. apply WaveformSet_init_derived_sets_cover in Hws.
  apply (compute_mean_waveform_keeps_the_cover ws args wf_idcs wf_selector) in Hws.
  split.
  - by apply by_run_equals_general_path.
  - by apply by_endpoint_and_channel_equals_general_path.
Qed.

Lemma X21_fast_paths_after_a_mean_witness :
  __get_grid_of_wf_idcs_by_run
    (snd (compute_mean_waveform sample_set [] None None))
    [[[]; []]] [[[11]; [99]]] true (Some 1)
  = __get_grid_of_wf_idcs_general
      (snd (compute_mean_waveform sample_set [] None None))
      [[[]; []]] WaveformSet_match_run [[[11]; [99]]] true (Some 1).
Proof.
  apply (X21_fast_paths_after_a_mean
           sample_waveforms sample_set [] None None [[[]; []]] [[[11]; [99]]]
           true (Some 1)).
  - reflexivity.
  - repeat constructor.
Defined.

(** X22: averaging over given indices or with a selector can be repeated:
    a second call with the same arguments, on the set that the first one
    left, returns what the first returned and leaves the set as the first
    left it. *)
Theorem X22_mean_of_a_selection_can_be_repeated ws args wf_idcs wf_selector r ws1 :
  wf_idcs <> None \/ wf_selector <> None ->
  compute_mean_waveform ws args wf_idcs wf_selector = (r, ws1) ->
  compute_mean_waveform ws1 args wf_idcs wf_selector = (r, ws1).
Proof.
  intros Hmode. unfold compute_mean_waveform.
  case_bool_decide as Hempty.
  { intros [= <- <-]. by rewrite bool_decide_eq_true_2. }
  destruct wf_idcs as [idcs|]; [|destruct wf_selector as [f|]].
  - destruct (existsb (is_valid_iterator_value ws) idcs) eqn:Hex.
    2:{ intros [= <- <-]. by rewrite bool_decide_eq_false_2, Hex. }
    unfold __compute_mean_waveform_of_given_waveforms.
    destruct (_ ≫= _) as [[output added_wvfs]|e'] eqn:Hloop.
    + intros [= <- <-]. simpl.
      rewrite bool_decide_eq_false_2 by done.
      unfold is_valid_iterator_value in *. simpl. rewrite Hex.
      unfold __compute_mean_waveform_of_given_waveforms. simpl. by rewrite Hloop.
    + intros [= <- <-]. rewrite bool_decide_eq_false_2, Hex by done.
      unfold __compute_mean_waveform_of_given_waveforms. by rewrite Hloop.
  - destruct (check_selector_signature _) eqn:Hcheck.
    2:{ intros [= <- <-]. by rewrite bool_decide_eq_false_2. }
    unfold __compute_mean_waveform_with_selector.
    destruct (_ ≫= _) as [[output added_wvfs]|e'] eqn:Hloop.
    + intros [= <- <-]. simpl.
      rewrite bool_decide_eq_false_2 by done.
      unfold __compute_mean_waveform_with_selector. simpl. by rewrite Hloop.
    + intros [= <- <-]. rewrite bool_decide_eq_false_2 by done.
      unfold __compute_mean_waveform_with_selector. by rewrite Hloop.
  - by destruct Hmode.
Qed.

Lemma X22_mean_of_a_selection_can_be_repeated_witness :
  compute_mean_waveform cached_set [] (Some [2; 2; 999]) None
  = (Ok (mkWaveformAdcs 16 [inject_Z 10; inject_Z 20]), cached_set).
Proof.
  apply (X22_mean_of_a_selection_can_be_repeated
           sample_set [] (Some [2; 2; 999]) None).
  - left. discriminate.
  - reflexivity.
Defined.

(** X23: on a set as its constructor leaves it, the mean over the
    waveforms of a run, asked for with [match_run] as the selector, fails
    for want of waveforms exactly when the run is not in [Runs]. *)
Theorem X23_mean_of_a_run waveforms ws run :
  WaveformSet_init waveforms = Ok ws ->
  (fst (compute_mean_waveform ws [run] None (Some WaveformSet_match_run))
   = Raise EmptySelectionError_selector
   <-> run ∉ Runs ws) /\
  (run ∈ Runs ws ->
   exists output,
     fst (compute_mean_waveform ws [run] None (Some WaveformSet_match_run))
     = Ok output).
Proof.
  intros Hws. pose proof Hws as Hinit.
  apply WaveformSet_init_Ok in Hws
    as (Hne & Hwfs & Hruns & _ & _ & _ & Hall).
  rewrite <- Hwfs in Hne, Hall.
  rewrite (mean_with_a_selector_spec ws [run] WaveformSet_match_run
                                     (fun wf => match_run wf run));
    [|done|done|done|by intros].
  assert (Hin : run ∈ Runs ws <->
                exists wf, wf ∈ Waveforms ws /\ match_run wf run = true).
  { rewrite Hruns, update_runs_eq, Hwfs.
    rewrite elem_of_union, elem_of_list_to_set, list_elem_of_fmap. split.
    - intros [(wf & -> & Hwf)|Hempty]; [|set_solver].
      exists wf. split; [done|]. by apply bool_decide_eq_true_2.
    - intros (wf & Hwf & Hm). left. exists wf.
      apply bool_decide_eq_true in Hm. done. }
  destruct (filter _ (Waveforms ws)) as [|wf1 sel] eqn:Hfilter; simpl.
  - assert (Hnot : run ∉ Runs ws).
    { rewrite Hin. intros (wf & Hwf & Hm).
      assert (wf ∈ filter (fun wf => match_run wf run = true) (Waveforms ws))
        as Hf by (by apply list_elem_of_filter).
      rewrite Hfilter in Hf. by apply elem_of_nil in Hf. }
    split; [done|]. intros ?. done.
  - assert (Hyes : run ∈ Runs ws).
    { rewrite Hin. exists wf1.
      assert (wf1 ∈ filter (fun wf => match_run wf run = true) (Waveforms ws))
        as Hf by (rewrite Hfilter; by left).
      by apply list_elem_of_filter in Hf as [? ?]. }
    split; [split; [done|by intros ?]|]. intros _. by eexists.
Qed.

Lemma X23_mean_of_a_run_witness :
  (fst (compute_mean_waveform sample_set [99] None (Some WaveformSet_match_run))
   = Raise EmptySelectionError_selector
   <-> 99 ∉ Runs sample_set) /\
  (99 ∈ Runs sample_set ->
   exists output,
     fst (compute_mean_waveform sample_set [99] None (Some WaveformSet_match_run))
     = Ok output).
Proof.
  apply (X23_mean_of_a_run sample_waveforms sample_set 99). reflexivity.
Defined.

(** ** The string of the first integers of a list *)

Lemma string_app_cons c (s t : string) : String c s +:+ t = String c (s +:+ t).
Proof. reflexivity. Qed.

Lemma string_app_nil_l (s : string) : "" +:+ s = s.
Proof. reflexivity. Qed.

Lemma string_app_assoc (s1 s2 s3 : string) : (s1 +:+ s2) +:+ s3 = s1 +:+ (s2 +:+ s3).
Proof.
  induction s1 as [|c s1 IH]; [done|]. rewrite !string_app_cons. by rewrite IH.
Qed.

Lemma string_app_nil_r (s : string) : s +:+ "" = s.
Proof. induction s as [|c s IH]; [done|]. rewrite string_app_cons. by rewrite IH. Qed.

Lemma string_length_app (s1 s2 : string) :
  String.length (s1 +:+ s2) = (String.length s1 + String.length s2)%nat.
Proof.
  induction s1 as [|c s1 IH]; [done|]. rewrite string_app_cons. simpl. by rewrite IH.
Qed.

Lemma substring_prefix (s t : string) :
  String.substring 0 (String.length s) (s +:+ t) = s.
Proof.
  induction s as [|c s IH].
  - rewrite string_app_nil_l. by destruct t.
  - rewrite string_app_cons. simpl. by rewrite IH.
Qed.

(** [(s + ',')[:-1]] is [s], and [''[:-1]] is empty. *)
Lemma slice_drops_the_last_comma (s : string) : PyStr.slice (s +:+ ",") 0 (-1) = s.
Proof.
  unfold PyStr.slice. rewrite string_length_app. simpl String.length.
  change (0 <? 0) with false. change (-1 <? 0) with true. cbv iota.
  replace (Z.to_nat (Z.min 0 (Z.of_nat (String.length s + 1)))) with 0%nat by lia.
  replace (Z.to_nat (Z.max 0 (-1 + Z.of_nat (String.length s + 1))
                     - Z.min 0 (Z.of_nat (String.length s + 1))))
    with (String.length s) by lia.
  apply substring_prefix.
Qed.

Lemma get_string_of_first_n_integers_loop_spec (rest pre post : list Z) output :
  get_string_of_first_n_integers_loop (pre ++ rest ++ post)
                                      (seqZ (len pre) (len rest)) output
  = Ok (output +:+ with_trailing_commas rest).
Proof.
  revert pre output. induction rest as [|x rest IH]; intros pre output.
  { simpl. by rewrite string_app_nil_r. }
  rewrite seqZ_cons by (unfold len; simpl; lia). simpl.
  rewrite getitem_middle. simpl.
  specialize (IH (pre ++ [x]) (output +:+ (PyStr.str x +:+ ","))).
  replace (len (pre ++ [x])) with (Z.succ (len pre)) in IH
    by (unfold len; rewrite length_app; simpl; lia).
  replace (Z.pred (len (x :: rest))) with (len rest) by (unfold len; simpl; lia).
  rewrite <- app_assoc in IH. simpl in IH. rewrite IH.
  by rewrite !string_app_assoc.
Qed.

Lemma with_trailing_commas_concat x (l : list Z) :
  with_trailing_commas (x :: l)
  = String.concat "," (PyStr.str <$> x :: l) +:+ ",".
Proof.
  revert x. induction l as [|y l IH]; intros x.
  { simpl. by rewrite string_app_nil_r. }
  change (with_trailing_commas (x :: y :: l))
    with (PyStr.str x +:+ "," +:+ with_trailing_commas (y :: l)).
  rewrite IH.
  change (String.concat "," (PyStr.str <$> x :: y :: l))
    with (PyStr.str x +:+ "," +:+ String.concat "," (PyStr.str <$> y :: l)).
  by rewrite !string_app_assoc.
Qed.

Lemma slice_with_trailing_commas (l : list Z) :
  PyStr.slice (with_trailing_commas l) 0 (-1) = String.concat "," (PyStr.str <$> l).
Proof.
  destruct l as [|x l]; [done|].
  rewrite with_trailing_commas_concat. apply slice_drops_the_last_comma.
Qed.

(** X24: asked for at least one integer,
    [get_string_of_first_n_integers_if_available] returns the decimal
    forms of the first [queried_no] integers of the list, or of all of
    them when the list has fewer, separated by commas; and it adds [,...]
    exactly when the list has at least [queried_no] integers, so also when
    it has exactly that many and none was left out.  Asked for less than
    one, it raises. *)
Theorem X24_string_of_the_first_integers (input_list : list Z) (queried_no : Z) :
  (queried_no < 1 ->
   get_string_of_first_n_integers_if_available input_list queried_no
   = Raise (GenericException
              1 "WaveformSet.get_string_of_first_n_integers_if_available()")) /\
  (1 <= queried_no ->
   get_string_of_first_n_integers_if_available input_list queried_no
   = Ok (String.concat "," (PyStr.str <$> take (Z.to_nat queried_no) input_list)
         +:+ (if bool_decide (queried_no <= len input_list) then ",..." else ""))).
Proof.
  unfold get_string_of_first_n_integers_if_available. split.
  { intros Hq. by rewrite bool_decide_eq_true_2. }
  intros Hq. rewrite bool_decide_eq_false_2 by lia.
  destruct (decide (queried_no > len input_list)) as [Hmore|Hless].
  - rewrite (bool_decide_eq_true_2 _ Hmore).
    rewrite bool_decide_eq_false_2 by lia.
    pose proof (get_string_of_first_n_integers_loop_spec input_list [] [] "") as Hloop.
    rewrite app_nil_r in Hloop. change (len []) with 0 in Hloop. simpl in Hloop.
    unfold range. rewrite Hloop. simpl.
    rewrite string_app_nil_l, slice_with_trailing_commas, string_app_nil_r.
    rewrite take_ge by (unfold len in *; lia). done.
  - rewrite (bool_decide_eq_false_2 _ Hless).
    rewrite bool_decide_eq_true_2 by lia.
    pose proof (get_string_of_first_n_integers_loop_spec
                  (take (Z.to_nat queried_no) input_list) []
                  (drop (Z.to_nat queried_no) input_list) "") as Hloop.
    simpl in Hloop. rewrite take_drop in Hloop. change (len []) with 0 in Hloop.
    replace (len (take (Z.to_nat queried_no) input_list)) with queried_no in Hloop
      by (unfold len in *; rewrite length_take; lia).
    unfold range. rewrite Hloop. simpl.
    by rewrite string_app_nil_l, slice_with_trailing_commas.
Qed.

Lemma X24_string_of_the_first_integers_witness :
  get_string_of_first_n_integers_if_available [4; -7; 12] 0
  = Raise (GenericException
             1 "WaveformSet.get_string_of_first_n_integers_if_available()") /\
  get_string_of_first_n_integers_if_available [4; -7; 12] 3
  = Ok "4,-7,12,..."%string /\
  get_string_of_first_n_integers_if_available [4; -7; 12] 5
  = Ok "4,-7,12"%string.
Proof.
  split; [|split].
  - apply (proj1 (X24_string_of_the_first_integers [4; -7; 12] 0)). lia.
  - apply (proj2 (X24_string_of_the_first_integers [4; -7; 12] 3)). lia.
  - apply (proj2 (X24_string_of_the_first_integers [4; -7; 12] 5)). lia.
Defined.

(** ** Endpoint and channel of a five-digit number *)

Lemma digit_value_pretty_N_char (d : N) :
  (d < 10)%N -> PyStr.digit_value (pretty_N_char d) = Some (Z.of_N d).
Proof.
  intros Hd.
  assert (d = 0 \/ d = 1 \/ d = 2 \/ d = 3 \/ d = 4 \/ d = 5
          \/ d = 6 \/ d = 7 \/ d = 8 \/ d = 9)%N as Hcases by lia.
  repeat (destruct Hcases as [->|Hcases]; [reflexivity|]). by subst d.
Qed.

Lemma digits_value_pretty_N_char (d : N) (acc : Z) (s : string) :
  (d < 10)%N ->
  PyStr.digits_value acc (String (pretty_N_char d) s)
  = PyStr.digits_value (10 * acc + Z.of_N d) s.
Proof.
  intros Hd. cbn [PyStr.digits_value]. by rewrite digit_value_pretty_N_char.
Qed.

(** A string that starts with a digit has no sign for [int] to read. *)
Lemma int_of_a_leading_digit (d : N) (s : string) :
  (d < 10)%N ->
  PyStr.int (String (pretty_N_char d) s)
  = PyStr.int_of_digits (String (pretty_N_char d) s).
Proof.
  intros Hd.
  assert (d = 0 \/ d = 1 \/ d = 2 \/ d = 3 \/ d = 4 \/ d = 5
          \/ d = 6 \/ d = 7 \/ d = 8 \/ d = 9)%N as Hcases by lia.
  repeat (destruct Hcases as [->|Hcases]; [reflexivity|]). by subst d.
Qed.

Lemma str_of_five_digits (x : N) :
  (10000 <= x <= 99999)%N ->
  pretty_N_go x ""
  = String (pretty_N_char ((x `div` 10000) `mod` 10))
      (String (pretty_N_char ((x `div` 1000) `mod` 10))
         (String (pretty_N_char ((x `div` 100) `mod` 10))
            (String (pretty_N_char ((x `div` 10) `mod` 10))
               (String (pretty_N_char (x `mod` 10)) "")))).
Proof.
  intros Hx.
  assert ((x `div` 10) `div` 10 = x `div` 100)%N as H100
    by (rewrite N.Div0.div_div; done).
  assert ((x `div` 100) `div` 10 = x `div` 1000)%N as H1000
    by (rewrite N.Div0.div_div; done).
  assert ((x `div` 1000) `div` 10 = x `div` 10000)%N as H10000
    by (rewrite N.Div0.div_div; done).
  assert ((x `div` 10000) `div` 10 = 0)%N as H0
    by (rewrite N.Div0.div_div; apply N.div_small; lia).
  assert (0 < x `div` 10)%N by (apply N.div_str_pos; lia).
  assert (0 < x `div` 100)%N by (apply N.div_str_pos; lia).
  assert (0 < x `div` 1000)%N by (apply N.div_str_pos; lia).
  assert (0 < x `div` 10000)%N by (apply N.div_str_pos; lia).
  rewrite pretty_N_go_step by lia.
  rewrite pretty_N_go_step, H100 by lia.
  rewrite pretty_N_go_step, H1000 by lia.
  rewrite pretty_N_go_step, H10000 by lia.
  rewrite pretty_N_go_step, H0 by lia.
  by rewrite pretty_N_go_0.
Qed.

(** X25: on a five-digit number [get_endpoint_and_channel] returns its
    first three digits as the endpoint and its last two as the channel:
    the number is [100 * endpoint + channel]. *)
Theorem X25_endpoint_and_channel_of_five_digits (input : Z) :
  10000 <= input <= 99999 ->
  get_endpoint_and_channel input = Ok (input / 100, input mod 100).
Proof.
  intros Hin. unfold get_endpoint_and_channel, PyStr.str.
  destruct input as [|p|p]; [lia| |lia].
  unfold pretty, pretty_Z, pretty, pretty_positive, pretty, pretty_N.
  rewrite decide_False by done.
  rewrite str_of_five_digits by lia.
  set (x := N.pos p).
  assert ((x `div` 10000) `mod` 10 < 10)%N by (apply N.mod_lt; done).
  assert ((x `div` 1000) `mod` 10 < 10)%N by (apply N.mod_lt; done).
  assert ((x `div` 100) `mod` 10 < 10)%N by (apply N.mod_lt; done).
  assert ((x `div` 10) `mod` 10 < 10)%N by (apply N.mod_lt; done).
  assert (x `mod` 10 < 10)%N by (apply N.mod_lt; done).
  change (PyStr.slice (String ?a (String ?b (String ?c (String ?d (String ?e ""))))) 0 3)
    with (String a (String b (String c ""))).
  change (PyStr.slice (String ?a (String ?b (String ?c (String ?d (String ?e ""))))) 3 5)
    with (String d (String e "")).
  rewrite !int_of_a_leading_digit by done.
  unfold PyStr.int_of_digits.
  rewrite !digits_value_pretty_N_char by done.
  cbn [PyStr.digits_value mbind result_bind].
  f_equal. change (Z.pos p) with (Z.of_N x) in *.
  rewrite !N2Z.inj_mod, !N2Z.inj_div. change (Z.of_N 10) with 10.
  change (Z.of_N 100) with 100. change (Z.of_N 1000) with 1000.
  change (Z.of_N 10000) with 10000.
  generalize dependent (Z.of_N x). intros z Hz. clear - Hz.
  f_equal; Z.div_mod_to_equations; lia.
Qed.

Lemma X25_endpoint_and_channel_of_five_digits_witness :
  10000 <= 11225 <= 99999 /\ get_endpoint_and_channel 11225 = Ok (112, 25).
Proof.
  split; [lia|].
  apply (X25_endpoint_and_channel_of_five_digits 11225). lia.
Defined.

Lemma str_of_four_digits (x : N) :
  (1000 <= x <= 9999)%N ->
  pretty_N_go x ""
  = String (pretty_N_char ((x `div` 1000) `mod` 10))
      (String (pretty_N_char ((x `div` 100) `mod` 10))
         (String (pretty_N_char ((x `div` 10) `mod` 10))
            (String (pretty_N_char (x `mod` 10)) ""))).
Proof.
  intros Hx.
  assert ((x `div` 10) `div` 10 = x `div` 100)%N as H100
    by (rewrite N.Div0.div_div; done).
  assert ((x `div` 100) `div` 10 = x `div` 1000)%N as H1000
    by (rewrite N.Div0.div_div; done).
  assert ((x `div` 1000) `div` 10 = 0)%N as H0
    by (rewrite N.Div0.div_div; apply N.div_small; lia).
  assert (0 < x `div` 10)%N by (apply N.div_str_pos; lia).
  assert (0 < x `div` 100)%N by (apply N.div_str_pos; lia).
  assert (0 < x `div` 1000)%N by (apply N.div_str_pos; lia).
  rewrite pretty_N_go_step by lia.
  rewrite pretty_N_go_step, H100 by lia.
  rewrite pretty_N_go_step, H1000 by lia.
  rewrite pretty_N_go_step, H0 by lia.
  by rewrite pretty_N_go_0.
Qed.

Lemma short_inputs_have_no_channel :
  forallb (fun input => match get_endpoint_and_channel input with
                        | Raise ValueError => true
                        | _ => false
                        end) (seqZ (-99) 1099) = true.
Proof. vm_compute. reflexivity. Qed.

(** X26: a number whose decimal form has at most three characters, sign
    included, leaves nothing for the channel, and
    [get_endpoint_and_channel] raises [ValueError]. *)
Theorem X26_short_input_raises_ValueError (input : Z) :
  -99 <= input <= 999 ->
  get_endpoint_and_channel input = Raise ValueError.
Proof.
  intros Hin.
  pose proof short_inputs_have_no_channel as Hall.
  rewrite forallb_forall in Hall.
  specialize (Hall input). rewrite <- list_elem_of_In, elem_of_seqZ in Hall.
  specialize (Hall ltac:(lia)).
  destruct (get_endpoint_and_channel input) as [?|[]]; done.
Qed.

Lemma X26_short_input_raises_ValueError_witness :
  -99 <= 123 <= 999 /\ get_endpoint_and_channel 123 = Raise ValueError.
Proof.
  split; [lia|]. apply (X26_short_input_raises_ValueError 123). lia.
Defined.

(** X27: a four-digit number is not refused by
    [get_endpoint_and_channel]: its first three digits are returned as
    the endpoint and its last digit alone as the channel. *)
Theorem X27_four_digits_are_not_refused (input : Z) :
  1000 <= input <= 9999 ->
  get_endpoint_and_channel input = Ok (input / 10, input mod 10).
Proof.
  intros Hin. unfold get_endpoint_and_channel, PyStr.str.
  destruct input as [|p|p]; [lia| |lia].
  unfold pretty, pretty_Z, pretty, pretty_positive, pretty, pretty_N.
  rewrite decide_False by done.
  rewrite str_of_four_digits by lia.
  set (x := N.pos p).
  assert ((x `div` 1000) `mod` 10 < 10)%N by (apply N.mod_lt; done).
  assert ((x `div` 100) `mod` 10 < 10)%N by (apply N.mod_lt; done).
  assert ((x `div` 10) `mod` 10 < 10)%N by (apply N.mod_lt; done).
  assert (x `mod` 10 < 10)%N by (apply N.mod_lt; done).
  change (PyStr.slice (String ?a (String ?b (String ?c (String ?d "")))) 0 3)
    with (String a (String b (String c ""))).
  change (PyStr.slice (String ?a (String ?b (String ?c (String ?d "")))) 3 5)
    with (String d "").
  rewrite !int_of_a_leading_digit by done.
  unfold PyStr.int_of_digits.
  rewrite !digits_value_pretty_N_char by done.
  cbn [PyStr.digits_value mbind result_bind].
  f_equal. change (Z.pos p) with (Z.of_N x) in *.
  rewrite !N2Z.inj_mod, !N2Z.inj_div. change (Z.of_N 10) with 10.
  change (Z.of_N 100) with 100. change (Z.of_N 1000) with 1000.
  generalize dependent (Z.of_N x). intros z Hz. clear - Hz.
  f_equal; Z.div_mod_to_equations; lia.
Qed.

Lemma X27_four_digits_are_not_refused_witness :
  1000 <= 1123 <= 9999 /\ get_endpoint_and_channel 1123 = Ok (112, 3).
Proof.
  split; [lia|]. apply (X27_four_digits_are_not_refused 1123). lia.
Defined.
